(** * Idefics2 Perceiver resampler (perceiver_transformer.py): shallow embedding

    The Python module is embedded function by function.  Tensors are
    represented by what the verified properties depend on: their shape
    (a list of sizes), plus contents where the code moves contents around
    without computing on them (the inference key/value cache, DropPath's
    pass-through branch, the state dictionary).  Numerical kernels of
    torch / megatron.core / flash_attn are library code; they appear through
    their shape behaviour and their failure conditions.  Python exceptions
    are values of an error monad. *)

From Stdlib Require Import ZArith Floats.
From stdpp Require Import base option list gmap strings.

Open Scope Z_scope.
Open Scope nat_scope.

(** ** Python exceptions and the error monad *)

Inductive exn : Type :=
  | AssertionError (site : string)
  | ValueError (site : string)
  | RuntimeError (site : string)
  | TypeError (site : string)
  | IndexError (site : string)
  | UnboundLocalError (var : string)
  | AttributeError (name : string)
  | NameError (name : string)
  | KeyError (key : string)
  | Hang (* not an exception: the call does not return *)
  | ZeroDivisionError
  | ImportError
  | NotImplementedError
  | Exception (msg : string).

Inductive result (A : Type) : Type :=
  | Ok (a : A)
  | Raise (e : exn).
Arguments Ok {A} a.
Arguments Raise {A} e.

#[export] Instance result_ret : MRet result := fun A a => Ok a.
#[export] Instance result_bind : MBind result := fun A B f m =>
  match m with
  | Ok a => f a
  | Raise e => Raise e
  end.

Definition is_ok {A} (r : result A) : bool :=
  match r with Ok _ => true | Raise _ => false end.

Definition raises {A} (r : result A) : Prop := exists e, r = Raise e.

(** [r] is a Python exception: the call comes back to its caller. *)
Definition fails {A} (r : result A) : Prop := exists e, r = Raise e /\ e <> Hang.

(** [r] is not a call that does not return. *)
Definition never_hangs {A} (r : result A) : Prop := r <> Raise Hang.

(** [assert cond, site] *)
Definition py_assert (cond : bool) (site : string) : result unit :=
  if cond then Ok tt else Raise (AssertionError site).

(** Reading a local variable that may not have been assigned. *)
Definition py_local {A} (name : string) (v : option A) : result A :=
  match v with
  | Some a => Ok a
  | None => Raise (UnboundLocalError name)
  end.

(** [l[i]] on a Python list, with negative indices counting from the end. *)
Definition py_getitem {A} (l : list A) (i : Z) : result A :=
  let n := Z.of_nat (length l) in
  let j := if (i <? 0)%Z then (n + i)%Z else i in
  if ((0 <=? j)%Z && (j <? n)%Z)%bool then
    match l !! Z.to_nat j with
    | Some a => Ok a
    | None => Raise (IndexError "list index out of range")
    end
  else Raise (IndexError "list index out of range").

(** [range(n)] for an int [n]. *)
Definition py_range (n : Z) : list Z := Z.of_nat <$> seq 0 (Z.to_nat n).

(** ** Shape semantics of the torch operations the module uses *)

Module Torch.

Definition shape := list nat.

Definition shape_eqb (a b : shape) : bool := bool_decide (a = b).

Definition numel (s : shape) : nat := foldr Nat.mul 1 s.

Definition ndim (s : shape) : nat := length s.

(** [t.size(i)] / [t.shape[i]] for a non-negative literal [i]. *)
Definition size (s : shape) (i : nat) : result nat :=
  match s !! i with
  | Some n => Ok n
  | None => Raise (IndexError "dimension out of range")
  end.

(** [t.size()[:-k]] *)
Definition drop_last (k : nat) (s : shape) : shape := take (length s - k) s.

(** The sizes given to [view]/[reshape]: [None] is the literal [-1]. *)
Definition known_product (dims : list (option nat)) : nat :=
  foldr (fun d acc => match d with Some n => n * acc | None => acc end) 1 dims.

Definition count_inferred (dims : list (option nat)) : nat :=
  length (filter (fun d => d = None) dims).

(** [t.view] and [t.reshape] agree on shapes: the element
    count must be preserved, at most one size may be [-1], and the
    inferred size must be determined. *)
Definition view (s : shape) (dims : list (option nat)) : result shape :=
  let n := numel s in
  let k := known_product dims in
  match count_inferred dims with
  | 0 =>
      if n =? k then Ok (default 0 <$> dims)
      else Raise (RuntimeError "shape is invalid for input size")
  | 1 =>
      if k =? 0 then Raise (RuntimeError "unspecified dimension is ambiguous")
      else if n mod k =? 0 then Ok (default (n / k) <$> dims)
      else Raise (RuntimeError "shape is invalid for input size")
  | _ => Raise (RuntimeError "only one dimension can be inferred")
  end.

Definition reshape := view.

(** [t.transpose(i, j)] *)
Definition transpose (s : shape) (i j : nat) : result shape :=
  match s !! i, s !! j with
  | Some a, Some b => Ok (<[j:=a]> (<[i:=b]> s))
  | _, _ => Raise (IndexError "dimension out of range")
  end.

(** [t.permute] *)
Definition permute (s : shape) (perm : list nat) : result shape :=
  if bool_decide (Permutation perm (seq 0 (length s))) then
    Ok (omap (fun i => s !! i) perm)
  else Raise (RuntimeError "permute: invalid dims").

(** A dimension index as Python writes it: negative values count from
    the end. *)
Definition wrap_dim (dim : Z) (n : nat) : result nat :=
  let d := if (dim <? 0)%Z then (Z.of_nat n + dim)%Z else dim in
  if ((0 <=? d)%Z && (d <? Z.of_nat n)%Z)%bool then Ok (Z.to_nat d)
  else Raise (IndexError "Dimension out of range").

(** [torch.cat([a, b], dim)].  No tensor may be zero-dimensional; an
    empty one-dimensional tensor is left out; [dim] is read against the
    first tensor that stays; the tensors that stay need equal rank and
    equal sizes off [dim]. *)
Definition cat (a b : shape) (dim : Z) : result shape :=
  if (length a =? 0) || (length b =? 0) then
    Raise (RuntimeError "zero-dimensional tensor cannot be concatenated")
  else if shape_eqb a [0] then
    if shape_eqb b [0] then Ok [0]
    else _ ← wrap_dim dim (length b); Ok b
  else
    d ← wrap_dim dim (length a);
    if shape_eqb b [0] then Ok a
    else if negb (length a =? length b) then
      Raise (RuntimeError "Tensors must have same number of dimensions")
    else if shape_eqb (<[d:=0]> a) (<[d:=0]> b) then
      Ok (<[d:=default 0 (a !! d) + default 0 (b !! d)]> a)
    else Raise (RuntimeError "Sizes of tensors must match except in dimension").

(** Broadcasting of two sizes, then of two shapes (right aligned). *)
Definition broadcast_dim (x y : nat) : option nat :=
  if x =? y then Some x
  else if x =? 1 then Some y
  else if y =? 1 then Some x
  else None.

Fixpoint broadcast_rev (a b : list nat) : option (list nat) :=
  match a, b with
  | [], _ => Some b
  | _, [] => Some a
  | x :: a', y :: b' =>
      d ← broadcast_dim x y;
      r ← broadcast_rev a' b';
      Some (d :: r)
  end.

Definition broadcast_shapes (a b : shape) : result shape :=
  match broadcast_rev (reverse a) (reverse b) with
  | Some r => Ok (reverse r)
  | None => Raise (RuntimeError "shapes are not broadcastable")
  end.

(** [a + b], [a * b] *)
Definition add := broadcast_shapes.
Definition mul := broadcast_shapes.

(** [bias.expand_as(other)]: [bias] must broadcast to exactly [other]. *)
Definition expand_as (s other : shape) : result shape :=
  r ← broadcast_shapes s other;
  if shape_eqb r other && (length s <=? length other) then Ok other
  else Raise (RuntimeError "expand: sizes must match").

(** [torch.bmm(a, b)] *)
Definition bmm (a b : shape) : result shape :=
  match a, b with
  | [ba; n; m], [bb; m'; p] =>
      if (ba =? bb) && (m =? m') then Ok [ba; n; p]
      else Raise (RuntimeError "bmm: batch1 and batch2 sizes do not match")
  | _, _ => Raise (RuntimeError "bmm: batch1 and batch2 must be 3D")
  end.

(** [torch.baddbmm(input, batch1, batch2, beta, alpha)] *)
Definition baddbmm (input a b : shape) : result shape :=
  r ← bmm a b;
  _ ← expand_as input r;
  Ok r.

(** A dense layer [y = x W^T] with [W : out_features x in_features]. *)
Definition linear (in_features out_features : nat) (x : shape) : result shape :=
  match reverse x with
  | last :: front =>
      if last =? in_features then Ok (reverse (out_features :: front))
      else Raise (RuntimeError "mat1 and mat2 shapes cannot be multiplied")
  | [] => Raise (RuntimeError "linear: input must have at least one dimension")
  end.

(** [torch.chunk(x, 2, dim=-1)]: pieces of size [ceil(n/2)]; a last
    dimension of size 1 yields a single piece. *)
Definition chunk2_last (x : shape) : result (list shape) :=
  match reverse x with
  | n :: front =>
      let c := (n + 1) / 2 in
      if n =? 1 then Ok [x]
      else Ok [reverse (c :: front); reverse ((n - c) :: front)]
  | [] => Raise (IndexError "dimension out of range")
  end.

(** Elementwise functions and softmax keep the shape. *)
Definition pointwise (x : shape) : shape := x.

(** [torch.nn.Dropout(p)] and [F.dropout(x, p, training)] refuse a
    probability outside [[0, 1]], in training and in evaluation mode. *)
Definition dropout_check (p : float) : result unit :=
  if ((p <? 0)%float || (1 <? p)%float)%bool
  then Raise (ValueError "dropout probability has to be between 0 and 1")
  else Ok tt.

(** [F.dropout(x, p, training)], and the call of a [torch.nn.Dropout]
    module with probability [p]. *)
Definition dropout (x : shape) (p : float) : result shape :=
  _ ← dropout_check p;
  Ok (pointwise x).

(** [torch.split(x, split_size, dim=-1)]: pieces of [split_size] along the
    last dimension, the last one shorter if need be; a split size of 0 is
    only allowed on a dimension of size 0 and yields the tensor itself. *)
Definition split_last (x : shape) (split_size : nat) : result (list shape) :=
  match reverse x with
  | n :: front =>
      if split_size =? 0 then
        if n =? 0 then Ok [x]
        else Raise (RuntimeError "split_size can only be 0 if dimension size is 0")
      else
        let full := n / split_size in
        let rest := n mod split_size in
        Ok (replicate full (reverse (split_size :: front))
            ++ (if rest =? 0 then (if n =? 0 then [x] else [])
                else [reverse (rest :: front)]))
  | [] => Raise (RuntimeError "split expects at least a 1-dimensional tensor")
  end.

(** [(a, b) = xs] *)
Definition unpack2 {X} (xs : list X) : result (X * X) :=
  match xs with
  | [a; b] => Ok (a, b)
  | _ => Raise (ValueError "not enough or too many values to unpack (expected 2)")
  end.

End Torch.

(** ** Configuration: the config record, the global arguments, the parallel state *)

Inductive ModelType := encoder_or_decoder | encoder_and_decoder | retro_encoder_model | retro_decoder_model.

Module LayerType.
Inductive t := encoder | decoder | retro_encoder | retro_decoder | retro_decoder_with_retriever.
#[global] Instance eq_dec : EqDecision t.
Proof. solve_decision. Defined.
End LayerType.

Module AttnMaskType.
Inductive t := padding | causal.
#[global] Instance eq_dec : EqDecision t.
Proof. solve_decision. Defined.
End AttnMaskType.

Module AttnType.
Inductive t := self_attn | cross_attn.
#[global] Instance eq_dec : EqDecision t.
Proof. solve_decision. Defined.
End AttnType.

#[export] Instance ModelType_eq_dec : EqDecision ModelType.
Proof. solve_decision. Defined.

(** The fields of [config] that the module reads.  [input_size],
    [output_size] (and the overridden [hidden_size], [ffn_hidden_size],
    [gated_linear_unit]) are set on deep copies by the callers. *)
Record Config := {
  add_bias_linear : bool;
  hidden_size : nat;
  text_hidden_size : nat;
  vision_hidden_size : nat;
  intermediate_size : nat;
  ffn_hidden_size : nat;
  input_size : nat;
  output_size : nat;
  gated_linear_unit : bool;
  kv_channels : nat;
  num_attention_heads : nat;
  num_layers : Z;
  n_latents : nat;
  sequence_parallel : bool;
  apply_query_key_layer_scaling : bool;
  attention_softmax_in_fp32 : bool;
  attention_dropout : float;
  hidden_dropout : float;
  bias_dropout_fusion : bool;
  apply_residual_connection_post_layernorm : bool;
  recompute_granularity : option string;
  recompute_method : option string;
  recompute_num_layers : Z;
  distribute_saved_activations : bool;
  virtual_pipeline_model_parallel_size : option Z
}.

Definition set_hidden_size (c : Config) (v : nat) : Config :=
  {| add_bias_linear := add_bias_linear c; hidden_size := v;
     text_hidden_size := text_hidden_size c; vision_hidden_size := vision_hidden_size c;
     intermediate_size := intermediate_size c; ffn_hidden_size := ffn_hidden_size c;
     input_size := input_size c; output_size := output_size c;
     gated_linear_unit := gated_linear_unit c; kv_channels := kv_channels c;
     num_attention_heads := num_attention_heads c; num_layers := num_layers c;
     n_latents := n_latents c; sequence_parallel := sequence_parallel c;
     apply_query_key_layer_scaling := apply_query_key_layer_scaling c;
     attention_softmax_in_fp32 := attention_softmax_in_fp32 c;
     attention_dropout := attention_dropout c; hidden_dropout := hidden_dropout c;
     bias_dropout_fusion := bias_dropout_fusion c;
     apply_residual_connection_post_layernorm := apply_residual_connection_post_layernorm c;
     recompute_granularity := recompute_granularity c;
     recompute_method := recompute_method c;
     recompute_num_layers := recompute_num_layers c;
     distribute_saved_activations := distribute_saved_activations c;
     virtual_pipeline_model_parallel_size := virtual_pipeline_model_parallel_size c |}.

(** [c.input_size = i; c.ffn_hidden_size = f; c.output_size = o;
    c.gated_linear_unit = g] on a deep copy of [c]. *)
Definition set_mlp_sizes (c : Config) (i f o : nat) (g : bool) : Config :=
  {| add_bias_linear := add_bias_linear c; hidden_size := hidden_size c;
     text_hidden_size := text_hidden_size c; vision_hidden_size := vision_hidden_size c;
     intermediate_size := intermediate_size c; ffn_hidden_size := f;
     input_size := i; output_size := o;
     gated_linear_unit := g; kv_channels := kv_channels c;
     num_attention_heads := num_attention_heads c; num_layers := num_layers c;
     n_latents := n_latents c; sequence_parallel := sequence_parallel c;
     apply_query_key_layer_scaling := apply_query_key_layer_scaling c;
     attention_softmax_in_fp32 := attention_softmax_in_fp32 c;
     attention_dropout := attention_dropout c; hidden_dropout := hidden_dropout c;
     bias_dropout_fusion := bias_dropout_fusion c;
     apply_residual_connection_post_layernorm := apply_residual_connection_post_layernorm c;
     recompute_granularity := recompute_granularity c;
     recompute_method := recompute_method c;
     recompute_num_layers := recompute_num_layers c;
     distribute_saved_activations := distribute_saved_activations c;
     virtual_pipeline_model_parallel_size := virtual_pipeline_model_parallel_size c |}.

(** [get_args()]: the global arguments the module reads. *)
Record Args := {
  openai_gelu : bool;
  onnx_safe : bool;
  swiglu : bool;
  squared_relu : bool;
  bias_gelu_fusion : bool;
  use_flash_attn : bool;
  group_query_attention : bool;
  num_query_groups : nat;
  args_add_bias_linear : bool;
  retro_add_retriever : bool;
  transformer_impl : string;
  args_num_layers : Z;
  args_model_type : ModelType;
  pipeline_model_parallel_split_rank : Z;
  fp8 : option string;
  retro_encoder_attention_dropout : float;
  retro_encoder_hidden_dropout : float;
  use_mistral_rotary_position_embeddings : bool
}.

(** What [get_retro_args()] hands back once the retro arguments are set. *)
Record RetroArgs := {
  retro_gpt_chunk_length : nat;
  retro_gpt_retrieved_length : nat
}.

(** [mpu]: the parallel state of the running process, and what the
    imports at the head of the module found.  [get_retro_args] is bound
    only by the first of the two import branches; called, it returns the
    retro arguments, or [None] while they are not set. *)
Record Mpu := {
  tensor_model_parallel_world_size : nat;
  tensor_model_parallel_rank : nat;
  pipeline_model_parallel_world_size : Z;
  pipeline_model_parallel_rank : Z;
  virtual_pipeline_model_parallel_rank : Z;
  flash_attn_unpadded_func_available : bool;
  rearrange_available : bool;
  get_retro_args_imported : bool;
  get_retro_args : option RetroArgs
}.

(** The rest of the process environment the top-level class consults:
    whether [transformer_engine] can be imported and which version
    boundaries it passes, [torch.linspace] (followed by [.item()] on every
    entry), [get_num_microbatches()] and [torch.is_grad_enabled()]. *)
Record Env := {
  transformer_engine_available : bool;
  te_version_ge_0_8 : bool;
  te_version_ge_0_10 : bool;
  te_version_ge_0_11 : bool;
  linspace : float -> float -> Z -> result (list float);
  get_num_microbatches : Z;
  is_grad_enabled : bool
}.

(** ** megatron.core building blocks, by their shapes *)

Module MegatronCore.
Import Torch.

(** [core.utils.divide]: exact division, asserted. *)
Definition divide (numerator denominator : nat) : result nat :=
  if denominator =? 0 then Raise ZeroDivisionError
  else
    _ ← py_assert (numerator mod denominator =? 0) "is not divisible by";
    Ok (numerator / denominator).

(** [tensor_parallel.ColumnParallelLinear]: the weight is split along
    its output dimension; with [gather_output=False] each rank keeps its
    slice of the output. *)
Record ColumnParallelLinear := {
  cpl_input_size : nat;
  cpl_output_size_per_partition : nat;
  cpl_bias : bool;
  cpl_skip_bias_add : bool
}.

Definition ColumnParallelLinear_init (mpu : Mpu) (input_size output_size : nat)
    (bias skip_bias_add : bool) : result ColumnParallelLinear :=
  opp ← divide output_size (tensor_model_parallel_world_size mpu);
  Ok {| cpl_input_size := input_size; cpl_output_size_per_partition := opp;
        cpl_bias := bias; cpl_skip_bias_add := skip_bias_add |}.

Definition ColumnParallelLinear_forward (l : ColumnParallelLinear) (x : shape)
    : result (shape * option shape) :=
  out ← linear (cpl_input_size l) (cpl_output_size_per_partition l) x;
  Ok (out, if cpl_skip_bias_add l && cpl_bias l
           then Some [cpl_output_size_per_partition l] else None).

(** [tensor_parallel.RowParallelLinear] with [input_is_parallel=True]:
    the weight is split along its input dimension and the partial
    products are all-reduced. *)
Record RowParallelLinear := {
  rpl_input_size_per_partition : nat;
  rpl_output_size : nat;
  rpl_bias : bool;
  rpl_skip_bias_add : bool
}.

Definition RowParallelLinear_init (mpu : Mpu) (input_size output_size : nat)
    (bias skip_bias_add : bool) : result RowParallelLinear :=
  ipp ← divide input_size (tensor_model_parallel_world_size mpu);
  Ok {| rpl_input_size_per_partition := ipp; rpl_output_size := output_size;
        rpl_bias := bias; rpl_skip_bias_add := skip_bias_add |}.

Definition RowParallelLinear_forward (l : RowParallelLinear) (x : shape)
    : result (shape * option shape) :=
  out ← linear (rpl_input_size_per_partition l) (rpl_output_size l) x;
  Ok (out, if rpl_skip_bias_add l && rpl_bias l
           then Some [rpl_output_size l] else None).

(** [get_norm(config)]: a normalization over the last dimension, of
    width [config.hidden_size]. *)
Record Norm := { normalized_size : nat }.

Definition get_norm (config : Config) : Norm :=
  {| normalized_size := hidden_size config |}.

Definition Norm_forward (n : Norm) (x : shape) : result shape :=
  match last x with
  | Some d =>
      if d =? normalized_size n then Ok x
      else Raise (RuntimeError "normalized_shape does not match input")
  | None => Raise (RuntimeError "normalized_shape does not match input")
  end.

End MegatronCore.

(** ** Tensors with contents

    Where the code hands a tensor on untouched, the property is about the
    tensor itself, not its shape.  [TensorOps] is the part of the tensor
    library [DropPath] uses; random draws take the generator state as an
    explicit seed. *)

Class TensorOps (T : Type) := {
  t_shape : T -> Torch.shape;
  t_rand : Torch.shape -> nat -> T;
  t_add_scalar : float -> T -> T;
  t_floor : T -> T;
  t_div_scalar : T -> float -> T;
  t_mul : T -> T -> result T
}.

(** Shapes alone form the coarsest instance. *)
#[export] Instance shape_TensorOps : TensorOps Torch.shape := {|
  t_shape := fun s => s;
  t_rand := fun s _ => s;
  t_add_scalar := fun _ s => s;
  t_floor := fun s => s;
  t_div_scalar := fun s _ => s;
  t_mul := Torch.mul
|}.

(** ** class DropPath *)

Module DropPath.

Record t := { drop_prob : float; training : bool }.

Definition __init__ (drop_prob : float) (training : bool) : t :=
  {| drop_prob := drop_prob; training := training |}.

Definition forward {T} `{TensorOps T} (self : t) (seed : nat) (hidden_state : T)
    : result T :=
  if (drop_prob self =? 0)%float || negb (training self) then Ok hidden_state
  else
    let keep_prob := (1 - drop_prob self)%float in
    b ← Torch.size (t_shape hidden_state) 1;
    let shape := [1] ++ [b] ++ replicate (Torch.ndim (t_shape hidden_state) - 2) 1 in
    let random_tensor := t_add_scalar keep_prob (t_rand shape seed) in
    let random_tensor := t_floor random_tensor in
    t_mul (t_div_scalar hidden_state keep_prob) random_tensor.

End DropPath.

(** ** class Idefics2ParallelMLP *)

Module Idefics2ParallelMLP.
Import Torch MegatronCore.

Inductive activation := openai_gelu_fn | erf_gelu_fn | swiglu_fn | squared_relu_fn | F_gelu.

#[global] Instance activation_eq_dec : EqDecision activation.
Proof. solve_decision. Defined.

Record t := {
  add_bias : bool;
  dense_h_to_4h : ColumnParallelLinear;
  bias_gelu_fusion_ : bool;
  activation_func : activation;
  swiglu_ : bool;
  dense_4h_to_h : RowParallelLinear
}.

Definition __init__ (args : Args) (mpu : Mpu) (config : Config) : result t :=
  let add_bias := add_bias_linear config in
  let ffn_hidden_size' := ffn_hidden_size config in
  let ffn_hidden_size' :=
    if gated_linear_unit config then ffn_hidden_size' * 2 else ffn_hidden_size' in
  dense_h_to_4h ← ColumnParallelLinear_init mpu (input_size config) ffn_hidden_size'
                     add_bias true;
  let '(bias_gelu_fusion, activation_func) :=
    if openai_gelu args then (false, openai_gelu_fn)
    else if onnx_safe args then (false, erf_gelu_fn)
    else if swiglu args then (false, swiglu_fn)
    else if squared_relu args then (false, squared_relu_fn)
    else (bias_gelu_fusion args, F_gelu) in
  dense_4h_to_h ← RowParallelLinear_init mpu (ffn_hidden_size config)
                     (output_size config) add_bias true;
  Ok {| add_bias := add_bias; dense_h_to_4h := dense_h_to_4h;
        bias_gelu_fusion_ := bias_gelu_fusion; activation_func := activation_func;
        swiglu_ := swiglu args; dense_4h_to_h := dense_4h_to_h |}.

(** The nested [swiglu(x)]: [x = torch.chunk(x, 2, dim=-1)];
    [F.silu(x[0]) * x[1]]. *)
Definition swiglu_apply (x : shape) : result shape :=
  xs ← chunk2_last x;
  x0 ← py_getitem xs 0;
  x1 ← py_getitem xs 1;
  mul (pointwise x0) x1.

Definition apply_activation (f : activation) (x : shape) : result shape :=
  match f with
  | swiglu_fn => swiglu_apply x
  | openai_gelu_fn | erf_gelu_fn | squared_relu_fn | F_gelu => Ok (pointwise x)
  end.

(** [bias_gelu_impl(x, bias)] computes [gelu(x + bias)]. *)
Definition bias_gelu_impl (x : shape) (bias : option shape) : result shape :=
  match bias with
  | Some b => r ← add x b; Ok (pointwise r)
  | None => Raise (TypeError "unsupported operand: Tensor + NoneType")
  end.

Definition forward (self : t) (hidden_states : shape) : result (shape * option shape) :=
  '(intermediate_parallel, bias_parallel) ←
      ColumnParallelLinear_forward (dense_h_to_4h self) hidden_states;
  intermediate_parallel ←
    (if bias_gelu_fusion_ self then
       _ ← py_assert (add_bias self) "self.add_bias is True";
       _ ← py_assert (bool_decide (activation_func self = F_gelu))
             "self.activation_func == F.gelu";
       bias_gelu_impl intermediate_parallel bias_parallel
     else
       intermediate_parallel ←
         match bias_parallel with
         | Some b => add intermediate_parallel b
         | None => Ok intermediate_parallel
         end;
       apply_activation (activation_func self) intermediate_parallel);
  '(output, output_bias) ← RowParallelLinear_forward (dense_4h_to_h self) intermediate_parallel;
  Ok (output, output_bias).

End Idefics2ParallelMLP.

(** ** class CoreAttention *)

Module CoreAttention.
Import Torch MegatronCore.

(** [norm_factor] is [math.sqrt(hidden_size_per_attention_head)], times
    the layer number under query-key layer scaling.  It is kept exactly, as
    the integer under the root and the integer coefficient: [forward] only
    divides by it, and its value is zero exactly when one of the two is. *)
Record norm_factor_t := { nf_radicand : nat; nf_coeff : Z }.

Definition nf_is_zero (x : norm_factor_t) : bool :=
  (nf_radicand x =? 0) || (nf_coeff x =? 0)%Z.

(** [attention_dropout_] is the probability [p] of the module
    [self.attention_dropout]. *)
Record t := {
  layer_number : Z;
  attn_mask_type : AttnMaskType.t;
  sequence_parallel_ : bool;
  hidden_size_per_partition : nat;
  hidden_size_per_attention_head : nat;
  num_attention_heads_per_partition : nat;
  norm_factor : norm_factor_t;
  attention_dropout_ : float
}.

Definition __init__ (mpu : Mpu) (layer_number : Z) (config : Config)
    (attn_mask_type : AttnMaskType.t) : result t :=
  let layer_number := Z.max 1 layer_number in
  let sequence_parallel := sequence_parallel config in
  _ ← py_assert (negb sequence_parallel) "Sequence parallel not supported";
  let projection_size := kv_channels config * num_attention_heads config in
  let world_size := tensor_model_parallel_world_size mpu in
  hidden_size_per_partition ← divide projection_size world_size;
  hidden_size_per_attention_head ← divide projection_size (num_attention_heads config);
  num_attention_heads_per_partition ← divide (num_attention_heads config) world_size;
  let norm_factor := {| nf_radicand := hidden_size_per_attention_head; nf_coeff := 1 |} in
  let norm_factor :=
    if apply_query_key_layer_scaling config
    then {| nf_radicand := nf_radicand norm_factor;
            nf_coeff := (nf_coeff norm_factor * layer_number)%Z |}
    else norm_factor in
  (* torch.nn.Dropout(config.attention_dropout) *)
  _ ← dropout_check (attention_dropout config);
  Ok {| layer_number := layer_number;
        attn_mask_type := attn_mask_type;
        sequence_parallel_ := sequence_parallel;
        hidden_size_per_partition := hidden_size_per_partition;
        hidden_size_per_attention_head := hidden_size_per_attention_head;
        num_attention_heads_per_partition := num_attention_heads_per_partition;
        norm_factor := norm_factor;
        attention_dropout_ := attention_dropout config |}.

Definition forward (self : t) (query_layer key_layer value_layer : shape)
    (attention_mask : option shape) : result shape :=
  (* [b, np, sq, sk] *)
  o0 ← size query_layer 1;
  o1 ← size query_layer 2;
  o2 ← size query_layer 0;
  o3 ← size key_layer 0;
  let output_size := [o0; o1; o2; o3] in
  (* [sq, b, np, hn] -> [sq, b * np, hn] *)
  query_layer ← reshape query_layer [Some o2; Some (o0 * o1); None];
  (* [sk, b, np, hn] -> [sk, b * np, hn] *)
  key_layer ← view key_layer [Some o3; Some (o0 * o1); None];
  (* preallocated input tensor: [b * np, sq, sk] *)
  let matmul_input_buffer := [o0 * o1; o2; o3] in
  (* raw attention scores: [b * np, sq, sk] *)
  qt ← transpose query_layer 0 1;
  kt ← transpose key_layer 0 1;
  ktt ← transpose kt 1 2;
  (* alpha = 1.0 / self.norm_factor *)
  _ ← (if nf_is_zero (norm_factor self) then Raise ZeroDivisionError else Ok tt);
  matmul_result ← baddbmm matmul_input_buffer qt ktt;
  (* change view to [b, np, sq, sk] *)
  attention_scores ← view matmul_result (Some <$> output_size);
  attn_weights ←
    match attention_mask with
    | Some attention_mask =>
        if negb (shape_eqb attention_mask [o0; 1; o2; o3]) then
          Raise (ValueError "Attention mask should be of size (b, 1, sq, sk)")
        else
          w ← add attention_scores attention_mask;
          Ok (Some w)
    | None => Ok None
    end;
  attn_weights ← py_local "attn_weights" attn_weights;
  let attention_probs := pointwise attn_weights in
  (* attention dropout, under the forked rng tracker or not *)
  attention_probs ←
    (if negb (sequence_parallel_ self) then dropout attention_probs (attention_dropout_ self)
     else dropout attention_probs (attention_dropout_ self));
  (* context layer shape: [b, np, sq, hn] *)
  v1 ← size value_layer 1;
  v2 ← size value_layer 2;
  q0 ← size query_layer 0;
  v3 ← size value_layer 3;
  let output_size := [v1; v2; q0; v3] in
  (* change view [sk, b * np, hn] *)
  v0 ← size value_layer 0;
  value_layer ← view value_layer [Some v0; Some (v1 * v2); None];
  (* change view [b * np, sq, sk] *)
  attention_probs ← view attention_probs [Some (v1 * v2); Some q0; None];
  (* matmul: [b * np, sq, hn] *)
  vt ← transpose value_layer 0 1;
  context_layer ← bmm attention_probs vt;
  (* change view [b, np, sq, hn] *)
  context_layer ← view context_layer (Some <$> output_size);
  (* [b, np, sq, hn] --> [sq, b, np, hn] *)
  context_layer ← permute context_layer [2; 0; 1; 3];
  (* [sq, b, np, hn] --> [sq, b, hp] *)
  let new_context_layer_shape :=
    drop_last 2 context_layer ++ [hidden_size_per_partition self] in
  context_layer ← view context_layer (Some <$> new_context_layer_shape);
  Ok context_layer.

End CoreAttention.

(** ** class FlashSelfAttention *)

(** Attention masks.  The dense core only looks at the shape of its
    additive bias; the flash path hands a two-dimensional padding mask to
    [unpad_input], which counts the valid positions of every row. *)
Inductive attn_mask :=
  | DenseMask (s : Torch.shape)
  | PaddingMask (b s : nat) (valid : nat -> nat -> bool).

Definition mask_shape (m : attn_mask) : Torch.shape :=
  match m with
  | DenseMask s => s
  | PaddingMask b s _ => [b; s]
  end.

Inductive dtype := float16 | bfloat16 | float32.

(** Element type and device of the activations of one call. *)
Record TensorMeta := { t_dtype : dtype; t_is_cuda : bool }.

Module FlashSelfAttention.
Import Torch.

(** [dropout_p] is a probability; for the retro encoder the owning
    transformer replaces it by a [torch.nn.Dropout] module. *)
Inductive dropout_arg :=
  | DropoutProb (p : float)
  | DropoutModule (p : float).

Record t := {
  causal : bool;
  softmax_scale : option float;
  dropout_p : dropout_arg;
  training : bool
}.

Definition __init__ (mpu : Mpu) (causal : bool) (softmax_scale : option float)
    (attention_dropout : float) (training : bool) : result t :=
  _ ← py_assert (flash_attn_unpadded_func_available mpu) "Please install FlashAttention first";
  _ ← py_assert (rearrange_available mpu) "Please install einops first";
  Ok {| causal := causal; softmax_scale := softmax_scale;
        dropout_p := DropoutProb attention_dropout; training := training |}.

(** The arguments of one [flash_attn_unpadded_func] call. *)
Record kernel_call := {
  call_q : shape;
  call_k : shape;
  call_v : shape;
  call_cu_seqlens_q : list nat;
  call_cu_seqlens_k : list nat;
  call_max_seqlen_q : nat;
  call_max_seqlen_k : nat;
  call_dropout_p : dropout_arg;
  call_softmax_scale : option float;
  call_causal : bool
}.

(** [rearrange(x, 'b s ... -> (b s) ...')] *)
Definition merge_batch_seq (x : shape) : result shape :=
  match x with
  | b :: s :: rest => Ok (b * s :: rest)
  | _ => Raise (RuntimeError "einops: expected at least two dimensions")
  end.

(** [rearrange(x, '(b s) ... -> b s ...', b=batch_size)] *)
Definition split_batch_seq (batch_size : nat) (x : shape) : result shape :=
  match x with
  | n :: rest =>
      if (batch_size =? 0) || negb (n mod batch_size =? 0) then
        Raise (RuntimeError "einops: shape mismatch, cannot divide axis")
      else Ok (batch_size :: n / batch_size :: rest)
  | [] => Raise (RuntimeError "einops: expected at least one dimension")
  end.

(** [torch.arange(0, stop, step=step)] for non-negative ints. *)
Definition arange0 (stop step : nat) : result (list nat) :=
  if step =? 0 then Raise (RuntimeError "step must be nonzero")
  else Ok ((fun i => i * step) <$> seq 0 ((stop + step - 1) / step)).

Definition row_count (valid : nat -> nat -> bool) (s i : nat) : nat :=
  length (filter (fun j => valid i j = true) (seq 0 s)).

Fixpoint cumsum_from (acc : nat) (l : list nat) : list nat :=
  match l with
  | [] => []
  | x :: l' => (acc + x) :: cumsum_from (acc + x) l'
  end.

(** [unpad_input(hidden_states, attention_mask)] of flash_attn.bert_padding:
    the valid tokens of all rows packed along one axis, and the cumulative
    row lengths.  The mask has to be the [batch x seqlen] mask of
    [hidden_states]. *)
Definition unpad_input (hidden_states : shape) (attention_mask : attn_mask)
    : result (shape * list nat) :=
  match attention_mask, hidden_states with
  | PaddingMask mb ms valid, b :: s :: rest =>
      if (mb =? b) && (ms =? s) then
        let seqlens_in_batch := row_count valid s <$> seq 0 b in
        Ok (foldr Nat.add 0 seqlens_in_batch :: rest, 0 :: cumsum_from 0 seqlens_in_batch)
      else Raise (RuntimeError "unpad_input: mask does not index hidden_states")
  | _, _ => Raise (RuntimeError "unpad_input: expected a (batch, seqlen) mask")
  end.

Definition half_precision (d : dtype) : bool :=
  match d with float16 | bfloat16 => true | float32 => false end.

(** Returns the kernel invocation together with the module's output. *)
Definition forward (self : t) (meta : TensorMeta) (q k v : shape)
    (attention_mask : option attn_mask) : result (kernel_call * shape) :=
  _ ← py_assert (forallb (fun _ : shape => half_precision (t_dtype meta)) [q; k; v])
        "dtype in [torch.float16, torch.bfloat16]";
  _ ← py_assert (forallb (fun _ : shape => t_is_cuda meta) [q; k; v]) "is_cuda";
  batch_size ← size q 0;
  seqlen_q ← size q 1;
  seqlen_k ← size k 1;
  q ← merge_batch_seq q;
  (* in Idefics2, all q have the query length of 64 *)
  cu_seqlens_q ← arange0 ((batch_size + 1) * seqlen_q) seqlen_q;
  (* the length of the k v depends on the attention_mask *)
  '(k, v, cu_seqlens_k) ←
    match attention_mask with
    | Some attention_mask =>
        '(k, cu_seqlens_k) ← unpad_input k attention_mask;
        '(v, _) ← unpad_input v attention_mask;
        Ok (k, v, Some cu_seqlens_k)
    | None =>
        k ← merge_batch_seq k;
        v ← merge_batch_seq v;
        Ok (k, v, None)
    end;
  '(is_causal, cu_seqlens_k, dropout_p) ←
    (if training self then
       let is_causal := causal self in
       let cu_seqlens_k :=
         match attention_mask with None => Some cu_seqlens_q | Some _ => cu_seqlens_k end in
       Ok (is_causal, cu_seqlens_k, dropout_p self)
     else
       let is_causal := seqlen_q =? seqlen_k in
       let cu_seqlens_k :=
         match attention_mask with None => Some cu_seqlens_q | Some _ => cu_seqlens_k end in
       Ok (is_causal, cu_seqlens_k, DropoutProb 0%float));
  cu_seqlens_k ← py_local "cu_seqlens_k" cu_seqlens_k;
  let call := {| call_q := q; call_k := k; call_v := v;
                 call_cu_seqlens_q := cu_seqlens_q; call_cu_seqlens_k := cu_seqlens_k;
                 call_max_seqlen_q := seqlen_q; call_max_seqlen_k := seqlen_k;
                 call_dropout_p := dropout_p;
                 call_softmax_scale := softmax_scale self;
                 call_causal := false |} in
  (* the kernel returns one row per packed query token *)
  let output := q in
  output ← split_batch_seq batch_size output;
  Ok (call, output).

End FlashSelfAttention.

(** ** State and errors: code that mutates [inference_params]

    A computation takes the store and gives the store back, also when it
    raises: what was written before the exception stays written. *)

Definition stateful (S A : Type) : Type := S -> S * result A.

#[export] Instance stateful_ret {S} : MRet (stateful S) := fun A a s => (s, Ok a).
#[export] Instance stateful_bind {S} : MBind (stateful S) := fun A B f m s =>
  match m s with
  | (s', Ok a) => f a s'
  | (s', Raise e) => (s', Raise e)
  end.

Definition st_get {S} : stateful S S := fun s => (s, Ok s).
Definition st_put {S} (s : S) : stateful S unit := fun _ => (s, Ok tt).
Definition st_lift {S A} (r : result A) : stateful S A := fun s => (s, r).

(** ** The inference key/value cache *)

Section KVCache.
Context {A : Type}.

(** A tensor of rank at least two whose contents are tracked position by
    position: [c_data i j] is the block [t[i, j, ...]]. *)
Record ctensor := { c_shape : Torch.shape; c_data : nat -> nat -> A }.

Record InferenceParams := {
  max_sequence_length : nat;
  max_batch_size : nat;
  sequence_len_offset : nat;
  batch_size_offset : nat;
  key_value_memory_dict : gmap Z (ctensor * ctensor)
}.

Definition set_key_value_memory_dict (ip : InferenceParams)
    (d : gmap Z (ctensor * ctensor)) : InferenceParams :=
  {| max_sequence_length := max_sequence_length ip;
     max_batch_size := max_batch_size ip;
     sequence_len_offset := sequence_len_offset ip;
     batch_size_offset := batch_size_offset ip;
     key_value_memory_dict := d |}.

(** What the numerical library contributes to contents: the bytes found
    in freshly allocated memory, the key and value blocks the projection
    of a layer computes, and the copy performed by an assignment whose
    source has to be broadcast. *)
Record Contents := {
  empty_data : nat -> nat -> A;
  key_blocks : Z -> nat -> nat -> A;
  value_blocks : Z -> nat -> nat -> A;
  broadcast_copy : Torch.shape -> Torch.shape -> (nat -> nat -> A) -> nat -> nat -> A
}.

(** Length of [x[a:b]] along an axis of size [n], for non-negative [a], [b]. *)
Definition slice_len (n a b : nat) : nat := Nat.min b n - Nat.min a n.

(** [mem[s0:s1, b0:b1, ...] = src] *)
Definition setitem (ct : Contents) (mem : ctensor) (s0 s1 b0 b1 : nat) (src : ctensor)
    : result ctensor :=
  match c_shape mem with
  | S0 :: B0 :: trail =>
      let slot := slice_len S0 s0 s1 :: slice_len B0 b0 b1 :: trail in
      _ ← Torch.expand_as (c_shape src) slot;
      let copied :=
        if Torch.shape_eqb (c_shape src) slot then c_data src
        else broadcast_copy ct (c_shape src) slot (c_data src) in
      Ok {| c_shape := c_shape mem;
            c_data := fun i j =>
              if (Nat.min s0 S0 <=? i) && (i <? Nat.min s1 S0)
                 && (Nat.min b0 B0 <=? j) && (j <? Nat.min b1 B0)
              then copied (i - Nat.min s0 S0) (j - Nat.min b0 B0)
              else c_data mem i j |}
  | _ => Raise (IndexError "too many indices for tensor")
  end.

(** [mem[:s1, b0:b1, ...]] *)
Definition getitem (mem : ctensor) (s1 b0 b1 : nat) : result ctensor :=
  match c_shape mem with
  | S0 :: B0 :: trail =>
      Ok {| c_shape := slice_len S0 0 s1 :: slice_len B0 b0 b1 :: trail;
            c_data := fun i j => c_data mem i (j + Nat.min b0 B0) |}
  | _ => Raise (IndexError "too many indices for tensor")
  end.

End KVCache.
Arguments ctensor : clear implicits.
Arguments InferenceParams : clear implicits.
Arguments Contents : clear implicits.

(** ** class ParallelAttention *)

Module ParallelAttention.
Import Torch MegatronCore.

Record t := {
  layer_number : Z;
  attention_type : AttnType.t;
  attn_mask_type : AttnMaskType.t;
  sequence_parallel_ : bool;
  group_query_attention_ : bool;
  num_query_groups_ : nat;
  use_flash_attn_ : bool;
  hidden_size_per_attention_head : nat;
  hidden_size_per_attention_head_query : nat;
  hidden_size_per_attention_head_kv : nat;
  num_attention_heads_per_partition : nat;
  num_attention_heads_per_partition_kv : nat;
  num_query_groups_per_partition : nat;
  query : ColumnParallelLinear;
  key_value : ColumnParallelLinear;
  core_attention : CoreAttention.t;
  checkpoint_core_attention : bool;
  core_attention_flash : option FlashSelfAttention.t;
  dense : RowParallelLinear
}.

(** Python's [a // b] on non-negative ints. *)
Definition floordiv (a b : nat) : result nat :=
  if b =? 0 then Raise ZeroDivisionError else Ok (a / b).

Definition __init__ (args : Args) (mpu : Mpu) (training : bool) (config : Config)
    (layer_number : Z) (attention_type : AttnType.t) (attn_mask_type : AttnMaskType.t)
    : result t :=
  let layer_number := Z.max 1 layer_number in
  let sequence_parallel := sequence_parallel config in
  _ ← py_assert (negb sequence_parallel) "Sequence parallel not supported";
  (* new variables *)
  let query_projection_size := kv_channels config * num_attention_heads config in
  let kv_projection_size := query_projection_size in
  let num_heads := num_attention_heads config in
  let num_kv_heads := num_attention_heads config in
  num_key_value_groups ← floordiv num_heads num_kv_heads;
  let use_flash_attn := use_flash_attn args in
  _ ← (if use_flash_attn then
         if negb (flash_attn_unpadded_func_available mpu) then Raise ImportError
         else if negb (rearrange_available mpu) then Raise ImportError
         else Ok tt
       else Ok tt);
  (* per attention head and per partition values *)
  let world_size := tensor_model_parallel_world_size mpu in
  hidden_size_per_attention_head ← divide query_projection_size (num_attention_heads config);
  hidden_size_per_attention_head_query ← divide query_projection_size (num_attention_heads config);
  hidden_size_per_attention_head_kv ← divide kv_projection_size (num_attention_heads config);
  num_attention_heads_per_partition ← divide (num_attention_heads config) world_size;
  (* num_kv_heads may be smaller than world_size *)
  num_attention_heads_per_partition_kv ←
    (if world_size <=? num_kv_heads then divide (num_attention_heads config) world_size
     else Ok num_attention_heads_per_partition);
  num_query_groups_per_partition ←
    (if group_query_attention args then
       if world_size =? 0 then Raise ZeroDivisionError
       else if negb (num_query_groups args mod world_size =? 0) then Raise NotImplementedError
       else divide (num_query_groups args) world_size
     else Ok num_attention_heads_per_partition);
  (* it is a cross attention *)
  _ ← py_assert (bool_decide (attention_type = AttnType.cross_attn))
        "attention_type == AttnType.cross_attn";
  query ← ColumnParallelLinear_init mpu (text_hidden_size config) query_projection_size
            (add_bias_linear config) false;
  key_value ← ColumnParallelLinear_init mpu (text_hidden_size config)
                (2 * kv_projection_size * num_key_value_groups)
                (add_bias_linear config) false;
  core_attention ← CoreAttention.__init__ mpu layer_number config attn_mask_type;
  let checkpoint_core_attention :=
    bool_decide (recompute_granularity config = Some "selective"%string) in
  let checkpoint_core_attention := false in
  core_attention_flash ←
    (if use_flash_attn then
       let is_causal := bool_decide (attn_mask_type = AttnMaskType.causal) in
       f ← FlashSelfAttention.__init__ mpu is_causal None (attention_dropout config) training;
       Ok (Some f)
     else Ok None);
  dense ← RowParallelLinear_init mpu query_projection_size (text_hidden_size config)
            (args_add_bias_linear args) true;
  Ok {| layer_number := layer_number; attention_type := attention_type;
        attn_mask_type := attn_mask_type; sequence_parallel_ := sequence_parallel;
        group_query_attention_ := group_query_attention args;
        num_query_groups_ := num_query_groups args;
        use_flash_attn_ := use_flash_attn;
        hidden_size_per_attention_head := hidden_size_per_attention_head;
        hidden_size_per_attention_head_query := hidden_size_per_attention_head_query;
        hidden_size_per_attention_head_kv := hidden_size_per_attention_head_kv;
        num_attention_heads_per_partition := num_attention_heads_per_partition;
        num_attention_heads_per_partition_kv := num_attention_heads_per_partition_kv;
        num_query_groups_per_partition := num_query_groups_per_partition;
        query := query; key_value := key_value; core_attention := core_attention;
        checkpoint_core_attention := checkpoint_core_attention;
        core_attention_flash := core_attention_flash; dense := dense |}.

(** [custom_forward] under [tensor_parallel.checkpoint]: the same call. *)
Definition _checkpointed_attention_forward (self : t)
    (query_layer key_layer value_layer : shape) (attention_mask : option shape)
    : result shape :=
  CoreAttention.forward (core_attention self) query_layer key_layer value_layer attention_mask.

(** [tensor_parallel.split_tensor_along_last_dim(x, num_partitions)]:
    [torch.split] into pieces of the last dimension divided by
    [num_partitions]. *)
Definition split_tensor_along_last_dim (x : shape) (num_partitions : nat)
    : result (list shape) :=
  match reverse x with
  | n :: _ =>
      last_dim_size ← divide n num_partitions;
      split_last x last_dim_size
  | [] => Raise (IndexError "tuple index out of range")
  end.

(** [rearrange(x, 's b ... -> b s ...')] *)
Definition swap_seq_batch (x : shape) : result shape :=
  match x with
  | s :: b :: rest => Ok (b :: s :: rest)
  | _ => Raise (RuntimeError "einops: expected at least two dimensions")
  end.

(** [rearrange(x, 'b s h d -> s b (h d)')] *)
Definition merge_heads (x : shape) : result shape :=
  match x with
  | [b; s; h; d] => Ok [s; b; h * d]
  | _ => Raise (RuntimeError "einops: expected four dimensions")
  end.

Section WithContents.
Context {A : Type}.

Definition _allocate_memory (ct : Contents A) (self : t)
    (inference_max_sequence_len batch_size num_attention_heads : nat) : ctensor A :=
  {| c_shape := [inference_max_sequence_len; batch_size; num_attention_heads;
                 hidden_size_per_attention_head_query self];
     c_data := empty_data ct |}.

(** The tensors of a layer live in [inference_params.key_value_memory_dict];
    binding them and writing into them both end up in that entry. *)
Definition store_memory (layer_number : Z) (key_memory value_memory : ctensor A)
    : stateful (option (InferenceParams A)) unit :=
  fun st =>
    match st with
    | Some ip =>
        (Some (set_key_value_memory_dict ip
                 (<[layer_number := (key_memory, value_memory)]> (key_value_memory_dict ip))),
         Ok tt)
    | None => (None, Ok tt)
    end.

(** The block "Adjust key and value for inference" of [forward], entered
    when [inference_params] is given.  [memory] holds the local variables
    [inference_key_memory], [inference_value_memory]: they alias the entry
    of this layer in [key_value_memory_dict], so every write is a write to
    the store. *)
Definition adjust_key_value (ct : Contents A) (self : t) (ip : InferenceParams A)
    (memory : option (ctensor A * ctensor A)) (key_layer value_layer : ctensor A)
    : stateful (option (InferenceParams A)) (ctensor A * ctensor A) :=
  '(inference_key_memory, inference_value_memory) ←
     st_lift (py_local "inference_key_memory" memory);
  let batch_start := batch_size_offset ip in
  k1 ← st_lift (size (c_shape key_layer) 1);
  let batch_end := batch_start + k1 in
  m1 ← st_lift (size (c_shape inference_key_memory) 1);
  _ ← st_lift (py_assert (batch_end <=? m1) "batch_end <= inference_key_memory.size(1)");
  let sequence_start := sequence_len_offset ip in
  k0 ← st_lift (size (c_shape key_layer) 0);
  let sequence_end := sequence_start + k0 in
  m0 ← st_lift (size (c_shape inference_key_memory) 0);
  _ ← st_lift (py_assert (sequence_end <=? m0)
                 "sequence_end <= inference_key_memory.size(0)");
  (* copy key and values *)
  inference_key_memory ← st_lift
    (setitem ct inference_key_memory sequence_start sequence_end
       batch_start batch_end key_layer);
  _ ← store_memory (layer_number self) inference_key_memory inference_value_memory;
  inference_value_memory ← st_lift
    (setitem ct inference_value_memory sequence_start sequence_end
       batch_start batch_end value_layer);
  _ ← store_memory (layer_number self) inference_key_memory inference_value_memory;
  key_layer ← st_lift (getitem inference_key_memory sequence_end batch_start batch_end);
  value_layer ← st_lift (getitem inference_value_memory sequence_end batch_start batch_end);
  mret (key_layer, value_layer).

(** The block "Pre-allocate memory for key-values for inference". *)
Definition preallocate (ct : Contents A) (self : t)
    : stateful (option (InferenceParams A)) (option (ctensor A * ctensor A)) :=
  inference_params ← st_get;
  match inference_params with
  | Some ip =>
      match key_value_memory_dict ip !! layer_number self with
      | None =>
          let inf_max_seq_len := max_sequence_length ip in
          let inf_max_batch_size := max_batch_size ip in
          let inference_key_memory :=
            _allocate_memory ct self inf_max_seq_len inf_max_batch_size
              (num_query_groups_per_partition self) in
          let inference_value_memory :=
            _allocate_memory ct self inf_max_seq_len inf_max_batch_size
              (num_query_groups_per_partition self) in
          _ ← store_memory (layer_number self) inference_key_memory inference_value_memory;
          mret (Some (inference_key_memory, inference_value_memory))
      | Some m => mret (Some m)
      end
  | None => mret None
  end.

(** The projections of [forward]: key and value from the concatenation
    of context and latents, query from the latents alone. *)
Definition project_qkv (self : t) (latents context : shape)
    : result (shape * shape * shape) :=
  hidden_states ← cat context latents 0%Z;
  '(mixed_kv_layer, _) ← ColumnParallelLinear_forward (key_value self) hidden_states;
  (* [sk, b, (np * 2 * hn)] --> [sk, b, np, 2 * hn] *)
  let new_tensor_shape :=
    drop_last 1 mixed_kv_layer ++
    [num_attention_heads_per_partition self; 2 * hidden_size_per_attention_head_kv self] in
  mixed_kv_layer ← view mixed_kv_layer (Some <$> new_tensor_shape);
  (* [sk, b, np, 2 * hn] --> 2 [sk, b, np, hn] *)
  chunks ← split_tensor_along_last_dim mixed_kv_layer 2;
  '(key_layer, value_layer) ← unpack2 chunks;
  (* [sq, b, h] --> [sq, b, hp] *)
  '(query_layer, _) ← ColumnParallelLinear_forward (query self) latents;
  (* [sq, b, hp] --> [sq, b, np, hn] *)
  let new_tensor_shape :=
    drop_last 1 query_layer ++
    [num_attention_heads_per_partition self; hidden_size_per_attention_head self] in
  query_layer ← view query_layer (Some <$> new_tensor_shape);
  Ok (query_layer, key_layer, value_layer).

(** The attention core selected by [use_flash_attn]. *)
Definition attend (self : t) (meta : TensorMeta)
    (query_layer key_layer value_layer : shape) (attention_mask : option attn_mask)
    : result shape :=
  if negb (use_flash_attn_ self) then
    if checkpoint_core_attention self then
      _checkpointed_attention_forward self query_layer key_layer value_layer
        (mask_shape <$> attention_mask)
    else
      CoreAttention.forward (core_attention self) query_layer key_layer
        value_layer (mask_shape <$> attention_mask)
  else
    q ← swap_seq_batch query_layer;
    k ← swap_seq_batch key_layer;
    v ← swap_seq_batch value_layer;
    context_layer ←
      (if negb (sequence_parallel_ self) then
         match core_attention_flash self with
         | Some flash =>
             '(_, out) ← FlashSelfAttention.forward flash meta q k v attention_mask;
             Ok out
         | None => Raise (AttributeError "core_attention_flash")
         end
       else Raise (AssertionError "assert False"));
    merge_heads context_layer.

Definition forward (ct : Contents A) (self : t) (meta : TensorMeta)
    (latents context : shape) (attention_mask : option attn_mask)
    : stateful (option (InferenceParams A)) (shape * option shape) :=
  inference_params ← st_get;
  (* pre-allocate memory for key-values for inference *)
  memory ← preallocate ct self;
  (* query, key and value *)
  '(query_layer, key_layer, value_layer) ← st_lift (project_qkv self latents context);
  (* adjust key and value for inference *)
  '(key_layer, value_layer) ←
    match inference_params with
    | Some ip =>
        '(key_layer, value_layer) ←
          adjust_key_value ct self ip memory
            {| c_shape := key_layer; c_data := key_blocks ct (layer_number self) |}
            {| c_shape := value_layer; c_data := value_blocks ct (layer_number self) |};
        mret (c_shape key_layer, c_shape value_layer)
    | None => mret (key_layer, value_layer)
    end;
  (* core attention computation *)
  context_layer ← st_lift (attend self meta query_layer key_layer value_layer attention_mask);
  (* output: [sq, b, h] *)
  '(output, bias) ← st_lift (RowParallelLinear_forward (dense self) context_layer);
  mret (output, bias).

End WithContents.

End ParallelAttention.

(** ** bias_dropout_add and its variants *)

Definition bias_dropout_add (x : Torch.shape) (bias : option Torch.shape)
    (residual : Torch.shape) (prob : float) (training : bool) : result Torch.shape :=
  x ← match bias with
      | Some bias => Torch.add x bias
      | None => Ok x
      end;
  out ← Torch.dropout x prob;
  out ← Torch.add residual out;
  Ok out.

Definition get_bias_dropout_add (training : bool) :=
  fun x bias residual prob => bias_dropout_add x bias residual prob training.

(** A function under [torch.jit.script]: what is raised inside the
    TorchScript interpreter reaches the caller as [torch.jit.Error], a
    [RuntimeError]. *)
Definition jit_script {X} (r : result X) : result X :=
  match r with
  | Ok x => Ok x
  | Raise _ => Raise (RuntimeError "The following operation failed in the TorchScript interpreter")
  end.

Definition bias_dropout_add_fused_train x bias residual prob :=
  jit_script (bias_dropout_add x bias residual prob true).

Definition bias_dropout_add_fused_inference x bias residual prob :=
  jit_script (bias_dropout_add x bias residual prob false).

(** ** class ParallelTransformerLayer *)

(** What a layer call returns: a tensor, or a tuple of the output and the
    retriever output handed in by the caller. *)
Inductive layer_output :=
  | Single (output : Torch.shape)
  | Pair (output : Torch.shape) (retriever_output : option Torch.shape).

Definition is_pair (r : layer_output) : bool :=
  match r with Pair _ _ => true | Single _ => false end.

Definition output_of (r : layer_output) : Torch.shape :=
  match r with Single o | Pair o _ => o end.

Module ParallelTransformerLayer.
Import Torch MegatronCore.

(** [retro_num_neighbors], [retro_chunk_length], [retro_retrieved_length],
    [inter_attention] and [post_inter_attention_norm] are only read by the
    three retro cross-attention methods, which [forward] never calls; of
    these the record keeps the ones whose construction can fail. *)
Record t := {
  layer_number : Z;
  layer_type : LayerType.t;
  apply_residual_connection_post_norm : bool;
  input_latents_norm : Norm;
  input_context_norm : Norm;
  self_attention : ParallelAttention.t;
  hidden_dropout_ : float;
  bias_dropout_fusion_ : bool;
  drop_path : option DropPath.t;
  post_attention_norm : Norm;
  inter_attention : option ParallelAttention.t;
  post_inter_attention_norm : option Norm;
  mlp : Idefics2ParallelMLP.t;
  training : bool
}.

Definition __init__ (args : Args) (mpu : Mpu) (training : bool) (config : Config)
    (layer_number : Z) (layer_type : LayerType.t)
    (self_attn_mask_type : AttnMaskType.t) (drop_path_rate : float) : result t :=
  let norm_config := set_hidden_size config (text_hidden_size config) in
  let input_latents_norm := get_norm norm_config in
  let input_context_norm := get_norm norm_config in
  (* self attention *)
  self_attention ← ParallelAttention.__init__ args mpu training config layer_number
                     AttnType.cross_attn self_attn_mask_type;
  let drop_path :=
    if (0 <? drop_path_rate)%float then Some (DropPath.__init__ drop_path_rate training)
    else None in
  (* normalize the attention output *)
  let norm_config := set_hidden_size config (text_hidden_size config) in
  let post_attention_norm := get_norm norm_config in
  (* cross attention *)
  '(inter_attention, post_inter_attention_norm) ←
    (if bool_decide (layer_type ∈ [LayerType.decoder; LayerType.retro_decoder;
                                   LayerType.retro_decoder_with_retriever;
                                   LayerType.retro_encoder]) then
       a ← ParallelAttention.__init__ args mpu training config layer_number
             AttnType.cross_attn AttnMaskType.padding;
       Ok (Some a, Some (get_norm config))
     else Ok (None, None));
  let attention_mlp_config :=
    set_mlp_sizes config (text_hidden_size config) (text_hidden_size config * 4)
      (text_hidden_size config) true in
  mlp ← Idefics2ParallelMLP.__init__ args mpu attention_mlp_config;
  (* retro_args = get_retro_args(); retro_args.retro_gpt_chunk_length *)
  _ ← (if retro_add_retriever args then
         if negb (get_retro_args_imported mpu) then Raise (NameError "get_retro_args")
         else
           match get_retro_args mpu with
           | Some _ => Ok tt
           | None => Raise (AttributeError "retro_gpt_chunk_length")
           end
       else Ok tt);
  (* retriever (bi-directional transformer with cross attention) *)
  _ ← (if bool_decide (layer_type = LayerType.retro_decoder_with_retriever) then
         (* the module neither defines nor imports the name it calls *)
         Raise (NameError "ParallelTransformer")
       else Ok tt);
  Ok {| layer_number := layer_number; layer_type := layer_type;
        apply_residual_connection_post_norm := apply_residual_connection_post_layernorm config;
        input_latents_norm := input_latents_norm;
        input_context_norm := input_context_norm;
        self_attention := self_attention;
        hidden_dropout_ := hidden_dropout config;
        bias_dropout_fusion_ := bias_dropout_fusion config;
        drop_path := drop_path;
        post_attention_norm := post_attention_norm;
        inter_attention := inter_attention;
        post_inter_attention_norm := post_inter_attention_norm;
        mlp := mlp; training := training |}.

Section WithContents.
Context {A : Type}.

Definition forward (ct : Contents A) (self : t) (meta : TensorMeta) (seed : nat)
    (latents context : shape) (attention_mask : option attn_mask)
    (retriever_output : option shape)
    : stateful (option (InferenceParams A)) layer_output :=
  let residual := latents in
  latents ← st_lift (Norm_forward (input_latents_norm self) latents);
  context ← st_lift (Norm_forward (input_context_norm self) context);
  (* self attention *)
  '(attention_output, attention_bias) ←
    ParallelAttention.forward ct (self_attention self) meta latents context attention_mask;
  let bias_dropout_add_func :=
    if bias_dropout_fusion_ self then
      if training self then bias_dropout_add_fused_train
      else bias_dropout_add_fused_inference
    else get_bias_dropout_add (training self) in
  norm_input ←
    match drop_path self with
    | None =>
        attention_bias ←
          match attention_bias with
          | Some b => b' ← st_lift (expand_as b residual); mret (Some b')
          | None => mret None
          end;
        st_lift (bias_dropout_add_func attention_output attention_bias residual
                   (hidden_dropout_ self))
    | Some drop_path =>
        s ← match attention_bias with
            | Some b => st_lift (add attention_output b)
            | None => st_lift (Raise (TypeError "unsupported operand: Tensor + NoneType"))
            end;
        out ← st_lift (dropout s (hidden_dropout_ self));
        d ← st_lift (DropPath.forward drop_path seed out);
        st_lift (add residual d)
    end;
  (* layer norm post the self attention *)
  norm_output ← st_lift (Norm_forward (post_attention_norm self) norm_input);
  (* MLP *)
  '(mlp_output, mlp_bias) ← st_lift (Idefics2ParallelMLP.forward (mlp self) norm_output);
  (* second residual connection *)
  let residual :=
    if apply_residual_connection_post_norm self then norm_output else norm_input in
  output ←
    match drop_path self with
    | None =>
        mlp_bias ←
          match mlp_bias with
          | Some b => b' ← st_lift (expand_as b residual); mret (Some b')
          | None => mret None
          end;
        st_lift (bias_dropout_add_func mlp_output mlp_bias residual (hidden_dropout_ self))
    | Some drop_path =>
        mlp_output ←
          match mlp_bias with
          | Some b => st_lift (add mlp_output b)
          | None => mret mlp_output
          end;
        out ← st_lift (dropout mlp_output (hidden_dropout_ self));
        d ← st_lift (DropPath.forward drop_path seed out);
        st_lift (add residual d)
    end;
  if bool_decide (layer_type self = LayerType.retro_decoder_with_retriever) then
    mret (Pair output retriever_output)
  else
    mret (Single output).

End WithContents.

End ParallelTransformerLayer.

(** ** class NoopTransformerLayer *)

Module NoopTransformerLayer.

Record t := { layer_number : Z }.

Definition __init__ (layer_number : Z) : t := {| layer_number := layer_number |}.

(** [hidden_states.clone()] *)
Definition forward (self : t) (hidden_states : Torch.shape) : Torch.shape := hidden_states.

End NoopTransformerLayer.

(** ** _get_layer_type *)

Definition _get_layer_type (args : Args) (model_type : ModelType)
    (default_layer_type : LayerType.t) (retro_layer_numbers : option (list Z))
    (layer_number : Z) : result LayerType.t :=
  in_retro ←
    (if retro_add_retriever args then
       match retro_layer_numbers with
       | Some l => Ok (bool_decide (layer_number ∈ l))
       | None => Raise (TypeError "argument of type NoneType is not iterable")
       end
     else Ok false);
  if in_retro : bool then
    if bool_decide (model_type = retro_decoder_model) then
      first ← py_getitem (default [] retro_layer_numbers) 0;
      Ok (if bool_decide (layer_number = first)
          then LayerType.retro_decoder_with_retriever
          else LayerType.retro_decoder)
    else if bool_decide (model_type = retro_encoder_model) then
      Ok LayerType.retro_encoder
    else Raise (Exception "Unsupported model type")
  else Ok default_layer_type.

(** ** class Idefics2PerceiverParallelTransformer *)

(** [np.arange(start, stop, step).tolist()] for ints and a positive step. *)
Definition np_arange (start stop step : Z) : list Z :=
  (fun i => (start + step * Z.of_nat i)%Z)
    <$> seq 0 (Z.to_nat ((stop - start + step - 1) / step)%Z).

Module Idefics2PerceiverParallelTransformer.
Import Torch MegatronCore.

Inductive layer :=
  | NoopLayer (l : NoopTransformerLayer.t)
  | TransformerLayer (l : ParallelTransformerLayer.t).

(** The attributes set once by [__init__]. *)
Record t := {
  args : Args;
  layer_type : LayerType.t;
  model_type : ModelType;
  post_norm : bool;
  pre_process : bool;
  post_process : bool;
  input_tensor : option shape;
  drop_path_rate : float;
  transformer_impl_ : string;
  retro_add_retriever_ : bool;
  recompute_granularity_ : option string;
  recompute_method_ : option string;
  recompute_num_layers_ : Z;
  sequence_parallel_ : bool;
  distribute_saved_activations_ : bool;
  transformer_engine_v_0_10 : bool;
  transformer_engine_v_0_11 : bool;
  transformer_engine_v_0_8 : bool;
  use_fp8 : bool;
  checkpoint_core_attention : bool;
  num_layers_ : Z;
  drop_path_rates : list float;
  retro_layer_numbers : option (list Z);
  modality_projection : Idefics2ParallelMLP.t;
  n_latents_ : nat;
  latents : shape;
  layers : list layer;
  final_norm : option Norm;
  training : bool
}.

(** The attributes [forward] updates, and the caller's inference cache. *)
Record mutable {A : Type} := {
  num_microbatches_in_previous_step : Z;
  microbatch_count : Z;
  inference_params : option (InferenceParams A)
}.
Arguments mutable : clear implicits.

(** The state a fresh module starts from. *)
Definition initial_state {A} (ip : option (InferenceParams A)) : mutable A :=
  {| num_microbatches_in_previous_step := (-1)%Z; microbatch_count := 0%Z;
     inference_params := ip |}.

(** The precomputed retro layer numbers of [__init__]. *)
Definition compute_retro_layer_numbers (args : Args) (config : Config)
    (model_type : ModelType) : option (list Z) :=
  let retro_layer_numbers := None in
  let retro_layer_numbers :=
    if bool_decide (model_type = retro_decoder_model) then
      let retro_layer_start := if (num_layers config <=? 15)%Z then 6%Z else 9%Z in
      Some (np_arange retro_layer_start (args_num_layers args + 1) 3)
    else retro_layer_numbers in
  let retro_layer_numbers :=
    if bool_decide (model_type = retro_encoder_model) then Some [1%Z]
    else retro_layer_numbers in
  retro_layer_numbers.

(** The nested [build_layer(layer_number)]. *)
Definition build_layer (args : Args) (mpu : Mpu) (training : bool) (config : Config)
    (model_type : ModelType) (layer_type : LayerType.t)
    (self_attn_mask_type : AttnMaskType.t)
    (retro_layer_numbers : option (list Z)) (drop_path_rates : list float)
    (layer_number : Z) : result layer :=
  if bool_decide (transformer_impl args = "local"%string) then
    current_layer_type ← _get_layer_type args model_type layer_type retro_layer_numbers
                           layer_number;
    rate ← py_getitem drop_path_rates (layer_number - 1);
    l ← ParallelTransformerLayer.__init__ args mpu training config layer_number
          current_layer_type self_attn_mask_type rate;
    Ok (TransformerLayer l)
  else Raise (AssertionError "assert False").

(** The attention [sa] with other cores. *)
Definition set_cores (sa : ParallelAttention.t) (core : CoreAttention.t)
    (flash : option FlashSelfAttention.t) : ParallelAttention.t :=
  {| ParallelAttention.layer_number := ParallelAttention.layer_number sa;
     ParallelAttention.attention_type := ParallelAttention.attention_type sa;
     ParallelAttention.attn_mask_type := ParallelAttention.attn_mask_type sa;
     ParallelAttention.sequence_parallel_ := ParallelAttention.sequence_parallel_ sa;
     ParallelAttention.group_query_attention_ := ParallelAttention.group_query_attention_ sa;
     ParallelAttention.num_query_groups_ := ParallelAttention.num_query_groups_ sa;
     ParallelAttention.use_flash_attn_ := ParallelAttention.use_flash_attn_ sa;
     ParallelAttention.hidden_size_per_attention_head := ParallelAttention.hidden_size_per_attention_head sa;
     ParallelAttention.hidden_size_per_attention_head_query := ParallelAttention.hidden_size_per_attention_head_query sa;
     ParallelAttention.hidden_size_per_attention_head_kv := ParallelAttention.hidden_size_per_attention_head_kv sa;
     ParallelAttention.num_attention_heads_per_partition := ParallelAttention.num_attention_heads_per_partition sa;
     ParallelAttention.num_attention_heads_per_partition_kv := ParallelAttention.num_attention_heads_per_partition_kv sa;
     ParallelAttention.num_query_groups_per_partition := ParallelAttention.num_query_groups_per_partition sa;
     ParallelAttention.query := ParallelAttention.query sa;
     ParallelAttention.key_value := ParallelAttention.key_value sa;
     ParallelAttention.core_attention := core;
     ParallelAttention.checkpoint_core_attention := ParallelAttention.checkpoint_core_attention sa;
     ParallelAttention.core_attention_flash := flash;
     ParallelAttention.dense := ParallelAttention.dense sa |}.

(** [core.attention_dropout.p = p] *)
Definition set_attention_dropout_p (core : CoreAttention.t) (p : float) : CoreAttention.t :=
  {| CoreAttention.layer_number := CoreAttention.layer_number core;
     CoreAttention.attn_mask_type := CoreAttention.attn_mask_type core;
     CoreAttention.sequence_parallel_ := CoreAttention.sequence_parallel_ core;
     CoreAttention.hidden_size_per_partition := CoreAttention.hidden_size_per_partition core;
     CoreAttention.hidden_size_per_attention_head := CoreAttention.hidden_size_per_attention_head core;
     CoreAttention.num_attention_heads_per_partition :=
       CoreAttention.num_attention_heads_per_partition core;
     CoreAttention.norm_factor := CoreAttention.norm_factor core;
     CoreAttention.attention_dropout_ := p |}.

(** The dropout rates of a retro encoder's layers, set after construction:
    the flash core gets a [torch.nn.Dropout] module as its [dropout_p], the
    dense core a new probability in its dropout module, the layer a new
    [hidden_dropout]. *)
Definition set_retro_encoder_dropout (args : Args) (l : layer) : result layer :=
  match l with
  | TransformerLayer l =>
      let sa := ParallelTransformerLayer.self_attention l in
      sa ←
        (if ParallelAttention.use_flash_attn_ sa then
           _ ← dropout_check (retro_encoder_attention_dropout args);
           match ParallelAttention.core_attention_flash sa with
           | Some f =>
               let f := {| FlashSelfAttention.causal := FlashSelfAttention.causal f;
                           FlashSelfAttention.softmax_scale := FlashSelfAttention.softmax_scale f;
                           FlashSelfAttention.dropout_p :=
                             FlashSelfAttention.DropoutModule (retro_encoder_attention_dropout args);
                           FlashSelfAttention.training := FlashSelfAttention.training f |} in
               Ok (set_cores sa (ParallelAttention.core_attention sa) (Some f))
           | None => Raise (AttributeError "core_attention_flash")
           end
         else
           Ok (set_cores sa
                 (set_attention_dropout_p (ParallelAttention.core_attention sa)
                    (retro_encoder_attention_dropout args))
                 (ParallelAttention.core_attention_flash sa)));
      Ok (TransformerLayer
            {| ParallelTransformerLayer.layer_number := ParallelTransformerLayer.layer_number l;
               ParallelTransformerLayer.layer_type := ParallelTransformerLayer.layer_type l;
               ParallelTransformerLayer.apply_residual_connection_post_norm :=
                 ParallelTransformerLayer.apply_residual_connection_post_norm l;
               ParallelTransformerLayer.input_latents_norm := ParallelTransformerLayer.input_latents_norm l;
               ParallelTransformerLayer.input_context_norm := ParallelTransformerLayer.input_context_norm l;
               ParallelTransformerLayer.self_attention := sa;
               ParallelTransformerLayer.hidden_dropout_ := retro_encoder_hidden_dropout args;
               ParallelTransformerLayer.bias_dropout_fusion_ := ParallelTransformerLayer.bias_dropout_fusion_ l;
               ParallelTransformerLayer.drop_path := ParallelTransformerLayer.drop_path l;
               ParallelTransformerLayer.post_attention_norm := ParallelTransformerLayer.post_attention_norm l;
               ParallelTransformerLayer.inter_attention := ParallelTransformerLayer.inter_attention l;
               ParallelTransformerLayer.post_inter_attention_norm :=
                 ParallelTransformerLayer.post_inter_attention_norm l;
               ParallelTransformerLayer.mlp := ParallelTransformerLayer.mlp l;
               ParallelTransformerLayer.training := ParallelTransformerLayer.training l |})
  | NoopLayer _ => Raise (AttributeError "self_attention")
  end.

(** [mapM] in the error monad, left to right. *)
Fixpoint result_mapM {X Y} (f : X -> result Y) (l : list X) : result (list Y) :=
  match l with
  | [] => Ok []
  | x :: l' => y ← f x; ys ← result_mapM f l'; Ok (y :: ys)
  end.

Definition __init__ (args : Args) (mpu : Mpu) (env : Env) (training : bool)
    (config : Config) (model_type : ModelType) (layer_type : LayerType.t)
    (self_attn_mask_type : AttnMaskType.t) (post_norm pre_process post_process : bool)
    (drop_path_rate : float) : result t :=
  let self_transformer_impl := transformer_impl args in
  let sequence_parallel := sequence_parallel config in
  _ ← py_assert (negb sequence_parallel) "Sequence parallel not supported for Perceiver.";
  let distribute_saved_activations :=
    distribute_saved_activations config && negb sequence_parallel in
  (* Transformer Engine init *)
  '(v_0_8, v_0_10, v_0_11) ←
    (if bool_decide (self_transformer_impl = "transformer_engine"%string) then
       if negb (transformer_engine_available env) then Raise ImportError
       else
         _ ← py_assert (negb (squared_relu args))
               "TransformerEngine does not support squared relu activation.";
         Ok (te_version_ge_0_8 env, te_version_ge_0_10 env, te_version_ge_0_11 env)
     else Ok (false, false, false));
  let use_fp8 := bool_decide (fp8 args <> None) in
  _ ← (if use_fp8 then
         _ ← py_assert (bool_decide (transformer_impl args = "transformer_engine"%string))
               "transformer-engine required for fp8 training and inference";
         if bool_decide (fp8 args = Some "e4m3"%string) then Ok tt
         else if bool_decide (fp8 args = Some "hybrid"%string) then Ok tt
         else Raise (ValueError "The DelayedScaling recipe only supports E4M3 and HYBRID formats.")
       else Ok tt);
  let checkpoint_core_attention :=
    bool_decide (recompute_granularity config = Some "selective"%string) in
  (* number of layers: read from the config *)
  let num_layers_ := num_layers config in
  drop_path_rates ← linspace env 0%float drop_path_rate (num_layers config);
  let retro_layer_numbers := compute_retro_layer_numbers args config model_type in
  (* transformer layers *)
  _ ← (if retro_add_retriever args then
         _ ← py_assert (negb (bool_decide (recompute_granularity config = Some "full"%string)))
               "Full recompute not supported for Retro.";
         py_assert (bool_decide (transformer_impl args = "local"%string))
           "Transformer engine does not support Retro layers."
       else Ok tt);
  '(num_layers_, offset) ←
    match virtual_pipeline_model_parallel_size config with
    | Some vpp =>
        if (vpp =? 0)%Z then Raise ZeroDivisionError
        else
          _ ← py_assert (num_layers config `mod` vpp =? 0)%Z
                "num_layers_per_stage must be divisible by virtual_pipeline_model_parallel_size";
          _ ← py_assert (negb (bool_decide (args_model_type args = encoder_and_decoder)))
                "args.model_type != ModelType.encoder_and_decoder";
          let num_layers_ := (num_layers_ `div` vpp)%Z in
          Ok (num_layers_,
              (virtual_pipeline_model_parallel_rank mpu * (num_layers config `div` vpp)
               + pipeline_model_parallel_rank mpu * num_layers_)%Z)
    | None =>
        (* each stage gets a contiguous set of layers *)
        if bool_decide (args_model_type args = encoder_and_decoder)
           && (1 <? pipeline_model_parallel_world_size mpu)%Z then
          let pipeline_rank := pipeline_model_parallel_rank mpu in
          if bool_decide (layer_type = LayerType.encoder) then
            Ok (num_layers_, (pipeline_rank * num_layers_)%Z)
          else
            let num_ranks_in_enc := pipeline_model_parallel_split_rank args in
            Ok (num_layers_, ((pipeline_rank - num_ranks_in_enc) * num_layers_)%Z)
        else Ok (num_layers_, (pipeline_model_parallel_rank mpu * num_layers_)%Z)
    end;
  let modality_projection_config :=
    set_mlp_sizes config (vision_hidden_size config) (intermediate_size config)
      (text_hidden_size config) true in
  modality_projection ← Idefics2ParallelMLP.__init__ args mpu modality_projection_config;
  let latents := [n_latents config; text_hidden_size config] in
  '(num_layers_, layers) ←
    (if (num_layers_ =? 0)%Z then
       Ok (1%Z, [NoopLayer (NoopTransformerLayer.__init__ 1)])
     else
       layers ← result_mapM
                  (fun i => build_layer args mpu training config model_type layer_type
                              self_attn_mask_type retro_layer_numbers drop_path_rates
                              (i + 1 + offset)%Z)
                  (py_range num_layers_);
       (* update dropout rate for Retro encoder *)
       layers ← (if bool_decide (model_type = retro_encoder_model)
                 then result_mapM (set_retro_encoder_dropout args) layers
                 else Ok layers);
       Ok (num_layers_, layers));
  let final_norm :=
    if post_process && post_norm then
      Some (get_norm (set_hidden_size config (text_hidden_size config)))
    else None in
  Ok {| args := args; layer_type := layer_type; model_type := model_type;
        post_norm := post_norm; pre_process := pre_process; post_process := post_process;
        input_tensor := None; drop_path_rate := drop_path_rate;
        transformer_impl_ := self_transformer_impl;
        retro_add_retriever_ := retro_add_retriever args;
        recompute_granularity_ := recompute_granularity config;
        recompute_method_ := recompute_method config;
        recompute_num_layers_ := recompute_num_layers config;
        sequence_parallel_ := sequence_parallel;
        distribute_saved_activations_ := distribute_saved_activations;
        transformer_engine_v_0_10 := v_0_10; transformer_engine_v_0_11 := v_0_11;
        transformer_engine_v_0_8 := v_0_8;
        use_fp8 := use_fp8; checkpoint_core_attention := checkpoint_core_attention;
        num_layers_ := num_layers_; drop_path_rates := drop_path_rates;
        retro_layer_numbers := retro_layer_numbers;
        modality_projection := modality_projection;
        n_latents_ := n_latents config; latents := latents; layers := layers;
        final_norm := final_norm; training := training |}.

Definition _get_layer (self : t) (layer_number : Z) : result layer :=
  py_getitem (layers self) layer_number.

Definition set_input_tensor (self : t) (input_tensor : option shape) : t :=
  {| args := args self; layer_type := layer_type self; model_type := model_type self;
     post_norm := post_norm self; pre_process := pre_process self;
     post_process := post_process self;
     input_tensor := input_tensor; drop_path_rate := drop_path_rate self;
     transformer_impl_ := transformer_impl_ self;
     retro_add_retriever_ := retro_add_retriever_ self;
     recompute_granularity_ := recompute_granularity_ self;
     recompute_method_ := recompute_method_ self;
     recompute_num_layers_ := recompute_num_layers_ self;
     sequence_parallel_ := sequence_parallel_ self;
     distribute_saved_activations_ := distribute_saved_activations_ self;
     transformer_engine_v_0_10 := transformer_engine_v_0_10 self;
     transformer_engine_v_0_11 := transformer_engine_v_0_11 self;
     transformer_engine_v_0_8 := transformer_engine_v_0_8 self;
     use_fp8 := use_fp8 self; checkpoint_core_attention := checkpoint_core_attention self;
     num_layers_ := num_layers_ self; drop_path_rates := drop_path_rates self;
     retro_layer_numbers := retro_layer_numbers self;
     modality_projection := modality_projection self;
     n_latents_ := n_latents_ self; latents := latents self; layers := layers self;
     final_norm := final_norm self; training := training self |}.

Section WithContents.
Context {A : Type}.

(** Run a layer-level computation on the inference cache of the state. *)
Definition with_inference_params {X}
    (m : stateful (option (InferenceParams A)) X) : stateful (mutable A) X :=
  fun st =>
    let '(ip, r) := m (inference_params st) in
    ({| num_microbatches_in_previous_step := num_microbatches_in_previous_step st;
        microbatch_count := microbatch_count st;
        inference_params := ip |}, r).

(** Run a layer-level computation that was handed [inference_params=None]. *)
Definition without_inference_params {X}
    (m : stateful (option (InferenceParams A)) X) : stateful (mutable A) X :=
  fun st => (st, (m None).2).

(** A tuple where a tensor is expected. *)
Definition as_tensor (x : layer_output) : result shape :=
  match x with
  | Single s => Ok s
  | Pair _ _ => Raise (TypeError "expected a Tensor, got a tuple")
  end.

(** [layer(compressed_context, context, attention_mask, **forward_kwargs)]
    of the plain loop.  [forward_kwargs] always carries [encoder_output],
    which the third positional argument of the no-op layer's [forward]
    already binds; with the engine implementation it carries keywords the
    local layer does not declare. *)
Definition call_layer_kwargs (ct : Contents A) (self : t) (meta : TensorMeta) (seed : nat)
    (l : layer) (compressed_context : layer_output) (context : shape)
    (attention_mask : attn_mask) (retriever_output : option shape)
    : stateful (mutable A) layer_output :=
  match l with
  | NoopLayer _ =>
      st_lift (Raise (TypeError "forward() got multiple values for argument 'encoder_output'"))
  | TransformerLayer l =>
      if bool_decide (transformer_impl_ self = "transformer_engine"%string) then
        st_lift (Raise (TypeError "forward() got an unexpected keyword argument 'is_first_microbatch'"))
      else
        latents ← st_lift (as_tensor compressed_context);
        with_inference_params
          (ParallelTransformerLayer.forward ct l meta seed latents context
             (Some attention_mask) retriever_output)
  end.

(** [layer(x_, *args, **kwargs)] inside [custom_forward]: eleven
    positional arguments with the local implementation (the no-op layer
    takes five), and engine keywords otherwise. *)
Definition call_layer_checkpointed (ct : Contents A) (self : t) (meta : TensorMeta)
    (seed : nat) (l : layer) (x_ : layer_output) (context : shape)
    (attention_mask : attn_mask) : stateful (mutable A) layer_output :=
  match l with
  | NoopLayer _ =>
      st_lift (Raise (TypeError "forward() takes from 3 to 6 positional arguments"))
  | TransformerLayer l =>
      if bool_decide (transformer_impl_ self = "transformer_engine"%string) then
        st_lift (Raise (TypeError "forward() got an unexpected keyword argument 'is_first_microbatch'"))
      else
        latents ← st_lift (as_tensor x_);
        without_inference_params
          (ParallelTransformerLayer.forward ct l meta seed latents context
             (Some attention_mask) None)
  end.

(** [custom(start, end)]: the layers [start .. end-1] in sequence. *)
Fixpoint custom_forward (ct : Contents A) (self : t) (meta : TensorMeta) (seed : nat)
    (indices : list Z) (x_ : layer_output) (context : shape) (attention_mask : attn_mask)
    : stateful (mutable A) layer_output :=
  match indices with
  | [] => mret x_
  | index :: rest =>
      layer ← st_lift (_get_layer self index);
      x_ ← call_layer_checkpointed ct self meta seed layer x_ context attention_mask;
      custom_forward ct self meta seed rest x_ context attention_mask
  end.

(** [range(start, end)] *)
Definition py_range2 (start stop : Z) : list Z :=
  (fun i => (start + i)%Z) <$> py_range (stop - start).

(** The [while l < self.num_layers] loop of the uniform method; the
    caller supplies as many rounds as the loop can take. *)
Fixpoint uniform_loop (ct : Contents A) (self : t) (mpu : Mpu) (meta : TensorMeta)
    (seed : nat) (rounds : nat) (l : Z) (compressed_context : layer_output)
    (context : shape) (attention_mask : attn_mask)
    : stateful (mutable A) layer_output :=
  if (l <? num_layers_ self)%Z then
    match rounds with
    | O => st_lift (Raise Hang)
    | S rounds =>
        compressed_context ←
          custom_forward ct self meta seed (py_range2 l (l + recompute_num_layers_ self))
            compressed_context context attention_mask;
        _ ← (if bool_decide (transformer_impl_ self = "transformer_engine"%string) then mret tt
             else if tensor_model_parallel_rank mpu =? 0 then
               (* compressed_context.isnan().any() *)
               _ ← st_lift (match compressed_context with
                            | Single _ => Ok tt
                            | Pair _ _ => Raise (AttributeError "isnan")
                            end);
               mret tt
             else mret tt);
        uniform_loop ct self mpu meta seed rounds (l + recompute_num_layers_ self)%Z
          compressed_context context attention_mask
    end
  else mret compressed_context.

(** The [for l in range(self.num_layers)] loop of the block method:
    checkpointed or not, layer [l] is applied through [custom(l, l + 1)]. *)
Fixpoint block_loop (ct : Contents A) (self : t) (meta : TensorMeta) (seed : nat)
    (ls : list Z) (compressed_context : layer_output) (context : shape)
    (attention_mask : attn_mask) : stateful (mutable A) layer_output :=
  match ls with
  | [] => mret compressed_context
  | l :: rest =>
      compressed_context ←
        (if (l <? recompute_num_layers_ self)%Z then
           custom_forward ct self meta seed (py_range2 l (l + 1)) compressed_context
             context attention_mask
         else
           custom_forward ct self meta seed (py_range2 l (l + 1)) compressed_context
             context attention_mask);
      block_loop ct self meta seed rest compressed_context context attention_mask
  end.

Definition _checkpointed_forward (ct : Contents A) (self : t) (mpu : Mpu)
    (meta : TensorMeta) (seed : nat) (compressed_context : layer_output)
    (context : shape) (attention_mask : attn_mask)
    : stateful (mutable A) layer_output :=
  if bool_decide (recompute_method_ self = Some "uniform"%string) then
    (* with a step below one, [l] never reaches [num_layers] *)
    let rounds :=
      if (recompute_num_layers_ self <=? 0)%Z then 0 else Z.to_nat (num_layers_ self) in
    uniform_loop ct self mpu meta seed rounds 0 compressed_context context attention_mask
  else if bool_decide (recompute_method_ self = Some "block"%string) then
    block_loop ct self meta seed (py_range (num_layers_ self)) compressed_context
      context attention_mask
  else st_lift (Raise (ValueError "Invalid activation recompute method.")).

(** The plain [for index in range(self.num_layers)] loop. *)
Fixpoint layer_loop (ct : Contents A) (self : t) (meta : TensorMeta) (seed : nat)
    (indices : list Z) (compressed_context : layer_output) (context : shape)
    (attention_mask : attn_mask) (retriever_output : option shape)
    : stateful (mutable A) layer_output :=
  match indices with
  | [] => mret compressed_context
  | index :: rest =>
      layer ← st_lift (_get_layer self index);
      compressed_context ←
        call_layer_kwargs ct self meta seed layer compressed_context context
          attention_mask retriever_output;
      layer_loop ct self meta seed rest compressed_context context attention_mask
        retriever_output
  end.

(** [torch.cat([attention_mask, latent_attention_mask], dim=-1)] with
    [latent_attention_mask] all ones of shape
    [(attention_mask.size(0), latents.size(1))]. *)
Definition extend_attention_mask (attention_mask : attn_mask) (latents : shape)
    : result attn_mask :=
  b ← size (mask_shape attention_mask) 0;
  n ← size latents 1;
  s ← cat (mask_shape attention_mask) [b; n] (-1);
  match attention_mask with
  | PaddingMask b s valid =>
      Ok (PaddingMask b (s + n) (fun i j => if j <? s then valid i j else true))
  | DenseMask _ => Ok (DenseMask s)
  end.

(** [_prepare_4d_attention_mask(mask, dtype, tgt_len)] of transformers:
    a [(bsz, src_len)] mask becomes a [(bsz, 1, tgt_len, src_len)] bias. *)
Definition _prepare_4d_attention_mask (mask : attn_mask) (tgt_len : nat) : result attn_mask :=
  match mask_shape mask with
  | [bsz; src_len] => Ok (DenseMask [bsz; 1; tgt_len; src_len])
  | _ => Raise (ValueError "not enough or too many values to unpack (expected 2)")
  end.

Definition forward (ct : Contents A) (mpu : Mpu) (env : Env) (self : t)
    (meta : TensorMeta) (seed : nat) (hidden_states : shape)
    (attention_mask : attn_mask) (retriever_output : option shape)
    : stateful (mutable A) shape :=
  (* checks *)
  st ← st_get;
  _ ← (if bool_decide (inference_params st <> None) then
         st_lift (py_assert (bool_decide (recompute_granularity_ self = None))
                    "inference does not work with activation checkpointing")
       else mret tt);
  hidden_states ←
    (if negb (pre_process self) then
       (* see set_input_tensor() *)
       match input_tensor self with
       | Some x => mret x
       | None => st_lift (Raise (AttributeError "NoneType has no attribute requires_grad"))
       end
     else mret hidden_states);
  (* viewless tensor *)
  let hidden_states := hidden_states in
  '(context, _) ← st_lift (Idefics2ParallelMLP.forward (modality_projection self) hidden_states);
  (* determine if the current iteration is first microbatch *)
  st ← st_get;
  let count :=
    if bool_decide (num_microbatches_in_previous_step st <> get_num_microbatches env)
    then 0%Z else microbatch_count st in
  _ ← st_put {| num_microbatches_in_previous_step := get_num_microbatches env;
                microbatch_count := count;
                inference_params := inference_params st |};
  is_first_microbatch ←
    (if (get_num_microbatches env =? 0)%Z then st_lift (Raise ZeroDivisionError)
     else mret (count `mod` get_num_microbatches env =? 0)%Z);
  b ← st_lift (size hidden_states 0);
  let latents := b :: latents self in
  attention_mask ← st_lift (extend_attention_mask attention_mask latents);
  attention_mask ←
    (if negb (use_flash_attn (args self)) then
       st_lift (_prepare_4d_attention_mask attention_mask (n_latents_ self))
     else mret attention_mask);
  let compressed_context := latents in
  context ← st_lift (transpose context 1 0);
  compressed_context ← st_lift (transpose compressed_context 1 0);
  (* forward pass *)
  compressed_context ←
    (if bool_decide (recompute_granularity_ self = Some "full"%string) then
       _checkpointed_forward ct self mpu meta seed (Single compressed_context) context
         attention_mask
     else
       layer_loop ct self meta seed (py_range (num_layers_ self))
         (Single compressed_context) context attention_mask retriever_output);
  (* skip counter update for eval and activation checkpointing *)
  st ← st_get;
  _ ← (if is_grad_enabled env && training self then
         st_put {| num_microbatches_in_previous_step := num_microbatches_in_previous_step st;
                   microbatch_count := (microbatch_count st + 1)%Z;
                   inference_params := inference_params st |}
       else mret tt);
  (* final layer norm *)
  hidden_states ←
    (if post_process self && post_norm self then
       match final_norm self with
       | Some final_norm =>
           x ← st_lift (as_tensor compressed_context);
           st_lift (Norm_forward final_norm x)
       | None => st_lift (Raise (AttributeError "final_norm"))
       end
     else mret hidden_states);
  mret hidden_states.

End WithContents.

(** *** load_state_dict *)

(** [s.replace(old, new)]: every non-overlapping occurrence, scanning
    from the left.  [skip] counts the characters of a matched occurrence
    still to be dropped. *)
Fixpoint str_replace_from (old new : string) (skip : nat) (s : string) : string :=
  match s with
  | EmptyString => EmptyString
  | String c s' =>
      match skip with
      | S k => str_replace_from old new k s'
      | O =>
          if String.prefix old s
          then String.append new (str_replace_from old new (String.length old - 1) s')
          else String c (str_replace_from old new 0 s')
      end
  end.

(** With an empty [old], Python inserts [new] before every character and
    at the end. *)
Fixpoint str_interleave (new s : string) : string :=
  match s with
  | EmptyString => new
  | String c s' => String.append new (String c (str_interleave new s'))
  end.

Definition str_replace (s old new : string) : string :=
  if bool_decide (old = EmptyString) then str_interleave new s
  else str_replace_from old new 0 s.

Section StateDict.
Context {V : Type}.

(** A Python dict: the items in insertion order, keys pairwise distinct. *)
Abbreviation dict := (list (string * V)).

Definition dict_keys (d : dict) : list string := fst <$> d.

(** [d[key]] *)
Fixpoint dict_getitem (d : dict) (key : string) : result V :=
  match d with
  | [] => Raise (KeyError key)
  | (k, v) :: d' => if bool_decide (k = key) then Ok v else dict_getitem d' key
  end.

(** [d[key] = value]: overwrite in place, or append. *)
Fixpoint dict_setitem (d : dict) (key : string) (value : V) : dict :=
  match d with
  | [] => [(key, value)]
  | (k, v) :: d' =>
      if bool_decide (k = key) then (k, value) :: d'
      else (k, v) :: dict_setitem d' key value
  end.

(** The [for key in state_dict.keys()] loop. *)
Fixpoint rename_loop (args : Args) (state_dict : dict) (keys : list string)
    (state_dict_ : dict) : result dict :=
  match keys with
  | [] => Ok state_dict_
  | key :: keys =>
      state_dict_ ←
        (if negb (bool_decide (transformer_impl args = "transformer_engine"%string)) then
           let newkey := str_replace key "layernorm" "norm" in
           v ← dict_getitem state_dict key;
           Ok (dict_setitem state_dict_ newkey v)
         else
           v ← dict_getitem state_dict key;
           Ok (dict_setitem state_dict_ key v));
      rename_loop args state_dict keys state_dict_
  end.

(** The call [super().load_state_dict(state_dict_, strict)] that the
    override ends with. *)
Record super_load_state_dict := {
  loaded_state_dict : dict;
  loaded_strict : bool
}.

Definition load_state_dict (args : Args) (state_dict : dict) (strict : bool)
    : result super_load_state_dict :=
  (* handle renaming layernorm -> norm in component names *)
  let state_dict_ := [] in
  state_dict_ ← rename_loop args state_dict (dict_keys state_dict) state_dict_;
  if use_mistral_rotary_position_embeddings args then
    Ok {| loaded_state_dict := state_dict_; loaded_strict := strict |}
  else
    Ok {| loaded_state_dict := state_dict_; loaded_strict := false |}.

End StateDict.
Abbreviation dict V := (list (string * V)) (only parsing).
Arguments super_load_state_dict : clear implicits.

End Idefics2PerceiverParallelTransformer.

(** ** Definitions used in the statements *)

(** A flash core with another [causal] flag. *)
Definition set_causal (self : FlashSelfAttention.t) (c : bool) : FlashSelfAttention.t :=
  {| FlashSelfAttention.causal := c;
     FlashSelfAttention.softmax_scale := FlashSelfAttention.softmax_scale self;
     FlashSelfAttention.dropout_p := FlashSelfAttention.dropout_p self;
     FlashSelfAttention.training := FlashSelfAttention.training self |}.

(** The key under which [load_state_dict] files the entry of [key]. *)
Definition renamed (args : Args) (key : string) : string :=
  if negb (bool_decide (transformer_impl args = "transformer_engine"%string))
  then Idefics2PerceiverParallelTransformer.str_replace key "layernorm" "norm"
  else key.

(** *** Construction of the cross-attention layer *)

(** A dropout probability that [torch.nn.Dropout] and [F.dropout] take. *)
Definition dropout_in_range (p : float) : Prop :=
  (p <? 0)%float = false /\ (1 <? p)%float = false.

(** The configurations from which [__init__] constructs the layer. *)
Record constructible (args : Args) (mpu : Mpu) (config : Config) (np : nat) : Prop := {
  a_seq_par : sequence_parallel config = false;
  a_heads : num_attention_heads config = np * tensor_model_parallel_world_size mpu;
  a_np_pos : 0 < np;
  a_ws_pos : 0 < tensor_model_parallel_world_size mpu;
  a_flash : use_flash_attn args = true ->
            flash_attn_unpadded_func_available mpu = true /\ rearrange_available mpu = true;
  a_groups : group_query_attention args = true ->
             num_query_groups args `mod` tensor_model_parallel_world_size mpu = 0;
  a_dropout : dropout_in_range (attention_dropout config)
}.

(** The configurations [__init__] accepts and [forward] can run on: the
    heads have a positive width, so that [norm_factor] is not zero. *)
Record accepted (args : Args) (mpu : Mpu) (config : Config) (np : nat) : Prop := {
  a_constructible : constructible args mpu config np;
  a_width : 0 < kv_channels config
}.

(** What the construction from an accepted configuration fixes. *)
Record constructed (args : Args) (mpu : Mpu) (config : Config) (self : ParallelAttention.t) (np : nat) : Prop := {
  c_width : 0 < kv_channels config;
  c_core_norm : CoreAttention.nf_is_zero
                  (CoreAttention.norm_factor (ParallelAttention.core_attention self)) = false;
  c_core_dropout : dropout_in_range
                     (CoreAttention.attention_dropout_ (ParallelAttention.core_attention self));
  c_heads : num_attention_heads config = np * tensor_model_parallel_world_size mpu;
  c_np_pos : 0 < np;
  c_ws_pos : 0 < tensor_model_parallel_world_size mpu;
  c_seq_par : ParallelAttention.sequence_parallel_ self = false;
  c_flash : ParallelAttention.use_flash_attn_ self = use_flash_attn args;
  c_checkpoint : ParallelAttention.checkpoint_core_attention self = false;
  c_hn : ParallelAttention.hidden_size_per_attention_head self = kv_channels config;
  c_hn_q : ParallelAttention.hidden_size_per_attention_head_query self = kv_channels config;
  c_hn_kv : ParallelAttention.hidden_size_per_attention_head_kv self = kv_channels config;
  c_np : ParallelAttention.num_attention_heads_per_partition self = np;
  c_groups : ParallelAttention.num_query_groups_per_partition self =
             if group_query_attention args
             then num_query_groups args / tensor_model_parallel_world_size mpu else np;
  c_query : ParallelAttention.query self =
            {| MegatronCore.cpl_input_size := text_hidden_size config;
               MegatronCore.cpl_output_size_per_partition := kv_channels config * np;
               MegatronCore.cpl_bias := add_bias_linear config; MegatronCore.cpl_skip_bias_add := false |};
  c_key_value : ParallelAttention.key_value self =
            {| MegatronCore.cpl_input_size := text_hidden_size config;
               MegatronCore.cpl_output_size_per_partition := 2 * kv_channels config * np;
               MegatronCore.cpl_bias := add_bias_linear config; MegatronCore.cpl_skip_bias_add := false |};
  c_core_hp : CoreAttention.hidden_size_per_partition (ParallelAttention.core_attention self)
              = kv_channels config * np;
  c_flash_core : use_flash_attn args = true -> is_Some (ParallelAttention.core_attention_flash self);
  c_dense : ParallelAttention.dense self =
            {| MegatronCore.rpl_input_size_per_partition := kv_channels config * np;
               MegatronCore.rpl_output_size := text_hidden_size config;
               MegatronCore.rpl_bias := args_add_bias_linear args; MegatronCore.rpl_skip_bias_add := true |}
}.

(** The masks the flash path accepts for [b] rows of [sk] keys. *)
Definition flash_mask_ok (b sk : nat) (m : option attn_mask) : Prop :=
  m = None \/ exists valid, m = Some (PaddingMask b sk valid).

(** *** The layer memory of the inference cache *)

Section CacheDefs.
Context {A : Type} (ct : Contents A).

(** The key/value memory of a layer after an in-bounds write of [sk]
    rows and [b] columns at the offsets [(s0, b0)]. *)
Definition written (mem : ctensor A) (s0 b0 sk b : nat) (src : nat -> nat -> A) : ctensor A :=
  {| c_shape := c_shape mem;
     c_data := fun i j =>
       if (s0 <=? i) && (i <? s0 + sk) && (b0 <=? j) && (j <? b0 + b)
       then src (i - s0) (j - b0) else c_data mem i j |}.

(** [mem[:s1, b0:b0+b]] of a memory with at least [s1] rows and
    [b0 + b] columns. *)
Definition prefix_of (mem : ctensor A) (s1 b0 b : nat) : ctensor A :=
  {| c_shape := s1 :: b :: drop 2 (c_shape mem);
     c_data := fun i j => c_data mem i (j + b0) |}.

Definition same_tensor (x y : ctensor A) : Prop :=
  c_shape x = c_shape y /\ forall i j, c_data x i j = c_data y i j.

(** The memory of the layer once [forward] has passed the allocation
    block: the registered one, or a fresh one. *)
Definition cache_entry (self : ParallelAttention.t) (ip : InferenceParams A)
    : ctensor A * ctensor A :=
  match key_value_memory_dict ip !! ParallelAttention.layer_number self with
  | Some m => m
  | None =>
      (ParallelAttention._allocate_memory ct self (max_sequence_length ip)
         (max_batch_size ip) (ParallelAttention.num_query_groups_per_partition self),
       ParallelAttention._allocate_memory ct self (max_sequence_length ip)
         (max_batch_size ip) (ParallelAttention.num_query_groups_per_partition self))
  end.

(** The inference parameters once [forward] has passed the allocation
    block. *)
Definition preallocated (self : ParallelAttention.t) (ip : InferenceParams A)
    : InferenceParams A :=
  match key_value_memory_dict ip !! ParallelAttention.layer_number self with
  | Some _ => ip
  | None =>
      set_key_value_memory_dict ip
        (<[ParallelAttention.layer_number self := cache_entry self ip]>
           (key_value_memory_dict ip))
  end.

End CacheDefs.

(** A layer with another layer type. *)
Definition set_layer_type (l : ParallelTransformerLayer.t) (layer_type : LayerType.t)
    : ParallelTransformerLayer.t :=
  {| ParallelTransformerLayer.layer_number := ParallelTransformerLayer.layer_number l;
     ParallelTransformerLayer.layer_type := layer_type;
     ParallelTransformerLayer.apply_residual_connection_post_norm :=
       ParallelTransformerLayer.apply_residual_connection_post_norm l;
     ParallelTransformerLayer.input_latents_norm := ParallelTransformerLayer.input_latents_norm l;
     ParallelTransformerLayer.input_context_norm := ParallelTransformerLayer.input_context_norm l;
     ParallelTransformerLayer.self_attention := ParallelTransformerLayer.self_attention l;
     ParallelTransformerLayer.hidden_dropout_ := ParallelTransformerLayer.hidden_dropout_ l;
     ParallelTransformerLayer.bias_dropout_fusion_ := ParallelTransformerLayer.bias_dropout_fusion_ l;
     ParallelTransformerLayer.drop_path := ParallelTransformerLayer.drop_path l;
     ParallelTransformerLayer.post_attention_norm := ParallelTransformerLayer.post_attention_norm l;
     ParallelTransformerLayer.inter_attention := ParallelTransformerLayer.inter_attention l;
     ParallelTransformerLayer.post_inter_attention_norm :=
       ParallelTransformerLayer.post_inter_attention_norm l;
     ParallelTransformerLayer.mlp := ParallelTransformerLayer.mlp l;
     ParallelTransformerLayer.training := ParallelTransformerLayer.training l |}.

(** *** The layers and the resampler *)

(** The settings of a swiglu layer outside retrieval. *)
Record layer_accepted (args : Args) (mpu : Mpu) (config : Config) (np : nat) : Prop := {
  l_attention : accepted args mpu config np;
  l_openai_gelu : openai_gelu args = false;
  l_onnx_safe : onnx_safe args = false;
  l_swiglu : swiglu args = true;
  l_mlp : (text_hidden_size config * 4) `mod` tensor_model_parallel_world_size mpu = 0;
  l_no_retro : retro_add_retriever args = false;
  l_hidden_dropout : dropout_in_range (hidden_dropout config)
}.

(** With retrieval, the layer constructor calls [get_retro_args()] and
    reads the result: the name has to be bound and the retro arguments
    set. *)
Definition retro_args_ready (args : Args) (mpu : Mpu) : Prop :=
  retro_add_retriever args = true ->
  get_retro_args_imported mpu = true /\ is_Some (get_retro_args mpu).

(** The masks a cross-attention layer accepts for [sq] queries over [b]
    rows of [sk] keys. *)
Definition layer_mask_ok (args : Args) (meta : TensorMeta) (b sq sk : nat)
    (m : option attn_mask) : Prop :=
  if use_flash_attn args
  then FlashSelfAttention.half_precision (t_dtype meta) = true /\ t_is_cuda meta = true
       /\ flash_mask_ok b sk m
  else exists m', m = Some m' /\ mask_shape m' = [b; 1; sq; sk].

(** The settings under which the resampler is built from local layers
    without stochastic depth, on a single pipeline stage. *)
Record resampler_accepted (args : Args) (mpu : Mpu) (env : Env) (config : Config)
    (model_type : ModelType) (layer_type : LayerType.t) (drop_path_rate : float)
    (np : nat) : Prop := {
  r_layer : layer_accepted args mpu config np;
  r_local : transformer_impl args = "local"%string;
  r_fp8 : fp8 args = None;
  r_no_retro : retro_add_retriever args = false;
  r_model_type : model_type <> retro_encoder_model;
  r_layer_type : layer_type <> LayerType.retro_decoder_with_retriever;
  r_rates : exists rates,
              linspace env 0%float drop_path_rate (num_layers config) = Ok rates
              /\ length rates = Z.to_nat (num_layers config)
              /\ Forall (fun r => (0 <? r)%float = false) rates;
  r_layers : (0 < num_layers config)%Z;
  r_no_vpp : virtual_pipeline_model_parallel_size config = None;
  r_pipeline_rank : pipeline_model_parallel_rank mpu = 0%Z;
  r_pipeline_size : pipeline_model_parallel_world_size mpu = 1%Z;
  r_recompute : recompute_granularity config <> Some "full"%string;
  r_projection : intermediate_size config `mod` tensor_model_parallel_world_size mpu = 0;
  r_microbatches : get_num_microbatches env <> 0%Z;
  r_latents : 0 < n_latents config
}.

(** The masks the resampler accepts for [b] rows of [L] context positions. *)
Definition resampler_mask_ok (args : Args) (meta : TensorMeta) (b L : nat)
    (m : attn_mask) : Prop :=
  if use_flash_attn args
  then FlashSelfAttention.half_precision (t_dtype meta) = true /\ t_is_cuda meta = true
       /\ exists valid, m = PaddingMask b L valid
  else mask_shape m = [b; L].

(** What every layer of a constructed resampler does. *)
Definition good_layer {A : Type} (ct : Contents A) (args : Args) (config : Config)
    (l : Idefics2PerceiverParallelTransformer.layer) : Prop :=
  exists l', l = Idefics2PerceiverParallelTransformer.TransformerLayer l'
    /\ forall meta seed n L b m ro,
         0 < n -> 0 < b -> layer_mask_ok args meta b n (L + n) m ->
         ParallelTransformerLayer.forward ct l' meta seed
           [n; b; text_hidden_size config] [L; b; text_hidden_size config] m ro None
         = (None, Ok (Single [n; b; text_hidden_size config])).

(** ** Concrete instances

    Small configurations on which the definitions are run. *)

Module Examples.
Import Torch.

(** A dense core with one head of width 8 per partition. *)
Definition core_attention : CoreAttention.t :=
  {| CoreAttention.layer_number := 1;
     CoreAttention.attn_mask_type := AttnMaskType.padding;
     CoreAttention.sequence_parallel_ := false;
     CoreAttention.hidden_size_per_partition := 8;
     CoreAttention.hidden_size_per_attention_head := 8;
     CoreAttention.num_attention_heads_per_partition := 1;
     CoreAttention.norm_factor :=
       {| CoreAttention.nf_radicand := 8; CoreAttention.nf_coeff := 1 |};
     CoreAttention.attention_dropout_ := 0%float |}.

(** Eight heads of width 32 over a text width of 256, 64 latents, vision
    features of width 128. *)
Definition config (layers : Z) : Config :=
  {| add_bias_linear := false; hidden_size := 256; text_hidden_size := 256;
     vision_hidden_size := 128; intermediate_size := 512; ffn_hidden_size := 1024;
     input_size := 128; output_size := 256; gated_linear_unit := true;
     kv_channels := 32; num_attention_heads := 8; num_layers := layers;
     n_latents := 64; sequence_parallel := false;
     apply_query_key_layer_scaling := false; attention_softmax_in_fp32 := false;
     attention_dropout := 0%float; hidden_dropout := 0%float;
     bias_dropout_fusion := false; apply_residual_connection_post_layernorm := false;
     recompute_granularity := None; recompute_method := None;
     recompute_num_layers := 1%Z; distribute_saved_activations := false;
     virtual_pipeline_model_parallel_size := None |}.

(** The local implementation; the flags that vary between the examples
    are parameters. *)
Definition args (openai_gelu swiglu use_flash_attn group_query_attention
    retro_add_retriever : bool) (layers : Z) : Args :=
  {| openai_gelu := openai_gelu; onnx_safe := false; swiglu := swiglu;
     squared_relu := false; bias_gelu_fusion := false;
     use_flash_attn := use_flash_attn;
     group_query_attention := group_query_attention; num_query_groups := 2;
     args_add_bias_linear := false; retro_add_retriever := retro_add_retriever;
     transformer_impl := "local"; args_num_layers := layers;
     args_model_type := encoder_or_decoder;
     pipeline_model_parallel_split_rank := 0%Z; fp8 := None;
     retro_encoder_attention_dropout := 0%float;
     retro_encoder_hidden_dropout := 0%float;
     use_mistral_rotary_position_embeddings := false |}.

(** The usual setting: swiglu, dense attention core. *)
Definition swiglu_args : Args := args false true false false false 2.

(** A single process, with flash-attn and einops installed; the module
    was loaded through its second import branch. *)
Definition mpu : Mpu :=
  {| tensor_model_parallel_world_size := 1; tensor_model_parallel_rank := 0;
     pipeline_model_parallel_world_size := 1%Z; pipeline_model_parallel_rank := 0%Z;
     virtual_pipeline_model_parallel_rank := 0%Z;
     flash_attn_unpadded_func_available := true; rearrange_available := true;
     get_retro_args_imported := false; get_retro_args := None |}.

(** [linspace] from 0 to 0 (no stochastic depth), one microbatch. *)
Definition env : Env :=
  {| transformer_engine_available := false; te_version_ge_0_8 := false;
     te_version_ge_0_10 := false; te_version_ge_0_11 := false;
     linspace := fun a _ n => Ok (replicate (Z.to_nat n) a);
     get_num_microbatches := 1%Z; is_grad_enabled := true |}.

(** Contents named by where they come from. *)
Inductive block :=
  | Uninitialised
  | KeyBlock (layer : Z) (i j : nat)
  | ValueBlock (layer : Z) (i j : nat)
  | Broadcast.

Definition contents : Contents block :=
  {| empty_data := fun _ _ => Uninitialised;
     key_blocks := KeyBlock; value_blocks := ValueBlock;
     broadcast_copy := fun _ _ _ _ _ => Broadcast |}.

Definition meta : TensorMeta := {| t_dtype := bfloat16; t_is_cuda := true |}.

(** A flash core in evaluation mode, configured causal. *)
Definition flash : FlashSelfAttention.t :=
  {| FlashSelfAttention.causal := true; FlashSelfAttention.softmax_scale := None;
     FlashSelfAttention.dropout_p := FlashSelfAttention.DropoutProb 0.25%float;
     FlashSelfAttention.training := false |}.

(** The configuration of the per-layer MLP, as the layer derives it. *)
Definition layer_mlp_config : Config := set_mlp_sizes (config 2) 256 1024 256 true.

(** Arguments that select another nonlinearity than swiglu. *)
Definition openai_gelu_args : Args := args true false false false false 2.
Definition plain_gelu_args : Args := args false false false false false 2.

(** Grouped-query attention with two query groups. *)
Definition gqa_args : Args := args false true false true false 2.

(** The cross-attention layer of layer 1. *)
Definition attention (a : Args) : result ParallelAttention.t :=
  ParallelAttention.__init__ a mpu false (config 2) 1 AttnType.cross_attn
    AttnMaskType.padding.

(** A transformer layer of the default (encoder) type, in evaluation mode. *)
Definition encoder_layer : result ParallelTransformerLayer.t :=
  ParallelTransformerLayer.__init__ swiglu_args mpu false (config 2) 1
    LayerType.encoder AttnMaskType.padding 0%float.

(** An empty inference cache with room for [max_batch] sequences of
    200 positions, positioned at the given offsets. *)
Definition inference_params (max_batch sequence_offset batch_offset : nat)
    : InferenceParams block :=
  {| max_sequence_length := 200; max_batch_size := max_batch;
     sequence_len_offset := sequence_offset; batch_size_offset := batch_offset;
     key_value_memory_dict := ∅ |}.

(** The top-level module over two layers, in evaluation mode. *)
Definition transformer (post_norm : bool) : result Idefics2PerceiverParallelTransformer.t :=
  Idefics2PerceiverParallelTransformer.__init__ swiglu_args mpu env false (config 2)
    encoder_or_decoder LayerType.encoder AttnMaskType.padding post_norm true true 0%float.

(** A saved state dictionary with a legacy normalization key. *)
Definition state_dict : list (string * nat) :=
  [("layers.0.input_layernorm.weight"%string, 1);
   ("layers.0.mlp.dense_h_to_4h.weight"%string, 2);
   ("final_layernorm.bias"%string, 3)].

End Examples.

(** *** The layers a pipeline stage owns *)

(** The number of layers [__init__] builds on this stage and the offset of
    their layer numbers, as [__init__] computes them from the virtual and
    the plain pipeline ranks. *)
Definition stage_layers (args : Args) (mpu : Mpu) (config : Config)
    (layer_type : LayerType.t) : result (Z * Z) :=
  match virtual_pipeline_model_parallel_size config with
  | Some vpp =>
      if (vpp =? 0)%Z then Raise ZeroDivisionError
      else
        _ ← py_assert (num_layers config `mod` vpp =? 0)%Z
              "num_layers_per_stage must be divisible by virtual_pipeline_model_parallel_size";
        _ ← py_assert (negb (bool_decide (args_model_type args = encoder_and_decoder)))
              "args.model_type != ModelType.encoder_and_decoder";
        let num_layers_ := (num_layers config `div` vpp)%Z in
        Ok (num_layers_,
            (virtual_pipeline_model_parallel_rank mpu * (num_layers config `div` vpp)
             + pipeline_model_parallel_rank mpu * num_layers_)%Z)
  | None =>
      if bool_decide (args_model_type args = encoder_and_decoder)
         && (1 <? pipeline_model_parallel_world_size mpu)%Z then
        let pipeline_rank := pipeline_model_parallel_rank mpu in
        if bool_decide (layer_type = LayerType.encoder) then
          Ok (num_layers config, (pipeline_rank * num_layers config)%Z)
        else
          let num_ranks_in_enc := pipeline_model_parallel_split_rank args in
          Ok (num_layers config, ((pipeline_rank - num_ranks_in_enc) * num_layers config)%Z)
      else Ok (num_layers config, (pipeline_model_parallel_rank mpu * num_layers config)%Z)
  end.

(** A layer list that holds no transformer layer. *)
Definition only_noop (ls : list Idefics2PerceiverParallelTransformer.layer) : Prop :=
  forall l, l ∈ ls -> exists n, l = Idefics2PerceiverParallelTransformer.NoopLayer n.

(** The value [load_state_dict] files under [key']: that of the last
    entry, in iteration order, whose key is renamed to [key']. *)
Definition renamed_source {V : Type} (args : Args) (state_dict : list (string * V))
    (key' : string) : option V :=
  snd <$> last (filter (fun kv => renamed args kv.1 = key') state_dict).

(** The two microbatch counters of the module state. *)
Definition counters {A : Type} (st : Idefics2PerceiverParallelTransformer.mutable A)
    : Z * Z :=
  (Idefics2PerceiverParallelTransformer.num_microbatches_in_previous_step st,
   Idefics2PerceiverParallelTransformer.microbatch_count st).

(** ** Further instances *)

Module Settings.

(** The engine implementation selected, swiglu, dense attention. *)
Definition engine_args : Args :=
  {| openai_gelu := false; onnx_safe := false; swiglu := true;
     squared_relu := false; bias_gelu_fusion := false;
     use_flash_attn := false;
     group_query_attention := false; num_query_groups := 2;
     args_add_bias_linear := false; retro_add_retriever := false;
     transformer_impl := "transformer_engine"; args_num_layers := 0;
     args_model_type := encoder_or_decoder;
     pipeline_model_parallel_split_rank := 0%Z; fp8 := None;
     retro_encoder_attention_dropout := 0%float;
     retro_encoder_hidden_dropout := 0%float;
     use_mistral_rotary_position_embeddings := false |}.

(** The engine installed, at version 0.11. *)
Definition engine_env : Env :=
  {| transformer_engine_available := true; te_version_ge_0_8 := true;
     te_version_ge_0_10 := true; te_version_ge_0_11 := true;
     linspace := fun a _ n => Ok (replicate (Z.to_nat n) a);
     get_num_microbatches := 1%Z; is_grad_enabled := true |}.


(** Plain gelu with the fused bias+gelu kernel asked for. *)
Definition fused_gelu_args : Args :=
  {| openai_gelu := false; onnx_safe := false; swiglu := false;
     squared_relu := false; bias_gelu_fusion := true;
     use_flash_attn := false;
     group_query_attention := false; num_query_groups := 2;
     args_add_bias_linear := false; retro_add_retriever := false;
     transformer_impl := "local"; args_num_layers := 2;
     args_model_type := encoder_or_decoder;
     pipeline_model_parallel_split_rank := 0%Z; fp8 := None;
     retro_encoder_attention_dropout := 0%float;
     retro_encoder_hidden_dropout := 0%float;
     use_mistral_rotary_position_embeddings := false |}.

(** A resampler without layers, in evaluation mode. *)
Definition empty_transformer (a : Args) (e : Env)
    : result Idefics2PerceiverParallelTransformer.t :=
  Idefics2PerceiverParallelTransformer.__init__ a Examples.mpu e false (Examples.config 0)
    encoder_or_decoder LayerType.encoder AttnMaskType.padding true true true 0%float.

(** The two-layer resampler in training mode. *)
Definition training_transformer : result Idefics2PerceiverParallelTransformer.t :=
  Idefics2PerceiverParallelTransformer.__init__ Examples.swiglu_args Examples.mpu
    Examples.env true (Examples.config 2) encoder_or_decoder LayerType.encoder
    AttnMaskType.padding true true true 0%float.

(** A later pipeline stage: the input comes from [set_input_tensor]. *)
Definition later_stage : result Idefics2PerceiverParallelTransformer.t :=
  Idefics2PerceiverParallelTransformer.__init__ Examples.swiglu_args Examples.mpu
    Examples.env false (Examples.config 2) encoder_or_decoder LayerType.encoder
    AttnMaskType.padding true false true 0%float.



End Settings.

(** * Properties *)

(** ** The error monad and the shape operations *)

Lemma bind_Ok {A B} (a : A) (f : A -> result B) : (Ok a ≫= f) = f a.
Proof. reflexivity. Qed.

Lemma bind_Raise {A B} (e : exn) (f : A -> result B) : (Raise e ≫= f) = Raise e.
Proof. reflexivity. Qed.

Lemma bind_raises {A B} (m : result A) (f : A -> result B) :
  (forall a, raises (f a)) -> raises (m ≫= f).
Proof. intros Hf. destruct m as [a|e]; [apply Hf | by exists e]. Qed.

Lemma raises_not_ok {A} (r : result A) : raises r <-> is_ok r = false.
Proof.
  split.
  - by intros [e ->].
  - destruct r as [a|e]; [done | by exists e].
Qed.

(** ** Computations that come back

    [Hang] stands for a call that does not return.  Only the [while] loop
    of the uniform recompute method can produce it; everything else either
    returns a value or raises a Python exception. *)

Lemma never_hangs_bind {A B} (m : result A) (f : A -> result B) :
  never_hangs m -> (forall a, never_hangs (f a)) -> never_hangs (m ≫= f).
Proof.
  intros Hm Hf. destruct m as [a|e]; [apply Hf|].
  intros H. apply Hm. cbn in H. congruence.
Qed.

Lemma raises_fails {A} (r : result A) : raises r -> never_hangs r -> fails r.
Proof. intros [e ->] Hn. exists e. split; [done|]. intros ->. by apply Hn. Qed.

Lemma fails_raises {A} (r : result A) : fails r -> raises r.
Proof. intros (e & -> & _). by exists e. Qed.

(** One step of a proof that a computation in the error monad comes back. *)
Ltac never_hangs_step :=
  match goal with
  | |- never_hangs (Ok _) => discriminate
  | |- never_hangs (Raise _) => discriminate
  | |- never_hangs (mret _) => discriminate
  | |- never_hangs (mbind _ _) => apply never_hangs_bind; [|intros ?]
  | |- never_hangs (if ?c then _ else _) => destruct c
  | |- never_hangs (match ?x with _ => _ end) => destruct x
  | |- never_hangs (let '(_, _) := ?p in _) => destruct p
  end.

Ltac never_hangs_auto := repeat first [never_hangs_step | done].

Module TorchFacts.
Import Torch.

Lemma known_product_Some dims : known_product (Some <$> dims) = numel dims.
Proof.
  unfold known_product, numel.
  induction dims as [|d dims IH]; [done|].
  rewrite fmap_cons. cbn [foldr]. by rewrite IH.
Qed.

Lemma count_inferred_Some dims : count_inferred (Some <$> dims) = 0.
Proof.
  unfold count_inferred. induction dims as [|d dims IH]; [done|].
  rewrite fmap_cons, filter_cons_False; [exact IH | discriminate].
Qed.

Lemma default_Some (dims : list nat) n : default n <$> (Some <$> dims) = dims.
Proof.
  induction dims as [|d dims IH]; [done|].
  rewrite !fmap_cons, IH. reflexivity.
Qed.

(** A view that names every size succeeds exactly on equal element counts. *)
Lemma view_exact s dims : numel s = numel dims -> view s (Some <$> dims) = Ok dims.
Proof.
  intros H. unfold view.
  rewrite count_inferred_Some, known_product_Some, H, Nat.eqb_refl.
  by rewrite default_Some.
Qed.

(** A view whose last size is [-1] infers the quotient. *)
Lemma view_infer3 s a b z :
  numel s = a * b * z -> 0 < a * b -> view s [Some a; Some b; None] = Ok [a; b; z].
Proof.
  intros Hn Hpos. unfold view.
  change (count_inferred [Some a; Some b; None]) with 1.
  change (known_product [Some a; Some b; None]) with (a * (b * 1)).
  replace (a * (b * 1)) with (a * b) by lia.
  destruct (a * b =? 0) eqn:E; [apply Nat.eqb_eq in E; lia|].
  rewrite Hn.
  replace (a * b * z) with (z * (a * b)) by lia.
  rewrite Nat.Div0.mod_mul, Nat.div_mul by lia.
  reflexivity.
Qed.

Lemma broadcast_dim_refl x : broadcast_dim x x = Some x.
Proof. unfold broadcast_dim. by rewrite Nat.eqb_refl. Qed.

Lemma broadcast_dim_1_r x : broadcast_dim x 1 = Some x.
Proof.
  unfold broadcast_dim.
  destruct (x =? 1) eqn:E; [by apply Nat.eqb_eq in E; subst|].
  reflexivity.
Qed.

Lemma broadcast_dim_1_l x : broadcast_dim 1 x = Some x.
Proof.
  unfold broadcast_dim.
  destruct (1 =? x) eqn:E; [by apply Nat.eqb_eq in E; subst|].
  reflexivity.
Qed.

Lemma broadcast_rev_refl l : broadcast_rev l l = Some l.
Proof.
  induction l as [|x l IH]; [done|].
  simpl. by rewrite broadcast_dim_refl, IH.
Qed.

Lemma add_same s : add s s = Ok s.
Proof.
  unfold add, broadcast_shapes. by rewrite broadcast_rev_refl, reverse_involutive.
Qed.

Lemma shape_eqb_refl s : shape_eqb s s = true.
Proof. unfold shape_eqb. by apply bool_decide_eq_true. Qed.

Lemma shape_eqb_neq a b : a <> b -> shape_eqb a b = false.
Proof. intros H. unfold shape_eqb. by apply bool_decide_eq_false. Qed.

Lemma permute_attention a b c d : permute [a; b; c; d] [2; 0; 1; 3] = Ok [c; a; b; d].
Proof. reflexivity. Qed.

Lemma dropout_check_ok p : dropout_in_range p <-> dropout_check p = Ok tt.
Proof.
  unfold dropout_in_range, dropout_check. split.
  - by intros [-> ->].
  - destruct (p <? 0)%float, (1 <? p)%float; by intros.
Qed.

Lemma dropout_ok x p : dropout_in_range p -> dropout x p = Ok x.
Proof. intros H. unfold dropout. by rewrite (proj1 (dropout_check_ok p) H). Qed.

Lemma dropout_zero : dropout_in_range 0%float.
Proof. by split. Qed.

(** The shape operations come back. *)

Lemma size_returns s i : never_hangs (size s i).
Proof. unfold size. never_hangs_auto. Qed.

Lemma view_returns s dims : never_hangs (view s dims).
Proof. unfold view. never_hangs_auto. Qed.

Lemma transpose_returns s i j : never_hangs (transpose s i j).
Proof. unfold transpose. never_hangs_auto. Qed.

Lemma permute_returns s p : never_hangs (permute s p).
Proof. unfold permute. never_hangs_auto. Qed.

Lemma wrap_dim_returns d n : never_hangs (wrap_dim d n).
Proof. unfold wrap_dim. never_hangs_auto. Qed.

Lemma cat_returns a b d : never_hangs (cat a b d).
Proof. unfold cat. pose proof wrap_dim_returns. never_hangs_auto. Qed.

Lemma broadcast_shapes_returns a b : never_hangs (broadcast_shapes a b).
Proof. unfold broadcast_shapes. never_hangs_auto. Qed.

Lemma add_returns a b : never_hangs (add a b).
Proof. apply broadcast_shapes_returns. Qed.

Lemma mul_returns a b : never_hangs (mul a b).
Proof. apply broadcast_shapes_returns. Qed.

Lemma expand_as_returns a b : never_hangs (expand_as a b).
Proof. unfold expand_as. pose proof broadcast_shapes_returns. never_hangs_auto. Qed.

Lemma bmm_returns a b : never_hangs (bmm a b).
Proof. unfold bmm. never_hangs_auto. Qed.

Lemma baddbmm_returns i a b : never_hangs (baddbmm i a b).
Proof. unfold baddbmm. pose proof bmm_returns. pose proof expand_as_returns. never_hangs_auto. Qed.

Lemma linear_returns i o x : never_hangs (linear i o x).
Proof. unfold linear. never_hangs_auto. Qed.

Lemma chunk2_last_returns x : never_hangs (chunk2_last x).
Proof. unfold chunk2_last. never_hangs_auto. Qed.

Lemma dropout_check_returns p : never_hangs (dropout_check p).
Proof. unfold dropout_check. never_hangs_auto. Qed.

Lemma dropout_returns x p : never_hangs (dropout x p).
Proof. unfold dropout. pose proof dropout_check_returns. never_hangs_auto. Qed.

Lemma split_last_returns x n : never_hangs (split_last x n).
Proof. unfold split_last. never_hangs_auto. Qed.

Lemma unpack2_returns {X} (xs : list X) : never_hangs (unpack2 xs).
Proof. unfold unpack2. never_hangs_auto. Qed.

Lemma py_getitem_returns {X} (l : list X) i : never_hangs (py_getitem l i).
Proof. unfold py_getitem. cbv zeta. never_hangs_auto. Qed.

Lemma py_assert_returns c site : never_hangs (py_assert c site).
Proof. unfold py_assert. never_hangs_auto. Qed.

Lemma py_local_returns {X} name (v : option X) : never_hangs (py_local name v).
Proof. unfold py_local. never_hangs_auto. Qed.

End TorchFacts.

(** ** DropPath *)

(** C7. [DropPath.forward] is the identity when the drop probability
    compares equal to zero or the module is in evaluation mode: the output
    is the input tensor itself, whatever the tensor, the probability and
    the state of the random generator. *)
Theorem C7_drop_path_identity {T} `{TensorOps T} (self : DropPath.t) (seed : nat)
    (hidden_state : T) :
  (DropPath.drop_prob self =? 0)%float = true \/ DropPath.training self = false ->
  DropPath.forward self seed hidden_state = Ok hidden_state.
Proof.
  intros Hid. unfold DropPath.forward.
  destruct Hid as [-> | ->]; [reflexivity|].
  by rewrite orb_true_r.
Qed.

Lemma C7_drop_path_identity_witness :
  ((DropPath.drop_prob (DropPath.__init__ 0.5%float false) =? 0)%float = true
   \/ DropPath.training (DropPath.__init__ 0.5%float false) = false)
  /\ DropPath.forward (DropPath.__init__ 0.5%float false) 7 [4; 2; 8] = Ok [4; 2; 8]
  /\ DropPath.forward (DropPath.__init__ 0%float true) 7 [4; 2; 8] = Ok [4; 2; 8].
Proof.
  split; [right; reflexivity|].
  split.
  - apply (C7_drop_path_identity (DropPath.__init__ 0.5%float false) 7 [4; 2; 8]).
    right; reflexivity.
  - apply (C7_drop_path_identity (DropPath.__init__ 0%float true) 7 [4; 2; 8]).
    left; reflexivity.
Defined.

(** ** CoreAttention *)

Module CoreAttentionFacts.
Import Torch TorchFacts.

Lemma expand_as_refl s : expand_as s s = Ok s.
Proof.
  unfold expand_as. fold (add s s). rewrite add_same, bind_Ok.
  by rewrite shape_eqb_refl, Nat.leb_refl.
Qed.

Lemma bmm_ok B n m p : bmm [B; n; m] [B; m; p] = Ok [B; n; p].
Proof. unfold bmm. by rewrite !Nat.eqb_refl. Qed.

Lemma baddbmm_ok B n m p : baddbmm [B; n; p] [B; n; m] [B; m; p] = Ok [B; n; p].
Proof. unfold baddbmm. by rewrite bmm_ok, bind_Ok, expand_as_refl. Qed.

Lemma add_mask b np sq sk : add [b; np; sq; sk] [b; 1; sq; sk] = Ok [b; np; sq; sk].
Proof.
  unfold add, broadcast_shapes.
  change (reverse [b; np; sq; sk]) with [sk; sq; np; b].
  change (reverse [b; 1; sq; sk]) with [sk; sq; 1; b].
  cbn [broadcast_rev].
  rewrite !broadcast_dim_refl, broadcast_dim_1_r. reflexivity.
Qed.

(** The raw scores of well-shaped inputs: every step up to the mask
    succeeds and leaves scores of size [(b, np, sq, sk)]. *)
Ltac raw_scores sq sk b np hn Hnf :=
  unfold CoreAttention.forward;
  cbn [size lookup list_lookup];
  rewrite !bind_Ok;
  unfold reshape;
  rewrite (view_infer3 _ sq (b * np) hn) by (simpl; nia);
  rewrite bind_Ok;
  rewrite (view_infer3 _ sk (b * np) hn) by (simpl; nia);
  rewrite bind_Ok;
  change (transpose [sq; b * np; hn] 0 1) with (Ok [b * np; sq; hn]);
  change (transpose [sk; b * np; hn] 0 1) with (Ok [b * np; sk; hn]);
  rewrite !bind_Ok;
  change (transpose [b * np; sk; hn] 1 2) with (Ok [b * np; hn; sk]);
  rewrite bind_Ok, Hnf, bind_Ok, baddbmm_ok, bind_Ok;
  rewrite view_exact by (simpl; lia);
  rewrite bind_Ok.

(** A zero [norm_factor] stops well-shaped inputs at the division, with
    or without a mask. *)
Lemma forward_zero_norm self sq sk b np hn m :
  0 < sq -> 0 < sk -> 0 < b -> 0 < np ->
  CoreAttention.nf_is_zero (CoreAttention.norm_factor self) = true ->
  CoreAttention.forward self [sq; b; np; hn] [sk; b; np; hn] [sk; b; np; hn] m
  = Raise ZeroDivisionError.
Proof.
  intros Hsq Hsk Hb Hnp Hnf.
  unfold CoreAttention.forward.
  cbn [size lookup list_lookup].
  rewrite !bind_Ok.
  unfold reshape.
  rewrite (view_infer3 _ sq (b * np) hn) by (simpl; nia).
  rewrite bind_Ok.
  rewrite (view_infer3 _ sk (b * np) hn) by (simpl; nia).
  rewrite bind_Ok.
  change (transpose [sq; b * np; hn] 0 1) with (Ok [b * np; sq; hn]).
  change (transpose [sk; b * np; hn] 0 1) with (Ok [b * np; sk; hn]).
  rewrite !bind_Ok.
  change (transpose [b * np; sk; hn] 1 2) with (Ok [b * np; hn; sk]).
  by rewrite bind_Ok, Hnf.
Qed.

(** With a mask, well-shaped inputs get through exactly when the mask has
    the size [(b, 1, sq, sk)]. *)
Lemma forward_masked self sq sk b np hn m :
  0 < sq -> 0 < sk -> 0 < b -> 0 < np ->
  CoreAttention.hidden_size_per_partition self = np * hn ->
  CoreAttention.nf_is_zero (CoreAttention.norm_factor self) = false ->
  dropout_in_range (CoreAttention.attention_dropout_ self) ->
  CoreAttention.forward self [sq; b; np; hn] [sk; b; np; hn] [sk; b; np; hn] (Some m) =
    if shape_eqb m [b; 1; sq; sk] then Ok [sq; b; np * hn]
    else Raise (ValueError "Attention mask should be of size (b, 1, sq, sk)").
Proof.
  intros Hsq Hsk Hb Hnp Hhp Hnf Hdrop.
  raw_scores sq sk b np hn Hnf.
  destruct (shape_eqb m [b; 1; sq; sk]) eqn:E; [|reflexivity].
  apply bool_decide_eq_true in E. subst m.
  cbn [negb]. rewrite add_mask, !bind_Ok.
  cbn [py_local]. rewrite !bind_Ok.
  replace (if negb (CoreAttention.sequence_parallel_ self)
           then dropout (pointwise [b; np; sq; sk]) (CoreAttention.attention_dropout_ self)
           else dropout (pointwise [b; np; sq; sk]) (CoreAttention.attention_dropout_ self))
    with (Ok (A:=shape) [b; np; sq; sk])
    by (rewrite dropout_ok by done; by destruct (CoreAttention.sequence_parallel_ self)).
  rewrite bind_Ok.
  cbn [size lookup list_lookup]. rewrite !bind_Ok.
  rewrite (view_infer3 _ sk (b * np) hn) by (simpl; nia).
  rewrite bind_Ok.
  rewrite (view_infer3 _ (b * np) sq sk) by (simpl; nia).
  rewrite bind_Ok.
  change (transpose [sk; b * np; hn] 0 1) with (Ok [b * np; sk; hn]).
  rewrite bind_Ok, bmm_ok, bind_Ok.
  rewrite view_exact by (simpl; lia).
  rewrite bind_Ok, permute_attention, bind_Ok.
  change (drop_last 2 [sq; b; np; hn]) with [sq; b].
  rewrite Hhp.
  change ([sq; b] ++ [np * hn]) with [sq; b; np * hn].
  rewrite view_exact by (simpl; lia).
  reflexivity.
Qed.

(** Without a mask, well-shaped inputs reach the softmax, which reads the
    unassigned [attn_weights]. *)
Lemma forward_unmasked self sq sk b np hn :
  0 < sq -> 0 < sk -> 0 < b -> 0 < np ->
  CoreAttention.nf_is_zero (CoreAttention.norm_factor self) = false ->
  CoreAttention.forward self [sq; b; np; hn] [sk; b; np; hn] [sk; b; np; hn] None =
    Raise (UnboundLocalError "attn_weights").
Proof.
  intros Hsq Hsk Hb Hnp Hnf.
  raw_scores sq sk b np hn Hnf.
  reflexivity.
Qed.

(** Whatever the inputs, there is no path to a result without a mask. *)
Lemma forward_unmasked_raises self q k v :
  raises (CoreAttention.forward self q k v None).
Proof.
  unfold CoreAttention.forward.
  do 12 (apply bind_raises; intro).
  rewrite bind_Ok. by eexists.
Qed.

(** [forward] comes back, whatever it is given. *)
Lemma forward_never_hangs self q k v m : never_hangs (CoreAttention.forward self q k v m).
Proof.
  unfold CoreAttention.forward, reshape.
  pose proof size_returns. pose proof view_returns. pose proof transpose_returns.
  pose proof baddbmm_returns. pose proof add_returns. pose proof (@py_local_returns shape).
  pose proof dropout_returns. pose proof bmm_returns. pose proof permute_returns.
  never_hangs_auto.
Qed.

(** And every path ends in an exception. *)
Lemma forward_unmasked_fails self q k v :
  fails (CoreAttention.forward self q k v None).
Proof.
  apply raises_fails; [apply forward_unmasked_raises | apply forward_never_hangs].
Qed.

End CoreAttentionFacts.



(** C10. Without a mask [CoreAttention.forward] never produces a result:
    every call raises an exception.  On well-shaped inputs the exception
    is the read of [attn_weights], which only the masked branch assigns,
    when [norm_factor] is not zero (for a constructed core: heads of
    positive width), and the ZeroDivisionError of [1.0 / norm_factor],
    which comes first, when it is zero. *)
Theorem C10_mask_is_required (self : CoreAttention.t) (q k v : Torch.shape) :
  fails (CoreAttention.forward self q k v None)
  /\ forall sq sk b np hn,
       0 < sq -> 0 < sk -> 0 < b -> 0 < np ->
       q = [sq; b; np; hn] -> k = [sk; b; np; hn] -> v = [sk; b; np; hn] ->
       CoreAttention.forward self q k v None
       = if CoreAttention.nf_is_zero (CoreAttention.norm_factor self)
         then Raise ZeroDivisionError
         else Raise (UnboundLocalError "attn_weights").
Proof.
  split; [apply CoreAttentionFacts.forward_unmasked_fails|].
  intros sq sk b np hn Hsq Hsk Hb Hnp -> -> ->.
  destruct (CoreAttention.nf_is_zero (CoreAttention.norm_factor self)) eqn:Hnf.
  - by apply CoreAttentionFacts.forward_zero_norm.
  - by apply CoreAttentionFacts.forward_unmasked.
Qed.

Lemma C10_mask_is_required_witness :
  (0 < 4 /\ 0 < 6 /\ 0 < 2 /\ 0 < 1)
  /\ CoreAttention.forward Examples.core_attention [4; 2; 1; 8] [6; 2; 1; 8] [6; 2; 1; 8] None
     = Raise (UnboundLocalError "attn_weights").
Proof.
  split; [repeat split; lia|].
  apply (proj2 (C10_mask_is_required Examples.core_attention [4; 2; 1; 8] [6; 2; 1; 8]
                  [6; 2; 1; 8]) 4 6 2 1 8);
    [lia | lia | lia | lia | reflexivity | reflexivity | reflexivity].
Defined.

(** ** FlashSelfAttention *)

Module FlashFacts.
Import Torch TorchFacts FlashSelfAttention.

(** Walk down a chain of binds in hypothesis [H : chain = Ok _]. *)
Ltac invert_binds H :=
  repeat match type of H with
  | (mbind _ ?m) = _ => destruct m as [?|?] eqn:?; [rewrite bind_Ok in H | discriminate H]
  | (let '(_, _) := ?p in _) = _ => destruct p
  end.

Lemma causal_false self meta q k v mask call out :
  forward self meta q k v mask = Ok (call, out) -> call_causal call = false.
Proof.
  unfold forward. intros H. invert_binds H.
  injection H as <- _. reflexivity.
Qed.

Lemma causal_flag_unused self c meta q k v mask :
  forward (set_causal self c) meta q k v mask = forward self meta q k v mask.
Proof.
  unfold forward, set_causal. cbn [causal softmax_scale dropout_p training].
  repeat match goal with
  | |- (mbind _ ?m) = (mbind _ ?m) => destruct m as [?|?]; [rewrite !bind_Ok | reflexivity]
  | |- (let '(_, _) := ?p in _) = _ => destruct p
  end.
  destruct (training self); rewrite !bind_Ok; reflexivity.
Qed.

Lemma arange0_cu b s : 0 < s ->
  arange0 ((b + 1) * s) s = Ok ((fun i => i * s) <$> seq 0 (b + 1)).
Proof.
  intros Hs. unfold arange0.
  destruct (s =? 0) eqn:E; [apply Nat.eqb_eq in E; lia|].
  assert (Hdiv : ((b + 1) * s + s - 1) / s = b + 1).
  { symmetry. apply (Nat.div_unique _ _ _ (s - 1)); nia. }
  by rewrite Hdiv.
Qed.

Lemma flash_forward_unmasked self meta B sq sk h d :
  0 < B -> 0 < sq ->
  half_precision (t_dtype meta) = true -> t_is_cuda meta = true ->
  exists call,
    forward self meta [B; sq; h; d] [B; sk; h; d] [B; sk; h; d] None
      = Ok (call, [B; sq; h; d])
    /\ call_causal call = false
    /\ call_q call = [B * sq; h; d] /\ call_k call = [B * sk; h; d].
Proof.
  intros HB Hsq Hhalf Hcuda.
  unfold forward. cbn [forallb]. rewrite Hhalf, Hcuda.
  cbn [andb py_assert size lookup list_lookup merge_batch_seq].
  rewrite !bind_Ok, arange0_cu by done. rewrite !bind_Ok.
  assert (Hsplit : split_batch_seq B [B * sq; h; d] = Ok [B; sq; h; d]).
  { unfold split_batch_seq.
    destruct (B =? 0) eqn:E; [apply Nat.eqb_eq in E; lia|].
    rewrite Nat.mul_comm, Nat.Div0.mod_mul, Nat.div_mul by lia. reflexivity. }
  destruct (training self); rewrite !bind_Ok; cbn [py_local]; rewrite !bind_Ok, Hsplit;
    eexists; (split; [reflexivity | by repeat split]).
Qed.

End FlashFacts.

(** C4. [FlashSelfAttention.forward] always hands [causal=False] to the
    fused variable-length kernel: whenever the kernel is reached, in
    training or evaluation mode, whatever the configured causal flag and
    the query and key lengths; the configured flag has no effect on the
    call at all; and on well-shaped half-precision inputs the kernel is
    reached. *)
Theorem C4_kernel_never_causal (self : FlashSelfAttention.t) (meta : TensorMeta)
    (q k v : Torch.shape) (mask : option attn_mask) :
  (forall call out,
     FlashSelfAttention.forward self meta q k v mask = Ok (call, out) ->
     FlashSelfAttention.call_causal call = false)
  /\ (forall c, FlashSelfAttention.forward (set_causal self c) meta q k v mask
              = FlashSelfAttention.forward self meta q k v mask)
  /\ (forall B sq sk h d,
        0 < B -> 0 < sq ->
        FlashSelfAttention.half_precision (t_dtype meta) = true -> t_is_cuda meta = true ->
        q = [B; sq; h; d] -> k = [B; sk; h; d] -> v = [B; sk; h; d] -> mask = None ->
        exists call,
          FlashSelfAttention.forward self meta q k v mask = Ok (call, [B; sq; h; d])
          /\ FlashSelfAttention.call_causal call = false).
Proof.
  split; [|split].
  - intros call out. apply FlashFacts.causal_false.
  - intros c. apply FlashFacts.causal_flag_unused.
  - intros B sq sk h d HB Hsq Hh Hc -> -> -> ->.
    destruct (FlashFacts.flash_forward_unmasked self meta B sq sk h d HB Hsq Hh Hc)
      as (call & Hrun & Hcausal & _).
    by exists call.
Qed.

Lemma C4_kernel_never_causal_witness :
  exists call out,
    FlashSelfAttention.forward Examples.flash Examples.meta
      [2; 4; 1; 8] [2; 4; 1; 8] [2; 4; 1; 8]
      (Some (PaddingMask 2 4 (fun i j => j <? 3))) = Ok (call, out)
    /\ FlashSelfAttention.call_cu_seqlens_k call = [0; 3; 6]
    /\ FlashSelfAttention.call_causal call = false.
Proof.
  eexists _, _. split; [vm_compute; reflexivity|]. split; [reflexivity|].
  eapply (proj1 (C4_kernel_never_causal Examples.flash Examples.meta
                   [2; 4; 1; 8] [2; 4; 1; 8] [2; 4; 1; 8]
                   (Some (PaddingMask 2 4 (fun i j => j <? 3))))).
  vm_compute. reflexivity.
Defined.

(** ** Retro layer numbers and layer types *)

Module RetroLayerFacts.
Import Torch TorchFacts.

(** The members of [np.arange(start, stop, 3)]. *)
Lemma elem_of_np_arange_3 start stop x :
  x ∈ np_arange start stop 3 <->
  (start <= x < stop)%Z /\ ((x - start) `mod` 3 = 0)%Z.
Proof.
  unfold np_arange. rewrite list_elem_of_fmap. split.
  - intros (i & -> & Hi). apply elem_of_seq in Hi.
    assert (Z.of_nat i < (stop - start + 3 - 1) `div` 3)%Z as Hlt by lia.
    split; [|replace (start + 3 * Z.of_nat i - start)%Z with (Z.of_nat i * 3)%Z by lia; apply Z_mod_mult].
    Z.to_euclidean_division_equations. lia.
  - intros [[Hlo Hhi] Hmod].
    exists (Z.to_nat ((x - start) `div` 3)). split.
    + Z.to_euclidean_division_equations. lia.
    + apply elem_of_seq. split; [lia|].
      Z.to_euclidean_division_equations. lia.
Qed.

Lemma np_arange_3_head start stop x :
  x ∈ np_arange start stop 3 -> np_arange start stop 3 !! 0 = Some start.
Proof.
  intros Hx. apply elem_of_np_arange_3 in Hx as [[Hlo Hhi] _].
  unfold np_arange.
  destruct (Z.to_nat ((stop - start + 3 - 1) `div` 3)) as [|n] eqn:E.
  - exfalso. Z.to_euclidean_division_equations. lia.
  - simpl. f_equal. lia.
Qed.

Lemma get_layer_type_retro_decoder args dflt start stop x :
  retro_add_retriever args = true ->
  x ∈ np_arange start stop 3 ->
  _get_layer_type args retro_decoder_model dflt (Some (np_arange start stop 3)) x =
    Ok (if bool_decide (x = start) then LayerType.retro_decoder_with_retriever
        else LayerType.retro_decoder).
Proof.
  intros Hretro Hx. unfold _get_layer_type. rewrite Hretro.
  rewrite bool_decide_eq_true_2 by done. rewrite bind_Ok.
  rewrite bool_decide_eq_true_2 by done.
  cbn [default]. unfold py_getitem.
  pose proof (np_arange_3_head _ _ _ Hx) as Hhead.
  destruct (np_arange start stop 3) as [|y l] eqn:E; [done|].
  cbn [length]. injection Hhead as ->.
  replace (0 <? 0)%Z with false by done.
  replace (0 <=? 0)%Z with true by done.
  destruct (Z.ltb_spec 0 (Z.of_nat (S (length l)))) as [_|?]; [|lia].
  reflexivity.
Qed.

End RetroLayerFacts.

(** C8. For the retro-decoder model type the precomputed retro layer
    numbers are every third number from 6 (when [config.num_layers <= 15])
    or from 9 (otherwise) up to [args.num_layers]: 6, 9, 12 for twelve
    layers and 9, 12, 15, 18 for twenty.  With retrieval enabled,
    [_get_layer_type] tags the first of them retro-decoder-with-retriever
    and every later one plain retro-decoder. *)
Theorem C8_retro_layer_numbers (args : Args) (config : Config) :
  let start := if (num_layers config <=? 15)%Z then 6%Z else 9%Z in
  let numbers := np_arange start (args_num_layers args + 1) 3 in
  Idefics2PerceiverParallelTransformer.compute_retro_layer_numbers args config retro_decoder_model = Some numbers
  /\ (forall x, x ∈ numbers <->
                (start <= x <= args_num_layers args)%Z /\ ((x - start) `mod` 3 = 0)%Z)
  /\ (num_layers config = 12%Z -> args_num_layers args = 12%Z -> numbers = [6; 9; 12]%Z)
  /\ (num_layers config = 20%Z -> args_num_layers args = 20%Z -> numbers = [9; 12; 15; 18]%Z)
  /\ (retro_add_retriever args = true ->
      forall default_layer_type x, x ∈ numbers ->
        _get_layer_type args retro_decoder_model default_layer_type (Some numbers) x =
          Ok (if bool_decide (x = start) then LayerType.retro_decoder_with_retriever
              else LayerType.retro_decoder)).
Proof.
  intros start numbers. split; [reflexivity|]. split; [|split; [|split]].
  - intros x. subst numbers. rewrite RetroLayerFacts.elem_of_np_arange_3. lia.
  - intros Hc Ha. subst numbers start. rewrite Hc, Ha. reflexivity.
  - intros Hc Ha. subst numbers start. rewrite Hc, Ha. reflexivity.
  - intros Hretro dflt x Hx.
    by apply RetroLayerFacts.get_layer_type_retro_decoder.
Qed.

Lemma C8_retro_layer_numbers_witness :
  (num_layers (Examples.config 12) = 12%Z
   /\ args_num_layers (Examples.args false true false false true 12) = 12%Z
   /\ retro_add_retriever (Examples.args false true false false true 12) = true)
  /\ Idefics2PerceiverParallelTransformer.compute_retro_layer_numbers
       (Examples.args false true false false true 12) (Examples.config 12)
       retro_decoder_model = Some [6; 9; 12]%Z
  /\ _get_layer_type (Examples.args false true false false true 12) retro_decoder_model
       LayerType.encoder (Some [6; 9; 12]%Z) 6 = Ok LayerType.retro_decoder_with_retriever
  /\ _get_layer_type (Examples.args false true false false true 12) retro_decoder_model
       LayerType.encoder (Some [6; 9; 12]%Z) 9 = Ok LayerType.retro_decoder
  /\ _get_layer_type (Examples.args false true false false true 12) retro_decoder_model
       LayerType.encoder (Some [6; 9; 12]%Z) 12 = Ok LayerType.retro_decoder.
Proof.
  split; [by repeat split|].
  destruct (C8_retro_layer_numbers (Examples.args false true false false true 12)
              (Examples.config 12)) as (Hnum & Hmem & H12 & _ & Htype).
  assert (Hlist : np_arange 6 (12 + 1) 3 = [6; 9; 12]%Z) by (apply H12; reflexivity).
  split; [exact Hnum|].
  pose proof (Htype eq_refl LayerType.encoder) as Ht.
  cbn [num_layers args_num_layers Examples.config Examples.args] in Ht.
  split; [|split].
  - apply (Ht 6%Z). vm_compute. by left.
  - apply (Ht 9%Z). vm_compute. right. by left.
  - apply (Ht 12%Z). vm_compute. right. right. by left.
Defined.

(** ** load_state_dict *)

Module StateDictFacts.
Import Idefics2PerceiverParallelTransformer.
Section Facts.
Context {V : Type}.
Implicit Types (d acc items : dict V) (k : string) (v : V).

Lemma dict_getitem_elem d k v :
  NoDup (dict_keys d) -> (k, v) ∈ d -> dict_getitem d k = Ok v.
Proof.
  induction d as [|[k' v'] d IH]; intros Hnd Hin; [by apply elem_of_nil in Hin|].
  cbn [dict_getitem]. unfold dict_keys in Hnd. rewrite fmap_cons in Hnd.
  apply NoDup_cons in Hnd as [Hk' Hnd].
  apply elem_of_cons in Hin as [Heq | Hin].
  - injection Heq as -> ->. by rewrite bool_decide_eq_true_2.
  - rewrite bool_decide_eq_false_2; [by apply IH|].
    intros ->. apply Hk'. apply list_elem_of_fmap. by exists (k, v).
Qed.

Lemma dict_keys_setitem acc k v :
  dict_keys (dict_setitem acc k v) =
    if bool_decide (k ∈ dict_keys acc) then dict_keys acc else dict_keys acc ++ [k].
Proof.
  induction acc as [|[k' v'] acc IH]; [done|].
  cbn [dict_setitem]. unfold dict_keys in *. rewrite fmap_cons. cbn [fst].
  destruct (decide (k' = k)) as [->|Hne].
  - rewrite bool_decide_eq_true_2 by done.
    rewrite bool_decide_eq_true_2 by (apply elem_of_cons; by left). done.
  - rewrite bool_decide_eq_false_2 by done. rewrite fmap_cons, IH. cbn [fst].
    destruct (decide (k ∈ fst <$> acc)).
    + rewrite !bool_decide_eq_true_2; [done | by apply elem_of_cons; right | done].
    + rewrite !bool_decide_eq_false_2; [done | | done].
      rewrite elem_of_cons. intros [->|?]; done.
Qed.

Lemma dict_setitem_fresh acc k v :
  k ∉ dict_keys acc -> dict_setitem acc k v = acc ++ [(k, v)].
Proof.
  induction acc as [|[k' v'] acc IH]; intros Hfresh; [done|].
  cbn [dict_setitem]. unfold dict_keys in *. rewrite fmap_cons in Hfresh.
  apply not_elem_of_cons in Hfresh as [Hne Hfresh]. cbn [fst] in Hne.
  rewrite bool_decide_eq_false_2 by done. by rewrite IH.
Qed.

(** The renaming loop never fails on keys of the dictionary, and the keys
    it leaves are the old accumulator's and the renamed ones. *)
Lemma rename_loop_keys args d items acc :
  (forall k v, (k, v) ∈ items -> dict_getitem d k = Ok v) ->
  exists acc',
    rename_loop args d (dict_keys items) acc = Ok acc'
    /\ forall k', k' ∈ dict_keys acc' <->
         k' ∈ dict_keys acc \/ exists k, k ∈ dict_keys items /\ k' = renamed args k.
Proof.
  revert acc. induction items as [|[k v] items IH]; intros acc Hget.
  - exists acc. split; [done|]. intros k'. split; [auto|].
    intros [?|(k & Hk & _)]; [done | by apply elem_of_nil in Hk].
  - destruct (IH (dict_setitem acc (renamed args k) v)) as (acc' & Hrun & Hkeys).
    { intros k0 v0 H0. apply Hget. apply elem_of_cons. by right. }
    exists acc'. split.
    + unfold dict_keys. rewrite fmap_cons. cbn [fst rename_loop].
      rewrite (Hget k v) by (apply elem_of_cons; by left).
      unfold renamed in Hrun.
      destruct (negb (bool_decide (transformer_impl args = "transformer_engine"%string)));
        rewrite !bind_Ok; exact Hrun.
    + intros k'. rewrite Hkeys, dict_keys_setitem.
      assert (Hcons : forall P : string -> Prop,
                (exists k0, k0 ∈ dict_keys ((k, v) :: items) /\ P k0) <->
                P k \/ exists k0, k0 ∈ dict_keys items /\ P k0).
      { intros Idefics2PerceiverParallelTransformer. unfold dict_keys. rewrite fmap_cons. cbn [fst].
        split.
        - intros (k0 & Hk0 & HP). apply elem_of_cons in Hk0 as [->|Hk0];
            [by left | right; by exists k0].
        - intros [HP | (k0 & Hk0 & HP)].
          + exists k. split; [apply elem_of_cons; by left | done].
          + exists k0. split; [apply elem_of_cons; by right | done]. }
      rewrite Hcons.
      case_bool_decide as Hin.
      * split; [tauto | intros [?|[->|?]]; tauto].
      * rewrite elem_of_app, list_elem_of_singleton. tauto.
Qed.

(** Without collisions the loop appends the entries in order, renamed. *)
Lemma rename_loop_items args d items acc :
  (forall k v, (k, v) ∈ items -> dict_getitem d k = Ok v) ->
  NoDup (renamed args <$> dict_keys items) ->
  (forall k, k ∈ dict_keys items -> renamed args k ∉ dict_keys acc) ->
  rename_loop args d (dict_keys items) acc =
    Ok (acc ++ (prod_map (renamed args) id <$> items)).
Proof.
  revert acc. induction items as [|[k v] items IH]; intros acc Hget Hnd Hfresh.
  - cbn. by rewrite app_nil_r.
  - unfold dict_keys in Hnd, Hfresh |- *. rewrite !fmap_cons in Hnd.
    rewrite fmap_cons in Hfresh |- *. cbn [fst] in *.
    apply NoDup_cons in Hnd as [Hk Hnd]. cbn [rename_loop].
    rewrite (Hget k v) by (apply elem_of_cons; by left).
    assert (Hstep : dict_setitem acc (renamed args k) v = acc ++ [(renamed args k, v)]).
    { apply dict_setitem_fresh. apply Hfresh. apply elem_of_cons. by left. }
    assert (Hrec : rename_loop args d (fst <$> items) (acc ++ [(renamed args k, v)]) =
                   Ok ((acc ++ [(renamed args k, v)]) ++ (prod_map (renamed args) id <$> items))).
    { apply IH.
      - intros k0 v0 H0. apply Hget. apply elem_of_cons. by right.
      - exact Hnd.
      - intros k0 Hk0. unfold dict_keys. rewrite fmap_app, elem_of_app.
        intros [Hin | Hin].
        + revert Hin. apply Hfresh. apply elem_of_cons. by right.
        + apply list_elem_of_singleton in Hin. cbn in Hin.
          apply Hk. rewrite <- Hin. apply list_elem_of_fmap. by exists k0. }
    rewrite <- app_assoc in Hrec. cbn [app] in Hrec.
    rewrite fmap_cons. cbn [prod_map fst snd id].
    unfold renamed in Hstep, Hrec |- *.
    destruct (negb (bool_decide (transformer_impl args = "transformer_engine"%string)));
      rewrite !bind_Ok, Hstep; exact Hrec.
Qed.

End Facts.
End StateDictFacts.

(** C9. [load_state_dict] always reaches the delegated load.  When the
    implementation is not the engine-accelerated one, the keys it passes
    on are exactly the supplied keys with "layernorm" replaced by "norm"
    (and, when no two keys collide after renaming, the same entries in the
    same order); the delegated load is strict only if the mistral rotary
    flag is enabled and the caller asked for strict loading, so without
    the flag it is permissive whatever the caller's [strict]. *)
Theorem C9_load_state_dict {V : Type} (args : Args) (state_dict : Idefics2PerceiverParallelTransformer.dict V) (strict : bool) :
  NoDup (Idefics2PerceiverParallelTransformer.dict_keys state_dict) ->
  exists call,
    Idefics2PerceiverParallelTransformer.load_state_dict args state_dict strict = Ok call
    /\ Idefics2PerceiverParallelTransformer.loaded_strict call = use_mistral_rotary_position_embeddings args && strict
    /\ (transformer_impl args <> "transformer_engine"%string ->
        (forall k', k' ∈ Idefics2PerceiverParallelTransformer.dict_keys (Idefics2PerceiverParallelTransformer.loaded_state_dict call) <->
           exists k, k ∈ Idefics2PerceiverParallelTransformer.dict_keys state_dict /\ k' = Idefics2PerceiverParallelTransformer.str_replace k "layernorm" "norm")
        /\ (NoDup ((fun k => Idefics2PerceiverParallelTransformer.str_replace k "layernorm" "norm") <$> Idefics2PerceiverParallelTransformer.dict_keys state_dict) ->
            Idefics2PerceiverParallelTransformer.loaded_state_dict call =
              prod_map (fun k => Idefics2PerceiverParallelTransformer.str_replace k "layernorm" "norm") id <$> state_dict)).
Proof.
  intros Hnd.
  assert (Hget : forall k v, (k, v) ∈ state_dict -> Idefics2PerceiverParallelTransformer.dict_getitem state_dict k = Ok v).
  { intros k v. by apply StateDictFacts.dict_getitem_elem. }
  destruct (StateDictFacts.rename_loop_keys args state_dict state_dict [] Hget)
    as (acc' & Hrun & Hkeys).
  unfold Idefics2PerceiverParallelTransformer.load_state_dict. rewrite Hrun, bind_Ok.
  exists {| Idefics2PerceiverParallelTransformer.loaded_state_dict := acc';
            Idefics2PerceiverParallelTransformer.loaded_strict := use_mistral_rotary_position_embeddings args && strict |}.
  split; [by destruct (use_mistral_rotary_position_embeddings args)|].
  split; [reflexivity|].
  intros Himpl. cbn [Idefics2PerceiverParallelTransformer.loaded_state_dict].
  assert (Hren : forall k, renamed args k = Idefics2PerceiverParallelTransformer.str_replace k "layernorm" "norm").
  { intros k. unfold renamed. by rewrite bool_decide_eq_false_2. }
  split.
  - intros k'. rewrite Hkeys. setoid_rewrite Hren. split.
    + intros [Hin | H]; [by apply elem_of_nil in Hin | done].
    + intros H. by right.
  - intros Hnd'.
    pose proof (StateDictFacts.rename_loop_items args state_dict state_dict [] Hget) as Hitems.
    rewrite Hrun in Hitems. cbn [app] in Hitems.
    assert (Heq : Ok acc' = Ok (prod_map (renamed args) id <$> state_dict)).
    { apply Hitems.
      - erewrite list_fmap_ext; [exact Hnd'|]. intros i k _. apply Hren.
      - intros k _ Hin. by apply elem_of_nil in Hin. }
    injection Heq as ->.
    apply list_fmap_ext. intros i [k v] _. cbn. by rewrite Hren.
Qed.

Lemma C9_load_state_dict_witness :
  NoDup (Idefics2PerceiverParallelTransformer.dict_keys Examples.state_dict)
  /\ exists call,
       Idefics2PerceiverParallelTransformer.load_state_dict Examples.swiglu_args
         Examples.state_dict true = Ok call
       /\ Idefics2PerceiverParallelTransformer.loaded_strict call = false
       /\ Idefics2PerceiverParallelTransformer.loaded_state_dict call =
            [("layers.0.input_norm.weight"%string, 1);
             ("layers.0.mlp.dense_h_to_4h.weight"%string, 2);
             ("final_norm.bias"%string, 3)].
Proof.
  assert (Hnd : NoDup (Idefics2PerceiverParallelTransformer.dict_keys Examples.state_dict))
    by (apply (bool_decide_unpack _); vm_compute; exact I).
  split; [exact Hnd|].
  destruct (C9_load_state_dict Examples.swiglu_args Examples.state_dict true Hnd)
    as (call & Hrun & Hstrict & Hren).
  exists call. split; [exact Hrun|]. split; [exact Hstrict|].
  destruct Hren as [_ Hitems]; [discriminate|].
  rewrite Hitems; [reflexivity|].
  apply (bool_decide_unpack _). vm_compute. exact I.
Defined.

(** ** Idefics2ParallelMLP *)

Module MLPFacts.
Import Torch TorchFacts MegatronCore Idefics2ParallelMLP.

Lemma divide_Ok a b q : divide a b = Ok q -> b <> 0 /\ a = q * b /\ q = a / b.
Proof.
  unfold divide. destruct (b =? 0) eqn:Eb; [discriminate|].
  apply Nat.eqb_neq in Eb.
  destruct (a `mod` b =? 0) eqn:Em; [|discriminate].
  apply Nat.eqb_eq in Em. cbn. intros [= <-].
  split; [done|]. split; [|done].
  pose proof (Nat.div_mod_eq a b). lia.
Qed.

Lemma divide_mul q b : b <> 0 -> divide (q * b) b = Ok q.
Proof.
  intros Hb. unfold divide.
  destruct (b =? 0) eqn:Eb; [apply Nat.eqb_eq in Eb; lia|].
  rewrite Nat.Div0.mod_mul. cbn. by rewrite Nat.div_mul.
Qed.

Lemma linear_3d i o a b : linear i o [a; b; i] = Ok [a; b; o].
Proof. unfold linear. cbn. by rewrite Nat.eqb_refl. Qed.

Lemma add_bias_3d a b w : add [a; b; w] [w] = Ok [a; b; w].
Proof.
  unfold add, broadcast_shapes. cbn. by rewrite broadcast_dim_refl.
Qed.

Lemma swiglu_apply_even a b h : swiglu_apply [a; b; 2 * h] = Ok [a; b; h].
Proof.
  unfold swiglu_apply, chunk2_last. cbn [reverse rev_append].
  change (reverse [a; b; 2 * h]) with [2 * h; b; a].
  cbv iota beta.
  destruct (2 * h =? 1) eqn:E; [apply Nat.eqb_eq in E; lia|].
  rewrite bind_Ok.
  replace ((2 * h + 1) / 2) with h.
  2:{ apply (Nat.div_unique _ _ _ 1); lia. }
  replace (2 * h - h) with h by lia.
  change (reverse [h; b; a]) with [a; b; h].
  change (py_getitem [[a; b; h]; [a; b; h]] 0) with (Ok [a; b; h]).
  change (py_getitem [[a; b; h]; [a; b; h]] 1) with (Ok [a; b; h]).
  rewrite !bind_Ok. apply add_same.
Qed.

Lemma init_Ok args mpu config self :
  __init__ args mpu config = Ok self ->
  tensor_model_parallel_world_size mpu <> 0
  /\ (exists h, ffn_hidden_size config = h * tensor_model_parallel_world_size mpu
      /\ dense_h_to_4h self =
           {| cpl_input_size := input_size config;
              cpl_output_size_per_partition :=
                if gated_linear_unit config then 2 * h else h;
              cpl_bias := add_bias_linear config; cpl_skip_bias_add := true |}
      /\ dense_4h_to_h self =
           {| rpl_input_size_per_partition := h; rpl_output_size := output_size config;
              rpl_bias := add_bias_linear config; rpl_skip_bias_add := true |})
  /\ add_bias self = add_bias_linear config
  /\ (bias_gelu_fusion_ self = true -> activation_func self = F_gelu).
Proof.
  unfold __init__, ColumnParallelLinear_init, RowParallelLinear_init. intros H.
  destruct (divide (if gated_linear_unit config then _ else _) _) as [w|] eqn:Hw in H;
    [rewrite !bind_Ok in H | rewrite !bind_Raise in H; discriminate].
  destruct (if openai_gelu args then _ else _) as [fusion act] eqn:Hact.
  destruct (divide (ffn_hidden_size config) _) as [h|] eqn:Hh in H;
    [rewrite !bind_Ok in H | rewrite !bind_Raise in H; discriminate].
  apply divide_Ok in Hw as (Hws & Hw & _). apply divide_Ok in Hh as (_ & Hh & _).
  split; [done|].
  assert (Hwidth : w = if gated_linear_unit config then 2 * h else h).
  { destruct (gated_linear_unit config); nia. }
  injection H as <-. cbn.
  split; [exists h; by rewrite Hwidth|]. split; [done|].
  intros ->. destruct (openai_gelu args), (onnx_safe args), (swiglu args), (squared_relu args);
    by simplify_eq.
Qed.

Lemma forward_shape args mpu config self S B :
  __init__ args mpu config = Ok self ->
  (gated_linear_unit config = true <-> activation_func self = swiglu_fn) ->
  (bias_gelu_fusion_ self = true -> add_bias_linear config = true) ->
  forward self [S; B; input_size config] =
    Ok ([S; B; output_size config],
        if add_bias_linear config then Some [output_size config] else None).
Proof.
  intros Hinit Hgate Hfusion.
  apply init_Ok in Hinit as (Hws & (h & Hffn & Hcol & Hrow) & Hbias & Hgelu).
  unfold forward, ColumnParallelLinear_forward, RowParallelLinear_forward.
  rewrite Hcol, Hrow, Hbias.
  cbn [cpl_input_size cpl_output_size_per_partition cpl_bias cpl_skip_bias_add
       rpl_input_size_per_partition rpl_output_size rpl_bias rpl_skip_bias_add andb].
  rewrite linear_3d, !bind_Ok.
  destruct (bias_gelu_fusion_ self) eqn:Hf.
  - (* fused bias + gelu *)
    rewrite Hfusion by done. cbn [py_assert]. rewrite bind_Ok.
    rewrite (Hgelu eq_refl). rewrite bool_decide_eq_true_2 by done.
    cbn [py_assert]. rewrite bind_Ok.
    assert (Hng : gated_linear_unit config = false).
    { destruct (gated_linear_unit config); [|done].
      rewrite (proj1 Hgate eq_refl) in Hgelu. by specialize (Hgelu eq_refl). }
    rewrite Hng. unfold bias_gelu_impl. rewrite add_bias_3d, !bind_Ok.
    unfold pointwise. by rewrite linear_3d.
  - destruct (gated_linear_unit config) eqn:Hg.
    + rewrite (proj1 Hgate eq_refl).
      destruct (add_bias_linear config); [rewrite add_bias_3d|];
        rewrite !bind_Ok; cbn [apply_activation];
        rewrite swiglu_apply_even, bind_Ok, linear_3d; reflexivity.
    + assert (Hact : apply_activation (activation_func self) [S; B; h] = Ok [S; B; h]).
      { destruct (activation_func self); try done.
        by specialize (proj2 Hgate eq_refl). }
      destruct (add_bias_linear config); [rewrite add_bias_3d|];
        rewrite !bind_Ok, Hact, bind_Ok, linear_3d; reflexivity.
Qed.

End MLPFacts.

(** ** ParallelAttention *)

Module AttentionFacts.
Import Torch TorchFacts MegatronCore CoreAttentionFacts MLPFacts.
Import ParallelAttention.

Lemma divide_scaled k q ws : ws <> 0 -> divide (k * (q * ws)) ws = Ok (k * q).
Proof. intros Hws. rewrite Nat.mul_assoc. by apply divide_mul. Qed.

Lemma core_init_constructible args mpu config np ln mty :
  constructible args mpu config np ->
  exists core,
    CoreAttention.__init__ mpu ln config mty = Ok core
    /\ CoreAttention.hidden_size_per_partition core = kv_channels config * np
    /\ CoreAttention.sequence_parallel_ core = false
    /\ CoreAttention.nf_is_zero (CoreAttention.norm_factor core)
       = (kv_channels config =? 0)
    /\ CoreAttention.attention_dropout_ core = attention_dropout config.
Proof.
  intros [Hseq Hnh Hnp Hws _ _ Hdrop]. unfold CoreAttention.__init__.
  cbv zeta. rewrite Hseq. cbn [negb py_assert]. rewrite bind_Ok.
  rewrite Hnh. rewrite divide_scaled by lia.
  rewrite (divide_mul (kv_channels config)) by nia.
  rewrite (divide_mul np) by lia.
  rewrite !bind_Ok.
  rewrite (proj1 (dropout_check_ok _) Hdrop), bind_Ok.
  eexists. split; [reflexivity|]. cbn. split; [done|]. split; [done|]. split; [|done].
  unfold CoreAttention.nf_is_zero.
  destruct (apply_query_key_layer_scaling config); cbn.
  - replace (1 * Z.max 1 ln =? 0)%Z with false by (symmetry; apply Z.eqb_neq; lia).
    apply orb_false_r.
  - apply orb_false_r.
Qed.

(** An accepted configuration constructs the layer; with heads of
    positive width the construction fixes what [constructed] lists. *)
Lemma init_constructible args mpu training config ln mty np :
  constructible args mpu config np ->
  exists self,
    __init__ args mpu training config ln AttnType.cross_attn mty = Ok self
    /\ (0 < kv_channels config -> constructed args mpu config self np).
Proof.
  intros Hacc.
  destruct (core_init_constructible args mpu config np (Z.max 1 ln) mty Hacc)
    as (core & Hcore & Hhp & Hcseq & Hnorm & Hdropout).
  destruct Hacc as [Hseq Hnh Hnp Hws Hflash Hgroups Hdrop].
  unfold __init__. cbv zeta.
  rewrite Hseq. cbn [negb py_assert]. rewrite bind_Ok.
  rewrite Hcore. rewrite Hnh.
  assert (Hnh0 : np * tensor_model_parallel_world_size mpu <> 0) by nia.
  unfold floordiv. rewrite (proj2 (Nat.eqb_neq _ _) Hnh0), Nat.div_same, bind_Ok by done.
  assert (Hfl : (if use_flash_attn args
                 then if negb (flash_attn_unpadded_func_available mpu) then Raise ImportError
                      else if negb (rearrange_available mpu) then Raise ImportError else Ok ()
                 else Ok ()) = Ok ()).
  { destruct (use_flash_attn args); [|done]. by destruct (Hflash eq_refl) as [-> ->]. }
  rewrite Hfl, bind_Ok.
  rewrite !(divide_mul (kv_channels config)) by lia.
  rewrite !(divide_mul np) by lia.
  rewrite !bind_Ok.
  assert (Hle : (if tensor_model_parallel_world_size mpu
                      <=? np * tensor_model_parallel_world_size mpu
                 then Ok np else Ok np) = Ok np) by (by destruct (_ <=? _)).
  rewrite Hle, bind_Ok.
  assert (Hgq : (if group_query_attention args
                 then if tensor_model_parallel_world_size mpu =? 0
                      then Raise ZeroDivisionError
                      else if negb (num_query_groups args
                                      `mod` tensor_model_parallel_world_size mpu =? 0)
                           then Raise NotImplementedError
                           else divide (num_query_groups args)
                                  (tensor_model_parallel_world_size mpu)
                 else Ok np)
                = Ok (if group_query_attention args
                      then num_query_groups args / tensor_model_parallel_world_size mpu
                      else np)).
  { destruct (group_query_attention args); [|done].
    unfold divide.
    rewrite !(proj2 (Nat.eqb_neq (tensor_model_parallel_world_size mpu) 0)) by lia.
    by rewrite (Hgroups eq_refl). }
  rewrite Hgq, bind_Ok.
  rewrite (bool_decide_eq_true_2 (AttnType.cross_attn = AttnType.cross_attn)) by done.
  cbn [py_assert]. rewrite bind_Ok.
  unfold ColumnParallelLinear_init, RowParallelLinear_init.
  rewrite !divide_scaled, !bind_Ok by lia.
  replace (2 * (kv_channels config * (np * tensor_model_parallel_world_size mpu)) * 1)
    with (2 * kv_channels config * (np * tensor_model_parallel_world_size mpu)) by lia.
  rewrite divide_scaled, !bind_Ok by lia.
  assert (Hfc : exists fc,
            (if use_flash_attn args
             then FlashSelfAttention.__init__ mpu (bool_decide (mty = AttnMaskType.causal))
                    None (attention_dropout config) training
                  ≫= λ f, Ok (Some f)
             else Ok None) = Ok fc
            /\ (use_flash_attn args = true -> is_Some fc)).
  { destruct (use_flash_attn args).
    - unfold FlashSelfAttention.__init__. destruct (Hflash eq_refl) as [-> ->].
      cbn [py_assert]. rewrite !bind_Ok. eexists. split; [reflexivity | by eexists].
    - eexists. split; [reflexivity | done]. }
  destruct Hfc as (fc & -> & Hfc). rewrite bind_Ok.
  eexists. split; [reflexivity|].
  intros Hw. constructor; cbn; try done; try lia.
  - rewrite Hnorm. apply Nat.eqb_neq. lia.
  - by rewrite Hdropout.
Qed.

Lemma init_accepted args mpu training config ln mty np :
  accepted args mpu config np ->
  exists self,
    __init__ args mpu training config ln AttnType.cross_attn mty = Ok self
    /\ constructed args mpu config self np.
Proof.
  intros [Hc Hw].
  destruct (init_constructible args mpu training config ln mty np Hc) as (self & Hinit & C).
  exists self. split; [exact Hinit | by apply C].
Qed.

Lemma cat_seq L sq b h : cat [L; b; h] [sq; b; h] 0 = Ok [L + sq; b; h].
Proof.
  unfold cat. cbn [length Nat.eqb orb].
  rewrite !(shape_eqb_neq _ [0]) by (by intros [=]).
  change (wrap_dim 0 3) with (Ok 0). rewrite bind_Ok.
  cbn [negb list_insert insert]. by rewrite shape_eqb_refl.
Qed.

Lemma cat_mask B L n : cat [B; L] [B; n] (-1) = Ok [B; L + n].
Proof.
  unfold cat. cbn [length Nat.eqb orb].
  rewrite !(shape_eqb_neq _ [0]) by (by intros [=]).
  change (wrap_dim (-1) 2) with (Ok 1). rewrite bind_Ok.
  cbn [negb list_insert insert]. by rewrite shape_eqb_refl.
Qed.

Lemma linear_4d i o a b c : linear i o [a; b; c; i] = Ok [a; b; c; o].
Proof. unfold linear. cbn. by rewrite Nat.eqb_refl. Qed.

Lemma split_halves a b c h :
  0 < h ->
  split_tensor_along_last_dim [a; b; c; 2 * h] 2 = Ok [[a; b; c; h]; [a; b; c; h]].
Proof.
  intros Hh. unfold split_tensor_along_last_dim, split_last.
  change (reverse [a; b; c; 2 * h]) with [2 * h; c; b; a]. cbv iota beta.
  rewrite (Nat.mul_comm 2), divide_mul, bind_Ok by done.
  rewrite (proj2 (Nat.eqb_neq h 0)) by lia.
  cbv zeta.
  replace (h * 2) with (2 * h) by lia.
  rewrite Nat.Div0.mod_mul, Nat.div_mul by lia.
  rewrite (proj2 (Nat.eqb_neq (2 * h) 0)) by lia.
  reflexivity.
Qed.

Lemma project_qkv_shape args mpu config self np sq L b :
  constructed args mpu config self np ->
  project_qkv self [sq; b; text_hidden_size config] [L; b; text_hidden_size config] =
    Ok ([sq; b; np; kv_channels config],
        [L + sq; b; np; kv_channels config],
        [L + sq; b; np; kv_channels config]).
Proof.
  intros C. unfold project_qkv, ColumnParallelLinear_forward.
  rewrite cat_seq, bind_Ok.
  rewrite (c_key_value _ _ _ _ _ C), (c_query _ _ _ _ _ C).
  cbn [cpl_input_size cpl_output_size_per_partition cpl_bias cpl_skip_bias_add andb].
  rewrite !linear_3d, !bind_Ok.
  rewrite (c_np _ _ _ _ _ C), (c_hn _ _ _ _ _ C), (c_hn_kv _ _ _ _ _ C).
  change (drop_last 1 [L + sq; b; 2 * kv_channels config * np]) with [L + sq; b].
  cbn [app].
  rewrite view_exact by (simpl; lia). rewrite bind_Ok.
  rewrite split_halves by exact (c_width _ _ _ _ _ C).
  rewrite bind_Ok. cbn [unpack2].
  rewrite !bind_Ok. cbv beta iota.
  change (drop_last 1 [sq; b; kv_channels config * np] ++ [np; kv_channels config])
    with [sq; b; np; kv_channels config].
  rewrite view_exact by (simpl; lia).
  reflexivity.
Qed.

Lemma attend_dense args mpu config self np meta sq sk b m :
  constructed args mpu config self np ->
  use_flash_attn args = false ->
  0 < sq -> 0 < sk -> 0 < b ->
  mask_shape m = [b; 1; sq; sk] ->
  attend self meta [sq; b; np; kv_channels config] [sk; b; np; kv_channels config]
    [sk; b; np; kv_channels config] (Some m) = Ok [sq; b; np * kv_channels config].
Proof.
  intros C Hfl Hsq Hsk Hb Hm. unfold attend.
  rewrite (c_flash _ _ _ _ _ C), Hfl, (c_checkpoint _ _ _ _ _ C). cbn [negb fmap option_fmap option_map].
  rewrite Hm.
  pose proof (c_np_pos _ _ _ _ _ C) as Hnp.
  pose proof (c_core_hp _ _ _ _ _ C) as Hhp.
  rewrite (forward_masked (core_attention self) sq sk b np (kv_channels config))
    by first [done | lia | exact (c_core_norm _ _ _ _ _ C)
             | exact (c_core_dropout _ _ _ _ _ C)].
  by rewrite shape_eqb_refl.
Qed.

Lemma flash_padded self meta B sq sk h d valid :
  0 < B -> 0 < sq ->
  FlashSelfAttention.half_precision (t_dtype meta) = true -> t_is_cuda meta = true ->
  exists call,
    FlashSelfAttention.forward self meta [B; sq; h; d] [B; sk; h; d] [B; sk; h; d]
      (Some (PaddingMask B sk valid)) = Ok (call, [B; sq; h; d]).
Proof.
  intros HB Hsq Hhalf Hcuda.
  unfold FlashSelfAttention.forward. cbn [forallb]. rewrite Hhalf, Hcuda.
  cbn [andb py_assert size lookup list_lookup FlashSelfAttention.merge_batch_seq].
  rewrite !bind_Ok, FlashFacts.arange0_cu by done. rewrite !bind_Ok.
  unfold FlashSelfAttention.unpad_input. rewrite !Nat.eqb_refl. cbn [andb].
  repeat (rewrite bind_Ok; cbv beta iota).
  assert (Hsplit : FlashSelfAttention.split_batch_seq B [B * sq; h; d] = Ok [B; sq; h; d]).
  { unfold FlashSelfAttention.split_batch_seq.
    destruct (B =? 0) eqn:E; [apply Nat.eqb_eq in E; lia|].
    rewrite Nat.mul_comm, Nat.Div0.mod_mul, Nat.div_mul by lia. reflexivity. }
  destruct (FlashSelfAttention.training self);
    repeat (rewrite bind_Ok; cbv beta iota); cbn [py_local];
    repeat (rewrite bind_Ok; cbv beta iota); rewrite Hsplit; eexists; reflexivity.
Qed.

Lemma attend_flash args mpu config self np meta sq sk b m :
  constructed args mpu config self np ->
  use_flash_attn args = true ->
  FlashSelfAttention.half_precision (t_dtype meta) = true -> t_is_cuda meta = true ->
  0 < sq -> 0 < b ->
  flash_mask_ok b sk m ->
  attend self meta [sq; b; np; kv_channels config] [sk; b; np; kv_channels config]
    [sk; b; np; kv_channels config] m = Ok [sq; b; np * kv_channels config].
Proof.
  intros C Hfl Hhalf Hcuda Hsq Hb Hm. unfold attend.
  rewrite (c_flash _ _ _ _ _ C), Hfl, (c_seq_par _ _ _ _ _ C).
  cbn [negb swap_seq_batch]. rewrite !bind_Ok.
  destruct (c_flash_core _ _ _ _ _ C Hfl) as [flash ->].
  assert (Hrun : exists call,
            FlashSelfAttention.forward flash meta [b; sq; np; kv_channels config]
              [b; sk; np; kv_channels config] [b; sk; np; kv_channels config] m
            = Ok (call, [b; sq; np; kv_channels config])).
  { destruct Hm as [-> | [valid ->]].
    - destruct (FlashFacts.flash_forward_unmasked flash meta b sq sk np (kv_channels config))
        as (call & Hrun & _); try done. by exists call.
    - by apply flash_padded. }
  destruct Hrun as [call ->]. rewrite !bind_Ok. reflexivity.
Qed.

Section Forward.
Context {A : Type} (ct : Contents A).

Lemma dense_output args mpu config self np sq b :
  constructed args mpu config self np ->
  RowParallelLinear_forward (dense self) [sq; b; np * kv_channels config] =
    Ok ([sq; b; text_hidden_size config],
        if args_add_bias_linear args then Some [text_hidden_size config] else None).
Proof.
  intros C. unfold RowParallelLinear_forward. rewrite (c_dense _ _ _ _ _ C).
  cbn [rpl_input_size_per_partition rpl_output_size rpl_bias rpl_skip_bias_add andb].
  rewrite (Nat.mul_comm np), linear_3d. reflexivity.
Qed.

(** The cross-attention layer outside inference: the output has the
    sequence length of the latents. *)
Lemma forward_no_cache args mpu config self np meta sq L b m :
  constructed args mpu config self np ->
  0 < sq -> 0 < b ->
  (if use_flash_attn args
   then FlashSelfAttention.half_precision (t_dtype meta) = true /\ t_is_cuda meta = true
        /\ flash_mask_ok b (L + sq) m
   else exists m', m = Some m' /\ mask_shape m' = [b; 1; sq; L + sq]) ->
  forward ct self meta [sq; b; text_hidden_size config] [L; b; text_hidden_size config] m None
  = (None, Ok ([sq; b; text_hidden_size config],
               if args_add_bias_linear args then Some [text_hidden_size config] else None)).
Proof.
  intros C Hsq Hb Hm.
  unfold forward, preallocate.
  unfold mbind, stateful_bind, st_get, st_lift, mret, stateful_ret.
  rewrite (project_qkv_shape _ _ _ _ _ _ _ _ C).
  assert (Hatt : attend self meta [sq; b; np; kv_channels config]
                   [L + sq; b; np; kv_channels config]
                   [L + sq; b; np; kv_channels config] m
                 = Ok [sq; b; np * kv_channels config]).
  { destruct (use_flash_attn args) eqn:Hfl.
    - destruct Hm as (Hhalf & Hcuda & Hm). by eapply attend_flash.
    - destruct Hm as (m' & -> & Hm'). eapply attend_dense; try done. lia. }
  rewrite Hatt, (dense_output _ _ _ _ _ _ _ C). reflexivity.
Qed.

End Forward.

End AttentionFacts.



(** ** The inference cache *)

Module CacheFacts.
Import Torch TorchFacts MegatronCore CoreAttentionFacts MLPFacts AttentionFacts.
Import ParallelAttention.

Lemma st_bind_eq {S X Y} (m : stateful S X) (f : X -> stateful S Y) s s1 a :
  m s = (s1, Ok a) -> (m ≫= f) s = f a s1.
Proof. intros H. unfold mbind, stateful_bind. by rewrite H. Qed.

Lemma st_bind_raise {S X Y} (m : stateful S X) (f : X -> stateful S Y) s s1 e :
  m s = (s1, Raise e) -> (m ≫= f) s = (s1, Raise e).
Proof. intros H. unfold mbind, stateful_bind. by rewrite H. Qed.

Section Cache.
Context {A : Type} (ct : Contents A).

Lemma setitem_in_bounds mem src S0 B0 trail s0 b0 sk b :
  c_shape mem = S0 :: B0 :: trail -> c_shape src = sk :: b :: trail ->
  s0 + sk <= S0 -> b0 + b <= B0 ->
  exists mem',
    setitem ct mem s0 (s0 + sk) b0 (b0 + b) src = Ok mem'
    /\ same_tensor mem' (written mem s0 b0 sk b (c_data src)).
Proof.
  intros Hmem Hsrc Hs Hb. unfold setitem. rewrite Hmem, Hsrc.
  unfold slice_len.
  rewrite !Nat.min_l by lia.
  replace (s0 + sk - s0) with sk by lia. replace (b0 + b - b0) with b by lia.
  rewrite CoreAttentionFacts.expand_as_refl, bind_Ok, shape_eqb_refl.
  eexists. split; [reflexivity|]. split; [done|]. intros i j. reflexivity.
Qed.

Lemma getitem_in_bounds (mem : ctensor A) S0 B0 trail s1 b0 b :
  c_shape mem = S0 :: B0 :: trail -> s1 <= S0 -> b0 + b <= B0 ->
  getitem mem s1 b0 (b0 + b) = Ok (prefix_of mem s1 b0 b).
Proof.
  intros Hmem Hs Hb. unfold getitem, prefix_of. rewrite Hmem. unfold slice_len.
  rewrite !Nat.min_l by lia. cbn [drop].
  replace (s1 - 0) with s1 by lia. replace (b0 + b - b0) with b by lia.
  reflexivity.
Qed.

Lemma preallocate_Some self ip :
  preallocate ct self (Some ip) = (Some (preallocated ct self ip), Ok (Some (cache_entry ct self ip))).
Proof.
  unfold preallocate, preallocated, cache_entry.
  unfold mbind, stateful_bind, st_get.
  destruct (key_value_memory_dict ip !! layer_number self) as [m|]; reflexivity.
Qed.

Lemma preallocated_lookup self ip :
  key_value_memory_dict (preallocated ct self ip) !! layer_number self
  = Some (cache_entry ct self ip).
Proof.
  unfold preallocated, cache_entry.
  destruct (key_value_memory_dict ip !! layer_number self) as [m|] eqn:E; [done|].
  cbn. by rewrite lookup_insert_eq.
Qed.

(** Reading column [j] of the batch slice that was just written. *)
Lemma written_read_back (mem : ctensor A) s0 b0 sk b src i j :
  j < b ->
  c_data (written mem s0 b0 sk b src) i (j + b0)
  = if (s0 <=? i) && (i <? s0 + sk) then src (i - s0) j else c_data mem i (j + b0).
Proof.
  intros Hj. cbn [written c_data].
  rewrite (proj2 (Nat.leb_le b0 (j + b0))) by lia.
  rewrite (proj2 (Nat.ltb_lt (j + b0) (b0 + b))) by lia.
  rewrite !andb_true_r. replace (j + b0 - b0) with j by lia. reflexivity.
Qed.

(** A write that would leave the memory raises before any write. *)
Lemma adjust_out_of_bounds self ip km vm key value S0 B0 trail sk b rest st :
  c_shape km = S0 :: B0 :: trail -> c_shape key = sk :: b :: rest ->
  B0 < batch_size_offset ip + b \/ S0 < sequence_len_offset ip + sk ->
  exists site,
    adjust_key_value ct self ip (Some (km, vm)) key value st
    = (st, Raise (AssertionError site)).
Proof.
  intros Hkm Hkey Hout. unfold adjust_key_value.
  unfold mbind, stateful_bind, st_lift, py_local. rewrite Hkm, Hkey.
  cbn [size lookup list_lookup].
  destruct (batch_size_offset ip + b <=? B0) eqn:Eb; cbn [py_assert].
  - apply Nat.leb_le in Eb.
    destruct (sequence_len_offset ip + sk <=? S0) eqn:Es; cbn [py_assert].
    + apply Nat.leb_le in Es. lia.
    + by eexists.
  - by eexists.
Qed.

(** An in-bounds write stores the new slices at the offsets and hands
    back the prefix of the memory. *)
Lemma adjust_in_bounds self ip km vm key value S0 B0 trail sk b ip1 :
  c_shape km = S0 :: B0 :: trail -> c_shape vm = S0 :: B0 :: trail ->
  c_shape key = sk :: b :: trail -> c_shape value = sk :: b :: trail ->
  batch_size_offset ip + b <= B0 -> sequence_len_offset ip + sk <= S0 ->
  exists km' vm',
    adjust_key_value ct self ip (Some (km, vm)) key value (Some ip1)
    = (Some (set_key_value_memory_dict ip1
               (<[layer_number self := (km', vm')]> (key_value_memory_dict ip1))),
       Ok (prefix_of km' (sequence_len_offset ip + sk) (batch_size_offset ip) b,
           prefix_of vm' (sequence_len_offset ip + sk) (batch_size_offset ip) b))
    /\ same_tensor km' (written km (sequence_len_offset ip) (batch_size_offset ip) sk b
                          (c_data key))
    /\ same_tensor vm' (written vm (sequence_len_offset ip) (batch_size_offset ip) sk b
                          (c_data value)).
Proof.
  intros Hkm Hvm Hkey Hvalue Hb Hs.
  destruct (setitem_in_bounds km key S0 B0 trail _ _ sk b Hkm Hkey Hs Hb)
    as (km' & Hsetk & Hsamek).
  destruct (setitem_in_bounds vm value S0 B0 trail _ _ sk b Hvm Hvalue Hs Hb)
    as (vm' & Hsetv & Hsamev).
  exists km', vm'. split; [|by split].
  unfold adjust_key_value.
  unfold mbind, stateful_bind, st_lift, py_local, store_memory. rewrite Hkm, Hkey.
  cbn [size lookup list_lookup].
  rewrite (proj2 (Nat.leb_le _ _) Hb), (proj2 (Nat.leb_le _ _) Hs). cbn [py_assert].
  rewrite Hsetk, Hsetv.
  assert (Hkm' : c_shape km' = S0 :: B0 :: trail) by (by rewrite (proj1 Hsamek)).
  assert (Hvm' : c_shape vm' = S0 :: B0 :: trail) by (by rewrite (proj1 Hsamev)).
  rewrite (getitem_in_bounds km' S0 B0 trail) by done.
  rewrite (getitem_in_bounds vm' S0 B0 trail) by done.
  cbn. rewrite insert_insert_eq. reflexivity.
Qed.


Lemma set_dict_preallocated self ip x :
  set_key_value_memory_dict (preallocated ct self ip)
    (<[layer_number self := x]> (key_value_memory_dict (preallocated ct self ip)))
  = set_key_value_memory_dict ip (<[layer_number self := x]> (key_value_memory_dict ip)).
Proof.
  unfold preallocated.
  destruct (key_value_memory_dict ip !! layer_number self) as [m|]; [done|].
  unfold set_key_value_memory_dict. cbn. by rewrite insert_insert_eq.
Qed.

Lemma pair_eta_bind {X Y} (r : result (X * Y)) :
  (r ≫= λ '(x, y), Ok (x, y)) = r.
Proof. by destruct r as [[x y]|e]. Qed.

(** [forward] with an inference cache whose layer memory is too small. *)
Lemma forward_out_of_bounds args mpu config self np meta sq L b m ip S0 B0 trail :
  constructed args mpu config self np ->
  c_shape (cache_entry ct self ip).1 = S0 :: B0 :: trail ->
  B0 < batch_size_offset ip + b \/ S0 < sequence_len_offset ip + (L + sq) ->
  exists site,
    forward ct self meta [sq; b; text_hidden_size config] [L; b; text_hidden_size config]
      m (Some ip)
    = (Some (preallocated ct self ip), Raise (AssertionError site)).
Proof.
  intros C Hkm Hout. unfold forward.
  rewrite (st_bind_eq st_get _ (Some ip) (Some ip) (Some ip)) by done.
  rewrite (st_bind_eq _ _ _ _ _ (preallocate_Some self ip)).
  unfold st_lift at 1.
  rewrite (st_bind_eq _ _ _ (Some (preallocated ct self ip)) _
             (f_equal (pair _) (project_qkv_shape _ _ _ _ _ sq L b C))).
  cbv beta iota.
  destruct (cache_entry ct self ip) as [km vm] eqn:Hentry. cbn [fst] in Hkm.
  destruct (adjust_out_of_bounds self ip km vm
              {| c_shape := [L + sq; b; np; kv_channels config];
                 c_data := key_blocks ct (layer_number self) |}
              {| c_shape := [L + sq; b; np; kv_channels config];
                 c_data := value_blocks ct (layer_number self) |}
              S0 B0 trail (L + sq) b [np; kv_channels config]
              (Some (preallocated ct self ip)) Hkm eq_refl Hout) as [site Hadj].
  exists site.
  erewrite st_bind_raise; [reflexivity|].
  erewrite st_bind_raise; [reflexivity|]. exact Hadj.
Qed.

(** [forward] with an inference cache that has room for the new slice. *)
Lemma forward_in_bounds args mpu config self np meta sq L b m ip S0 B0 :
  constructed args mpu config self np ->
  c_shape (cache_entry ct self ip).1 = [S0; B0; np; kv_channels config] ->
  c_shape (cache_entry ct self ip).2 = [S0; B0; np; kv_channels config] ->
  batch_size_offset ip + b <= B0 -> sequence_len_offset ip + (L + sq) <= S0 ->
  exists km' vm',
    forward ct self meta [sq; b; text_hidden_size config] [L; b; text_hidden_size config]
      m (Some ip)
    = (Some (set_key_value_memory_dict ip
               (<[layer_number self := (km', vm')]> (key_value_memory_dict ip))),
       context_layer ←
         attend self meta [sq; b; np; kv_channels config]
           [sequence_len_offset ip + (L + sq); b; np; kv_channels config]
           [sequence_len_offset ip + (L + sq); b; np; kv_channels config] m;
       RowParallelLinear_forward (dense self) context_layer)
    /\ adjust_key_value ct self ip (Some (cache_entry ct self ip))
         {| c_shape := [L + sq; b; np; kv_channels config];
            c_data := key_blocks ct (layer_number self) |}
         {| c_shape := [L + sq; b; np; kv_channels config];
            c_data := value_blocks ct (layer_number self) |}
         (Some (preallocated ct self ip))
       = (Some (set_key_value_memory_dict ip
                  (<[layer_number self := (km', vm')]> (key_value_memory_dict ip))),
          Ok (prefix_of km' (sequence_len_offset ip + (L + sq)) (batch_size_offset ip) b,
              prefix_of vm' (sequence_len_offset ip + (L + sq)) (batch_size_offset ip) b))
    /\ same_tensor km'
         (written (cache_entry ct self ip).1 (sequence_len_offset ip) (batch_size_offset ip)
            (L + sq) b (key_blocks ct (layer_number self)))
    /\ same_tensor vm'
         (written (cache_entry ct self ip).2 (sequence_len_offset ip) (batch_size_offset ip)
            (L + sq) b (value_blocks ct (layer_number self))).
Proof.
  intros C Hkm Hvm Hb Hs.
  destruct (cache_entry ct self ip) as [km vm] eqn:Hentry. cbn [fst snd] in *.
  destruct (adjust_in_bounds self ip km vm
              {| c_shape := [L + sq; b; np; kv_channels config];
                 c_data := key_blocks ct (layer_number self) |}
              {| c_shape := [L + sq; b; np; kv_channels config];
                 c_data := value_blocks ct (layer_number self) |}
              S0 B0 [np; kv_channels config] (L + sq) b (preallocated ct self ip)
              Hkm Hvm eq_refl eq_refl Hb Hs) as (km' & vm' & Hadj & Hsk & Hsv).
  exists km', vm'. split; [|split; [|by split]].
  2:{ rewrite Hadj. by rewrite set_dict_preallocated. }
  unfold forward.
  rewrite (st_bind_eq st_get _ (Some ip) (Some ip) (Some ip)) by done.
  rewrite (st_bind_eq _ _ _ _ _ (preallocate_Some self ip)).
  unfold st_lift at 1.
  rewrite (st_bind_eq _ _ _ (Some (preallocated ct self ip)) _
             (f_equal (pair _) (project_qkv_shape _ _ _ _ _ sq L b C))).
  cbv beta iota. rewrite Hentry.
  erewrite st_bind_eq.
  2:{ erewrite st_bind_eq; [|exact Hadj]. reflexivity. }
  cbn [prefix_of c_shape].
  rewrite (proj1 Hsk), (proj1 Hsv). cbn [written c_shape]. rewrite Hkm, Hvm. cbn [drop].
  rewrite set_dict_preallocated.
  unfold mbind at 1 2, stateful_bind, st_lift, mret, stateful_ret.
  destruct (attend _ _ _ _ _ _) as [ctx|e]; [|reflexivity].
  rewrite bind_Ok.
  by destruct (RowParallelLinear_forward (dense self) ctx) as [[o bias]|e].
Qed.

End Cache.
End CacheFacts.

(** ** ParallelTransformerLayer *)

Module LayerFacts.
Import Torch TorchFacts MegatronCore CacheFacts.
Import ParallelTransformerLayer.

Lemma st_bind_Ok_inv {S X Y} (m : stateful S X) (f : X -> stateful S Y) s s' y :
  (m ≫= f) s = (s', Ok y) -> exists a s1, m s = (s1, Ok a) /\ f a s1 = (s', Ok y).
Proof.
  unfold mbind, stateful_bind. destruct (m s) as [s1 [a|e]]; [|discriminate].
  intros H. by exists a, s1.
Qed.

Section Layer.
Context {A : Type} (ct : Contents A).

(** What [forward] returns is decided by the layer type alone. *)
Lemma forward_returns self meta seed latents context mask retriever_output st st' out :
  forward ct self meta seed latents context mask retriever_output st = (st', Ok out) ->
  exists output,
    out = if bool_decide (layer_type self = LayerType.retro_decoder_with_retriever)
          then Pair output retriever_output else Single output.
Proof.
  unfold forward. intros H.
  repeat (apply st_bind_Ok_inv in H as (? & ? & _ & H); cbv beta iota in H;
          try match type of H with (let '(_, _) := ?p in _) _ = _ => destruct p end).
  match type of H with (if ?c then _ else _) _ = _ => destruct c end;
    injection H as _ <-; by eexists.
Qed.

End Layer.
End LayerFacts.

(** ** The claims about the MLP, the layer and the inference cache *)

(** C3 (as amended). For every input of size [(S, B, input_size)] the
    output of [Idefics2ParallelMLP.forward] has size exactly
    [(S, B, output_size)] whenever the selected nonlinearity fits the width
    of the hidden projection: the swiglu branch when [gated_linear_unit]
    doubles that width, any of the other four branches when it does not
    (and, on the fused bias+gelu path, a bias is configured). *)
Theorem C3_mlp_output_shape (args : Args) (mpu : Mpu) (config : Config)
    (self : Idefics2ParallelMLP.t) (S B : nat) :
  Idefics2ParallelMLP.__init__ args mpu config = Ok self ->
  (gated_linear_unit config = true <->
   Idefics2ParallelMLP.activation_func self = Idefics2ParallelMLP.swiglu_fn) ->
  (Idefics2ParallelMLP.bias_gelu_fusion_ self = true -> add_bias_linear config = true) ->
  Idefics2ParallelMLP.forward self [S; B; input_size config] =
    Ok ([S; B; output_size config],
        if add_bias_linear config then Some [output_size config] else None).
Proof. apply MLPFacts.forward_shape. Qed.

Lemma C3_mlp_output_shape_witness :
  exists self,
    (Idefics2ParallelMLP.__init__ Examples.swiglu_args Examples.mpu Examples.layer_mlp_config
       = Ok self
     /\ (gated_linear_unit Examples.layer_mlp_config = true <->
         Idefics2ParallelMLP.activation_func self = Idefics2ParallelMLP.swiglu_fn)
     /\ (Idefics2ParallelMLP.bias_gelu_fusion_ self = true ->
         add_bias_linear Examples.layer_mlp_config = true))
    /\ Idefics2ParallelMLP.forward self [5; 3; 256] = Ok ([5; 3; 256], None).
Proof.
  eexists. split; [split; [vm_compute; reflexivity | split; [by split | discriminate]]|].
  apply (C3_mlp_output_shape Examples.swiglu_args Examples.mpu Examples.layer_mlp_config
           _ 5 3); [vm_compute; reflexivity | by split | discriminate].
Defined.

(** The claim fails where the width is doubled but the nonlinearity keeps
    it: the openai-gelu and the plain gelu branch of the per-layer MLP. *)
Lemma C3_counterexample :
  exists self self',
    Idefics2ParallelMLP.__init__ Examples.openai_gelu_args Examples.mpu
      Examples.layer_mlp_config = Ok self
    /\ Idefics2ParallelMLP.activation_func self = Idefics2ParallelMLP.openai_gelu_fn
    /\ Idefics2ParallelMLP.forward self [5; 3; input_size Examples.layer_mlp_config]
       = Raise (RuntimeError "mat1 and mat2 shapes cannot be multiplied")
    /\ Idefics2ParallelMLP.__init__ Examples.plain_gelu_args Examples.mpu
         Examples.layer_mlp_config = Ok self'
    /\ Idefics2ParallelMLP.activation_func self' = Idefics2ParallelMLP.F_gelu
    /\ Idefics2ParallelMLP.forward self' [5; 3; input_size Examples.layer_mlp_config]
       = Raise (RuntimeError "mat1 and mat2 shapes cannot be multiplied").
Proof.
  eexists _, _. split; [vm_compute; reflexivity|].
  split; [reflexivity|]. split; [reflexivity|].
  split; [vm_compute; reflexivity|]. by split.
Qed.

(** C2 (as amended). [ParallelTransformerLayer.forward] returns the pair
    [(output, retriever_output)] exactly when the layer type is
    retro-decoder-with-retriever; for every other layer type, the default
    encoder type included, it returns the output tensor alone. *)
Theorem C2_layer_return_shape {A : Type} (ct : Contents A)
    (self : ParallelTransformerLayer.t) (meta : TensorMeta) (seed : nat)
    (latents context : Torch.shape) (mask : option attn_mask)
    (retriever_output : option Torch.shape)
    (st st' : option (InferenceParams A)) (out : layer_output) :
  ParallelTransformerLayer.forward ct self meta seed latents context mask
    retriever_output st = (st', Ok out) ->
  (is_pair out = true <->
   ParallelTransformerLayer.layer_type self = LayerType.retro_decoder_with_retriever)
  /\ (is_pair out = true -> out = Pair (output_of out) retriever_output).
Proof.
  intros H. apply LayerFacts.forward_returns in H as [output ->].
  case_bool_decide as E; cbn; split; done.
Qed.

Lemma C2_layer_return_shape_witness :
  exists l,
    Examples.encoder_layer = Ok l
    /\ ParallelTransformerLayer.forward Examples.contents
         (set_layer_type l LayerType.retro_decoder_with_retriever) Examples.meta 0
         [64; 2; 256] [50; 2; 256] (Some (DenseMask [2; 1; 64; 114])) (Some [7]) None
       = (None, Ok (Pair [64; 2; 256] (Some [7])))
    /\ (is_pair (Pair [64; 2; 256] (Some [7])) = true <->
        ParallelTransformerLayer.layer_type
          (set_layer_type l LayerType.retro_decoder_with_retriever)
        = LayerType.retro_decoder_with_retriever).
Proof.
  assert (E : exists l, Examples.encoder_layer = Ok l) by (eexists; vm_compute; reflexivity).
  destruct E as [l E]. exists l. split; [exact E|].
  assert (Hrun : ParallelTransformerLayer.forward Examples.contents
                   (set_layer_type l LayerType.retro_decoder_with_retriever) Examples.meta 0
                   [64; 2; 256] [50; 2; 256] (Some (DenseMask [2; 1; 64; 114])) (Some [7]) None
                 = (None, Ok (Pair [64; 2; 256] (Some [7])))).
  { vm_compute in E. injection E as <-. vm_compute. reflexivity. }
  split; [exact Hrun|].
  exact (proj1 (C2_layer_return_shape Examples.contents _ _ _ _ _ _ _ _ _ _ Hrun)).
Defined.

(** The claim names a "basic" layer type next to
    retro-decoder-with-retriever.  The plain layer of the code is the
    default, [LayerType.encoder]; it returns a tensor, not a pair, and so
    do the decoder, retro-encoder and retro-decoder types. *)
Lemma C2_counterexample :
  exists l,
    Examples.encoder_layer = Ok l
    /\ ParallelTransformerLayer.layer_type l = LayerType.encoder
    /\ Forall (fun layer_type =>
         ParallelTransformerLayer.forward Examples.contents (set_layer_type l layer_type)
           Examples.meta 0 [64; 2; 256] [50; 2; 256] (Some (DenseMask [2; 1; 64; 114]))
           (Some [7]) None
         = (None, Ok (Single [64; 2; 256])))
       [LayerType.encoder; LayerType.decoder; LayerType.retro_encoder;
        LayerType.retro_decoder].
Proof.
  eexists. split; [vm_compute; reflexivity|]. split; [reflexivity|].
  repeat constructor.
Qed.

(** C5 (as amended). With an inference cache, a key/value write whose
    batch or sequence end-offset exceeds the extent of the layer's cache
    memory raises an assertion error before any key/value slice is
    written: registered memory is as it was, and the one change possible
    is that, on the layer's first use, fresh memory has been registered.
    When both end-offsets are within bounds and the layer's memory has the
    key's per-head layout, the new key and value slices stand in the
    memory at those offsets, the rest of the memory is unchanged, and the
    attention core receives the prefix of the memory up to the sequence
    end-offset as its key and value. *)
Theorem C5_inference_cache_bounds {A : Type} (ct : Contents A) (args : Args) (mpu : Mpu)
    (training : bool) (config : Config) (layer_number : Z) (mask_type : AttnMaskType.t)
    (np : nat) (meta : TensorMeta) (sq L b : nat) (m : option attn_mask)
    (ip : InferenceParams A) :
  accepted args mpu config np ->
  exists self,
    ParallelAttention.__init__ args mpu training config layer_number AttnType.cross_attn
      mask_type = Ok self
    /\ let run := ParallelAttention.forward ct self meta
                    [sq; b; text_hidden_size config] [L; b; text_hidden_size config]
                    m (Some ip) in
       let key_memory := (cache_entry ct self ip).1 in
       let value_memory := (cache_entry ct self ip).2 in
       let batch_end := batch_size_offset ip + b in
       let sequence_end := sequence_len_offset ip + (L + sq) in
       (* out of bounds *)
       (forall S0 B0 trail,
          c_shape key_memory = S0 :: B0 :: trail ->
          B0 < batch_end \/ S0 < sequence_end ->
          exists site, run = (Some (preallocated ct self ip), Raise (AssertionError site)))
       (* what the allocation block did *)
       /\ (is_Some (key_value_memory_dict ip !! ParallelAttention.layer_number self) ->
           preallocated ct self ip = ip)
       /\ (forall l entry,
             key_value_memory_dict ip !! l = Some entry ->
             key_value_memory_dict (preallocated ct self ip) !! l = Some entry)
       (* in bounds *)
       /\ (forall S0 B0,
             c_shape key_memory = [S0; B0; np; kv_channels config] ->
             c_shape value_memory = [S0; B0; np; kv_channels config] ->
             batch_end <= B0 -> sequence_end <= S0 ->
             exists key_memory' value_memory',
               let ip' := set_key_value_memory_dict ip
                            (<[ParallelAttention.layer_number self :=
                                 (key_memory', value_memory')]>
                               (key_value_memory_dict ip)) in
               let key_layer := prefix_of key_memory' sequence_end
                                  (batch_size_offset ip) b in
               let value_layer := prefix_of value_memory' sequence_end
                                    (batch_size_offset ip) b in
               (* the block that writes the cache and reads it back *)
               ParallelAttention.adjust_key_value ct self ip (Some (key_memory, value_memory))
                 {| c_shape := [L + sq; b; np; kv_channels config];
                    c_data := key_blocks ct (ParallelAttention.layer_number self) |}
                 {| c_shape := [L + sq; b; np; kv_channels config];
                    c_data := value_blocks ct (ParallelAttention.layer_number self) |}
                 (Some (preallocated ct self ip))
               = (Some ip', Ok (key_layer, value_layer))
               (* what [forward] does with it *)
               /\ run = (Some ip',
                         context_layer ←
                           ParallelAttention.attend self meta
                             [sq; b; np; kv_channels config]
                             (c_shape key_layer) (c_shape value_layer) m;
                         MegatronCore.RowParallelLinear_forward
                           (ParallelAttention.dense self) context_layer)
               (* the memory after the write *)
               /\ same_tensor key_memory'
                    (written key_memory (sequence_len_offset ip) (batch_size_offset ip)
                       (L + sq) b (key_blocks ct (ParallelAttention.layer_number self)))
               /\ same_tensor value_memory'
                    (written value_memory (sequence_len_offset ip) (batch_size_offset ip)
                       (L + sq) b (value_blocks ct (ParallelAttention.layer_number self)))
               (* the contents read back, row by row *)
               /\ (forall i j, j < b ->
                     c_data key_layer i j
                     = if (sequence_len_offset ip <=? i) && (i <? sequence_end)
                       then key_blocks ct (ParallelAttention.layer_number self)
                              (i - sequence_len_offset ip) j
                       else c_data key_memory i (j + batch_size_offset ip))
               /\ (forall i j, j < b ->
                     c_data value_layer i j
                     = if (sequence_len_offset ip <=? i) && (i <? sequence_end)
                       then value_blocks ct (ParallelAttention.layer_number self)
                              (i - sequence_len_offset ip) j
                       else c_data value_memory i (j + batch_size_offset ip))).
Proof.
  intros Hacc.
  destruct (AttentionFacts.init_accepted args mpu training config layer_number mask_type
              np Hacc) as (self & Hinit & C).
  exists self. split; [exact Hinit|]. cbv zeta.
  split; [|split; [|split]].
  - intros S0 B0 trail Hkm Hout.
    by eapply CacheFacts.forward_out_of_bounds.
  - intros [entry Hentry]. unfold preallocated. by rewrite Hentry.
  - intros l entry Hl. unfold preallocated.
    destruct (key_value_memory_dict ip !! ParallelAttention.layer_number self) eqn:E;
      [done|].
    cbn. rewrite lookup_insert_ne; [done|]. intros <-. congruence.
  - intros S0 B0 Hkm Hvm Hb Hs.
    destruct (CacheFacts.forward_in_bounds ct args mpu config self np meta sq L b m ip S0 B0
                C Hkm Hvm Hb Hs) as (km' & vm' & Hrun & Hadj & Hsk & Hsv).
    exists km', vm'. cbv zeta.
    split; [by rewrite <- Hadj, <- surjective_pairing|].
    split.
    { rewrite Hrun. cbn [prefix_of c_shape].
      rewrite (proj1 Hsk), (proj1 Hsv). cbn [written c_shape]. rewrite Hkm, Hvm.
      reflexivity. }
    split; [exact Hsk|]. split; [exact Hsv|].
    split; intros i j Hj; cbn [prefix_of c_data].
    + rewrite (proj2 Hsk). by apply CacheFacts.written_read_back.
    + rewrite (proj2 Hsv). by apply CacheFacts.written_read_back.
Qed.

Lemma constructible_example (a : Args) :
  use_flash_attn a = false -> group_query_attention a = false ->
  constructible a Examples.mpu (Examples.config 2) 8.
Proof.
  intros Hf Hg.
  constructor; first [reflexivity | cbn; lia | rewrite Hf; discriminate
                     | rewrite Hg; discriminate | by split].
Qed.

Lemma accepted_example (a : Args) :
  use_flash_attn a = false -> group_query_attention a = false ->
  accepted a Examples.mpu (Examples.config 2) 8.
Proof.
  intros Hf Hg. constructor; [by apply constructible_example | cbn; lia].
Qed.

Lemma C5_inference_cache_bounds_witness :
  accepted Examples.swiglu_args Examples.mpu (Examples.config 2) 8
  /\ exists self key_memory' value_memory',
       Examples.attention Examples.swiglu_args = Ok self
       /\ (ParallelAttention.forward Examples.contents self Examples.meta
             [64; 2; 256] [50; 2; 256] (Some (DenseMask [2; 1; 64; 119]))
             (Some (Examples.inference_params 4 5 1))).1
          = Some (set_key_value_memory_dict (Examples.inference_params 4 5 1)
                    (<[1%Z := (key_memory', value_memory')]> ∅))
       /\ c_data key_memory' 7 2 = Examples.KeyBlock 1 2 1
       /\ c_data value_memory' 118 1 = Examples.ValueBlock 1 113 0
       /\ c_data key_memory' 4 2 = Examples.Uninitialised
       /\ c_data key_memory' 7 3 = Examples.Uninitialised
       /\ c_data (prefix_of key_memory' 119 1 2) 7 1 = Examples.KeyBlock 1 2 1
       /\ c_data (prefix_of key_memory' 119 1 2) 4 1 = Examples.Uninitialised.
Proof.
  assert (Hacc : accepted Examples.swiglu_args Examples.mpu (Examples.config 2) 8)
    by (by apply accepted_example).
  split; [exact Hacc|].
  destruct (C5_inference_cache_bounds Examples.contents Examples.swiglu_args Examples.mpu
              false (Examples.config 2) 1 AttnMaskType.padding 8 Examples.meta 64 50 2
              (Some (DenseMask [2; 1; 64; 119])) (Examples.inference_params 4 5 1) Hacc)
    as (self & Hinit & _ & _ & _ & Hin).
  assert (Hself := Hinit). vm_compute in Hself. injection Hself as <-.
  destruct (Hin 200 4) as (km' & vm' & _ & Hrun & [_ Hk] & [_ Hv] & Hread & _);
    [reflexivity | reflexivity | cbn; lia | cbn; lia |].
  eexists _, km', vm'. split; [exact Hinit|]. split; [exact (f_equal fst Hrun)|].
  pose proof (Hread 7 1 ltac:(lia)) as H7. pose proof (Hread 4 1 ltac:(lia)) as H4.
  rewrite !Hk, !Hv.
  split; [reflexivity|]. split; [reflexivity|]. split; [reflexivity|].
  split; [reflexivity|]. split; [exact H7 | exact H4].
Defined.

(** On a layer's first use the memory is registered in the cache before
    the bounds are asserted: the call raises, and the cache has changed. *)
Lemma C5_counterexample :
  exists self ip' site,
    Examples.attention Examples.swiglu_args = Ok self
    /\ ParallelAttention.forward Examples.contents self Examples.meta
         [64; 2; 256] [50; 2; 256] (Some (DenseMask [2; 1; 64; 114]))
         (Some (Examples.inference_params 1 0 0))
       = (Some ip', Raise (AssertionError site))
    /\ key_value_memory_dict (Examples.inference_params 1 0 0) !! 1%Z = None
    /\ is_Some (key_value_memory_dict ip' !! 1%Z).
Proof.
  eexists _, _, _. split; [vm_compute; reflexivity|].
  split; [vm_compute; reflexivity|].
  split; [reflexivity|]. vm_compute. by eexists.
Qed.

(** ** The resampler *)

Module ResamplerFacts.
Import Torch TorchFacts MegatronCore CoreAttentionFacts MLPFacts AttentionFacts.
Import CacheFacts LayerFacts.

Lemma expand_bias_3d a b w : expand_as [w] [a; b; w] = Ok [a; b; w].
Proof.
  unfold expand_as. fold (add [w] [a; b; w]).
  unfold add, broadcast_shapes. cbn. rewrite broadcast_dim_refl. cbn.
  by rewrite shape_eqb_refl.
Qed.

Lemma norm_forward_3d config a b :
  Norm_forward (get_norm (set_hidden_size config (text_hidden_size config)))
    [a; b; text_hidden_size config] = Ok [a; b; text_hidden_size config].
Proof. unfold Norm_forward. cbn. by rewrite Nat.eqb_refl. Qed.

Lemma bias_dropout_add_3d a b w (bias : bool) prob training :
  dropout_in_range prob ->
  bias_dropout_add [a; b; w] (if bias then Some [a; b; w] else None) [a; b; w] prob training
  = Ok [a; b; w].
Proof.
  intros Hp. unfold bias_dropout_add.
  destruct bias; rewrite ?add_same, ?bind_Ok, dropout_ok, bind_Ok by done;
    by rewrite add_same.
Qed.

(** A gated MLP under swiglu: construction succeeds when the inner width
    splits over the ranks, and the output has the configured width. *)
Lemma gated_mlp args mpu config i f o :
  openai_gelu args = false -> onnx_safe args = false -> swiglu args = true ->
  0 < tensor_model_parallel_world_size mpu ->
  f `mod` tensor_model_parallel_world_size mpu = 0 ->
  exists mlp,
    Idefics2ParallelMLP.__init__ args mpu (set_mlp_sizes config i f o true) = Ok mlp
    /\ forall S B,
         Idefics2ParallelMLP.forward mlp [S; B; i]
         = Ok ([S; B; o], if add_bias_linear config then Some [o] else None).
Proof.
  intros Hog Hos Hsw Hws Hf.
  destruct (Idefics2ParallelMLP.__init__ args mpu (set_mlp_sizes config i f o true))
    as [mlp|e] eqn:Hinit.
  - exists mlp. split; [done|]. intros S B.
    assert (Hact : Idefics2ParallelMLP.activation_func mlp = Idefics2ParallelMLP.swiglu_fn
                   /\ Idefics2ParallelMLP.bias_gelu_fusion_ mlp = false).
    { revert Hinit. unfold Idefics2ParallelMLP.__init__. cbv zeta.
      rewrite Hog, Hos, Hsw.
      destruct (ColumnParallelLinear_init _ _ _ _ _); [|discriminate].
      destruct (RowParallelLinear_init _ _ _ _ _); [|discriminate].
      rewrite !bind_Ok. by intros [= <-]. }
    destruct Hact as [Hact Hfusion].
    apply (forward_shape _ _ _ _ S B) in Hinit; [exact Hinit| |].
    + by rewrite Hact.
    + by rewrite Hfusion.
  - exfalso. revert Hinit. unfold Idefics2ParallelMLP.__init__. cbv zeta.
    unfold ColumnParallelLinear_init, RowParallelLinear_init.
    cbn [gated_linear_unit ffn_hidden_size set_mlp_sizes].
    apply Nat.Div0.div_exact in Hf.
    set (ws := tensor_model_parallel_world_size mpu) in *.
    assert (Hq : exists q, f = q * ws) by (exists (f / ws); lia).
    destruct Hq as [q ->]. clear Hf.
    replace (q * ws * 2) with (q * 2 * ws) by lia.
    rewrite !divide_mul by lia. rewrite !bind_Ok.
    rewrite Hog, Hos, Hsw. by rewrite !bind_Ok.
Qed.

Section Layer.
Context {A : Type} (ct : Contents A).

(** A layer other than the retriever layer is constructed, and maps
    latents to latents of the same shape, whatever the context length. *)
Lemma layer_shape args mpu training config ln lty mty rate np :
  layer_accepted args mpu config np ->
  lty <> LayerType.retro_decoder_with_retriever ->
  (0 <? rate)%float = false ->
  exists l,
    ParallelTransformerLayer.__init__ args mpu training config ln lty mty rate = Ok l
    /\ forall meta seed n L b m ro,
         0 < n -> 0 < b -> layer_mask_ok args meta b n (L + n) m ->
         ParallelTransformerLayer.forward ct l meta seed
           [n; b; text_hidden_size config] [L; b; text_hidden_size config] m ro None
         = (None, Ok (Single [n; b; text_hidden_size config])).
Proof.
  intros Hl Hlty Hrate. pose proof Hl as [Hacc Hog Hos Hsw Hmlp Hnoretro Hhd].
  destruct (init_accepted args mpu training config ln mty np Hacc) as (sa & Hsa & Csa).
  destruct (init_accepted args mpu training config ln AttnMaskType.padding np Hacc)
    as (ia & Hia & _).
  destruct (gated_mlp args mpu config (text_hidden_size config)
              (text_hidden_size config * 4) (text_hidden_size config) Hog Hos Hsw
              (a_ws_pos _ _ _ _ (a_constructible _ _ _ _ Hacc)) Hmlp)
    as (mlp & Hmlpi & Hmlpf).
  unfold ParallelTransformerLayer.__init__. cbv zeta.
  rewrite Hsa, bind_Ok, Hrate, Hia, Hmlpi, Hnoretro.
  rewrite (bool_decide_eq_false_2 (lty = _)) by done.
  set (inter := if bool_decide (lty ∈ [LayerType.decoder; LayerType.retro_decoder;
                                         LayerType.retro_decoder_with_retriever;
                                         LayerType.retro_encoder])
                then (Some ia, Some (get_norm config)) else (None, None)).
  exists {| ParallelTransformerLayer.layer_number := ln;
            ParallelTransformerLayer.layer_type := lty;
            ParallelTransformerLayer.apply_residual_connection_post_norm :=
              apply_residual_connection_post_layernorm config;
            ParallelTransformerLayer.input_latents_norm :=
              get_norm (set_hidden_size config (text_hidden_size config));
            ParallelTransformerLayer.input_context_norm :=
              get_norm (set_hidden_size config (text_hidden_size config));
            ParallelTransformerLayer.self_attention := sa;
            ParallelTransformerLayer.hidden_dropout_ := hidden_dropout config;
            ParallelTransformerLayer.bias_dropout_fusion_ := bias_dropout_fusion config;
            ParallelTransformerLayer.drop_path := None;
            ParallelTransformerLayer.post_attention_norm :=
              get_norm (set_hidden_size config (text_hidden_size config));
            ParallelTransformerLayer.inter_attention := inter.1;
            ParallelTransformerLayer.post_inter_attention_norm := inter.2;
            ParallelTransformerLayer.mlp := mlp;
            ParallelTransformerLayer.training := training |}.
  split.
  { subst inter. by destruct (bool_decide (lty ∈ _)). }
  intros meta seed n L b m ro Hn Hb Hm.
  assert (Hfw := forward_no_cache ct args mpu config sa np meta n L b m Csa Hn Hb Hm).
  unfold ParallelTransformerLayer.forward.
  cbn [ParallelTransformerLayer.input_latents_norm ParallelTransformerLayer.input_context_norm
       ParallelTransformerLayer.self_attention ParallelTransformerLayer.drop_path
       ParallelTransformerLayer.post_attention_norm ParallelTransformerLayer.mlp
       ParallelTransformerLayer.layer_type ParallelTransformerLayer.bias_dropout_fusion_
       ParallelTransformerLayer.training ParallelTransformerLayer.hidden_dropout_
       ParallelTransformerLayer.apply_residual_connection_post_norm].
  unfold mbind, stateful_bind, st_lift, mret, stateful_ret.
  rewrite !norm_forward_3d, Hfw.
  assert (Hbda : forall (bias : bool),
            (if bias_dropout_fusion config
             then if training then bias_dropout_add_fused_train
                  else bias_dropout_add_fused_inference
             else get_bias_dropout_add training)
              [n; b; text_hidden_size config]
              (if bias then @Some shape [n; b; text_hidden_size config] else None)
              [n; b; text_hidden_size config] (hidden_dropout config)
            = Ok [n; b; text_hidden_size config]).
  { intros bias. destruct (bias_dropout_fusion config), training;
      unfold bias_dropout_add_fused_train, bias_dropout_add_fused_inference,
        get_bias_dropout_add;
      by rewrite bias_dropout_add_3d. }
  rewrite (bool_decide_eq_false_2 (lty = _)) by done.
  pose proof (Hbda true) as HbdaS. pose proof (Hbda false) as HbdaN.
  cbv iota in HbdaS, HbdaN.
  destruct (args_add_bias_linear args), (add_bias_linear config),
    (apply_residual_connection_post_layernorm config);
    repeat first [ progress cbv beta iota | rewrite expand_bias_3d | rewrite HbdaS
                 | rewrite HbdaN | rewrite norm_forward_3d | rewrite Hmlpf ];
    reflexivity.
Qed.

End Layer.

Import Idefics2PerceiverParallelTransformer.

Lemma result_mapM_Ok {X Y} (f : X -> result Y) (P : Y -> Prop) (l : list X) :
  (forall x, x ∈ l -> exists y, f x = Ok y /\ P y) ->
  exists ys, result_mapM f l = Ok ys /\ Forall P ys /\ length ys = length l.
Proof.
  induction l as [|x l IH]; intros Hf.
  - exists []. by repeat split.
  - destruct (Hf x) as (y & Hy & HP); [left|].
    destruct IH as (ys & Hys & HPs & Hlen).
    { intros x' Hx'. apply Hf. by right. }
    exists (y :: ys). cbn [result_mapM]. rewrite Hy, bind_Ok, Hys, bind_Ok.
    split; [done|]. split; [by constructor | cbn; by rewrite Hlen].
Qed.

Lemma elem_of_py_range i n : i ∈ py_range n <-> (0 <= i < n)%Z.
Proof.
  unfold py_range. rewrite list_elem_of_fmap. split.
  - intros (k & -> & Hk). apply elem_of_seq in Hk. lia.
  - intros Hi. exists (Z.to_nat i). split; [lia|]. apply elem_of_seq. lia.
Qed.

Lemma py_getitem_lookup {X} (l : list X) (i : Z) :
  (0 <= i < Z.of_nat (length l))%Z ->
  exists x, py_getitem l i = Ok x /\ l !! Z.to_nat i = Some x.
Proof.
  intros Hi. unfold py_getitem. cbv zeta.
  destruct (Z.ltb_spec i 0); [lia|].
  destruct (Z.leb_spec 0 i); [|lia].
  destruct (Z.ltb_spec i (Z.of_nat (length l))); [|lia]. cbn [andb].
  destruct (lookup_lt_is_Some_2 l (Z.to_nat i)) as [x Hx]; [lia|].
  exists x. by rewrite Hx.
Qed.

Section Resampler.
Context {A : Type} (ct : Contents A).

Lemma build_layer_good args mpu env training config model_type layer_type mty rate np rates i :
  resampler_accepted args mpu env config model_type layer_type rate np ->
  length rates = Z.to_nat (num_layers config) ->
  Forall (fun r => (0 <? r)%float = false) rates ->
  i ∈ py_range (num_layers config) ->
  exists l,
    build_layer args mpu training config model_type layer_type mty
      (compute_retro_layer_numbers args config model_type) rates (i + 1 + 0)%Z = Ok l
    /\ good_layer ct args config l.
Proof.
  intros R Hlen Hrates Hi. apply elem_of_py_range in Hi.
  unfold build_layer, _get_layer_type.
  rewrite (r_local _ _ _ _ _ _ _ _ R), (r_no_retro _ _ _ _ _ _ _ _ R).
  rewrite bool_decide_eq_true_2 by done. rewrite !bind_Ok.
  destruct (py_getitem_lookup rates (i + 1 + 0 - 1)) as (r & -> & Hr); [lia|].
  rewrite bind_Ok.
  assert (Hpos : (0 <? r)%float = false).
  { rewrite Forall_forall in Hrates. apply Hrates. by eapply list_elem_of_lookup_2. }
  destruct (layer_shape ct args mpu training config (i + 1 + 0) layer_type mty r np
              (r_layer _ _ _ _ _ _ _ _ R) (r_layer_type _ _ _ _ _ _ _ _ R) Hpos)
    as (l & -> & Hl).
  rewrite bind_Ok. exists (TransformerLayer l). split; [done|]. by exists l.
Qed.

(** The plain loop over layers that keep the shape of the latents. *)
Lemma layer_loop_shape self args config meta seed indices n L b m ro (st : mutable A) :
  transformer_impl_ self <> "transformer_engine"%string ->
  Forall (good_layer ct args config) (layers self) ->
  (forall i, i ∈ indices -> (0 <= i < Z.of_nat (length (layers self)))%Z) ->
  0 < n -> 0 < b -> layer_mask_ok args meta b n (L + n) (Some m) ->
  inference_params st = None ->
  exists st',
    layer_loop ct self meta seed indices (Single [n; b; text_hidden_size config])
      [L; b; text_hidden_size config] m ro st
    = (st', Ok (Single [n; b; text_hidden_size config]))
    /\ inference_params st' = None.
Proof.
  intros Himpl Hgood Hidx Hn Hb Hm. revert st.
  induction indices as [|i indices IH]; intros st Hst.
  - exists st. by split.
  - cbn [layer_loop]. unfold _get_layer.
    destruct (py_getitem_lookup (layers self) i) as (l & Hl & Hlk);
      [apply Hidx; by left|].
    rewrite Forall_forall in Hgood.
    destruct (Hgood l) as (l' & -> & Hfw); [by eapply list_elem_of_lookup_2|].
    rewrite (st_bind_eq _ _ st st (TransformerLayer l')); [|by unfold st_lift; rewrite Hl].
    unfold call_layer_kwargs. rewrite bool_decide_eq_false_2 by done.
    set (st1 := {| num_microbatches_in_previous_step := num_microbatches_in_previous_step st;
                   microbatch_count := microbatch_count st;
                   inference_params := None |} : mutable A).
    destruct (IH (fun j Hj => Hidx j (list_elem_of_further _ _ _ Hj)) st1 eq_refl)
      as (st' & Hloop & Hst').
    exists st'. split; [|done].
    rewrite (st_bind_eq _ _ st st1 (Single [n; b; text_hidden_size config])); [done|].
    cbn [as_tensor]. unfold mbind, stateful_bind, st_lift, with_inference_params.
    by rewrite Hst, Hfw.
Qed.

(** The resampler is constructed, and on a batch it returns: with the
    final normalization, one sequence of [n_latents] positions per batch
    element whatever the context length; without it, the tensor it was
    given. *)
Lemma forward_shape_resampler args mpu env training config model_type layer_type mty
    post_norm post_process rate np :
  resampler_accepted args mpu env config model_type layer_type rate np ->
  exists self,
    __init__ args mpu env training config model_type layer_type mty post_norm true
      post_process rate = Ok self
    /\ forall meta seed B L mask ro (st : mutable A),
         0 < B -> inference_params st = None ->
         resampler_mask_ok args meta B L mask ->
         exists st',
           forward ct mpu env self meta seed [B; L; vision_hidden_size config] mask ro st
           = (st', Ok (if post_process && post_norm
                       then [n_latents config; B; text_hidden_size config]
                       else [B; L; vision_hidden_size config])).
Proof.
  intros R. pose proof R as [Hl Hlocal Hfp8 Hretro Hmty Hlty (rates & Hlin & Hlen & Hrates)
                             Hlayers Hvpp Hrank Hsize Hrec Hproj Hmb Hn].
  pose proof Hl as [Hacc Hog Hos Hsw Hmlp].
  destruct (gated_mlp args mpu config (vision_hidden_size config)
              (intermediate_size config) (text_hidden_size config) Hog Hos Hsw
              (a_ws_pos _ _ _ _ (a_constructible _ _ _ _ Hacc)) Hproj) as (proj & Hproji & Hprojf).
  destruct (result_mapM_Ok
              (fun i => build_layer args mpu training config model_type layer_type mty
                          (compute_retro_layer_numbers args config model_type) rates
                          (i + 1 + 0)%Z)
              (good_layer ct args config) (py_range (num_layers config)))
    as (ls & Hls & Hgood & Hlslen).
  { intros i Hi. by eapply build_layer_good. }
  unfold __init__. cbv zeta.
  rewrite (a_seq_par _ _ _ _ (a_constructible _ _ _ _ Hacc)). cbn [negb py_assert]. rewrite bind_Ok.
  rewrite Hlocal, Hfp8, Hretro, Hvpp, Hrank, Hsize, Hlin, Hproji.
  rewrite (bool_decide_eq_false_2 ("local"%string = _)) by done.
  rewrite (bool_decide_eq_false_2 (None <> None)) by (intros H; by apply H).
  rewrite andb_false_r, Z.mul_0_l.
  repeat (rewrite bind_Ok; cbv beta iota).
  destruct (Z.eqb_spec (num_layers config) 0) as [E|_]; [lia|].
  rewrite Hls, bind_Ok.
  rewrite (bool_decide_eq_false_2 (model_type = _)) by done.
  repeat (rewrite bind_Ok; cbv beta iota).
  eexists. split; [reflexivity|].
  intros meta seed B L mask ro st HB Hst Hmask.
  match goal with |- context [forward ct mpu env ?s] => set (self := s) end.
  set (st1 := {| num_microbatches_in_previous_step := get_num_microbatches env;
                 microbatch_count :=
                   if bool_decide (num_microbatches_in_previous_step st
                                   <> get_num_microbatches env)
                   then 0%Z else microbatch_count st;
                 inference_params := inference_params st |} : mutable A).
  set (m4 := if use_flash_attn args
             then match mask with
                  | PaddingMask b s valid =>
                      PaddingMask b (s + n_latents config)
                        (fun i j => if j <? s then valid i j else true)
                  | DenseMask _ => mask
                  end
             else DenseMask [B; 1; n_latents config; L + n_latents config]).
  assert (Hm4 : layer_mask_ok args meta B (n_latents config) (L + n_latents config) (Some m4)).
  { unfold layer_mask_ok, resampler_mask_ok in *. subst m4.
    destruct (use_flash_attn args).
    - destruct Hmask as (Hhalf & Hcuda & valid & ->).
      split; [done|]. split; [done|]. right. eauto.
    - by eexists. }
  destruct (layer_loop_shape self args config meta seed (py_range (num_layers config))
              (n_latents config) L B m4 ro st1) as (st2 & Hloop & Hst2); try done.
  { intros i Hi. apply elem_of_py_range in Hi. subst self.
    cbn [Idefics2PerceiverParallelTransformer.layers]. rewrite Hlslen.
    unfold py_range. rewrite length_fmap, length_seq. lia. }
  assert (Hshape : mask_shape mask = [B; L]).
  { unfold resampler_mask_ok in Hmask. destruct (use_flash_attn args); [|done].
    by destruct Hmask as (_ & _ & valid & ->). }
  set (m3 := match mask with
             | PaddingMask b s valid =>
                 PaddingMask b (s + n_latents config)
                   (fun i j => if j <? s then valid i j else true)
             | DenseMask _ => DenseMask [B; L + n_latents config]
             end).
  assert (Hext : extend_attention_mask mask [B; n_latents config; text_hidden_size config]
                 = Ok m3).
  { unfold extend_attention_mask. rewrite Hshape. cbn [size lookup list_lookup].
    rewrite !bind_Ok, cat_mask, bind_Ok.
    subst m3. by destruct mask. }
  assert (Hm3 : mask_shape m3 = [B; L + n_latents config]).
  { subst m3. destruct mask as [s|b s valid]; [done|]. by injection Hshape as -> ->. }
  assert (Hprep : (if negb (use_flash_attn args)
                   then st_lift (_prepare_4d_attention_mask m3 (n_latents config))
                   else mret m3) st1 = (st1, Ok m4)).
  { subst m4. unfold _prepare_4d_attention_mask. rewrite Hm3.
    unfold resampler_mask_ok in Hmask.
    destruct (use_flash_attn args); [|done].
    destruct Hmask as (_ & _ & valid & ->). done. }
  unfold forward.
  rewrite (st_bind_eq _ _ st st st) by done.
  rewrite (bool_decide_eq_false_2 (inference_params st <> None)) by (rewrite Hst; tauto).
  rewrite (st_bind_eq _ _ st st tt) by done.
  rewrite (st_bind_eq _ _ st st [B; L; vision_hidden_size config]) by done.
  rewrite (st_bind_eq _ _ st st _ (f_equal (pair st) (Hprojf B L))).
  rewrite (st_bind_eq _ _ st st st) by done.
  rewrite (st_bind_eq _ _ st st1 tt) by done.
  destruct (Z.eqb_spec (get_num_microbatches env) 0) as [|_]; [done|].
  erewrite (st_bind_eq _ _ st1 st1) by reflexivity.
  rewrite (st_bind_eq _ _ st1 st1 B) by done.
  rewrite (st_bind_eq _ _ st1 st1 m3).
  2:{ unfold st_lift. f_equal. subst self. exact Hext. }
  rewrite (st_bind_eq _ _ st1 st1 m4).
  2:{ subst self. exact Hprep. }
  rewrite (st_bind_eq _ _ st1 st1 [L; B; text_hidden_size config]) by done.
  rewrite (st_bind_eq _ _ st1 st1 [n_latents config; B; text_hidden_size config]) by done.
  rewrite (st_bind_eq _ _ st1 st2 (Single [n_latents config; B; text_hidden_size config])).
  2:{ rewrite (bool_decide_eq_false_2 (recompute_granularity_ self = _)) by done.
      exact Hloop. }
  rewrite (st_bind_eq _ _ st2 st2 st2) by done.
  subst self.
  cbn [Idefics2PerceiverParallelTransformer.training
       Idefics2PerceiverParallelTransformer.post_process
       Idefics2PerceiverParallelTransformer.post_norm
       Idefics2PerceiverParallelTransformer.final_norm andb as_tensor].
  unfold mbind, stateful_bind, st_put, st_lift, mret, stateful_ret.
  destruct (post_process && post_norm); rewrite ?norm_forward_3d;
    destruct (is_grad_enabled env && training); eexists; reflexivity.
Qed.

(** Without the final normalization, what [forward] returns is the
    tensor it was given. *)
Lemma forward_without_final_norm mpu env self meta seed hidden_states mask
    retriever_output (st st' : mutable A) out :
  post_process self && post_norm self = false ->
  pre_process self = true ->
  forward ct mpu env self meta seed hidden_states mask retriever_output st = (st', Ok out) ->
  out = hidden_states.
Proof.
  intros Hnorm Hpre. unfold forward. intros H.
  apply st_bind_Ok_inv in H as (? & ? & _ & H).
  apply st_bind_Ok_inv in H as (? & ? & _ & H).
  apply st_bind_Ok_inv in H as (hs & ? & Hhs & H).
  rewrite Hpre in Hhs. cbv in Hhs.
  assert (hs = hidden_states) as -> by congruence. clear Hhs.
  apply st_bind_Ok_inv in H as ([context ?] & ? & _ & H).
  do 10 (apply st_bind_Ok_inv in H as (? & ? & _ & H)).
  rewrite Hnorm in H.
  apply st_bind_Ok_inv in H as (? & ? & Hhs & H).
  cbv in Hhs, H. congruence.
Qed.

End Resampler.

End ResamplerFacts.

(** The cross-attention layer outside inference: it is constructed, and
    its output has as many positions as the latents, whatever the length
    [L] of the context. *)
Theorem cross_attention_output_length {A : Type} (ct : Contents A) args mpu training
    config ln mty np :
  accepted args mpu config np ->
  exists self,
    ParallelAttention.__init__ args mpu training config ln AttnType.cross_attn mty = Ok self
    /\ forall meta n L b m,
         0 < n -> 0 < b -> layer_mask_ok args meta b n (L + n) m ->
         ParallelAttention.forward ct self meta
           [n; b; text_hidden_size config] [L; b; text_hidden_size config] m None
         = (None, Ok ([n; b; text_hidden_size config],
                      if args_add_bias_linear args
                      then Some [text_hidden_size config] else None)).
Proof.
  intros Hacc.
  destruct (AttentionFacts.init_accepted args mpu training config ln mty np Hacc)
    as (self & Hinit & C).
  exists self. split; [done|]. intros meta n L b m Hn Hb Hm.
  by apply (AttentionFacts.forward_no_cache ct args mpu config self np).
Qed.

(** 64 latents of width 256: the output is (64, B, 256) for every context
    length and every batch of at least one element. *)
Example cross_attention_64_256 (L B : nat) :
  0 < B ->
  exists self,
    Examples.attention Examples.swiglu_args = Ok self
    /\ ParallelAttention.forward Examples.contents self Examples.meta
         [64; B; 256] [L; B; 256] (Some (DenseMask [B; 1; 64; L + 64])) None
       = (None, Ok ([64; B; 256], None)).
Proof.
  intros HB.
  destruct (cross_attention_output_length Examples.contents Examples.swiglu_args
              Examples.mpu false (Examples.config 2) 1 AttnMaskType.padding 8)
    as (self & Hinit & Hfw); [by apply accepted_example|].
  exists self. split; [exact Hinit|].
  apply (Hfw Examples.meta 64 L B); [lia | done |]. by eexists.
Qed.

Lemma resampler_accepted_example :
  resampler_accepted Examples.swiglu_args Examples.mpu Examples.env (Examples.config 2)
    encoder_or_decoder LayerType.encoder 0%float 8.
Proof.
  constructor; try done.
  - constructor; try done. by apply accepted_example.
  - exists [0%float; 0%float]. split; [reflexivity|]. split; [reflexivity|].
    by repeat constructor.
  - cbn. lia.
Qed.

(** With the final normalization, the resampler returns one sequence of
    [n_latents] positions per batch element, whatever the context
    length. *)
Theorem resampler_output_length {A : Type} (ct : Contents A) args mpu env training config
    model_type layer_type mty rate np :
  resampler_accepted args mpu env config model_type layer_type rate np ->
  exists self,
    Idefics2PerceiverParallelTransformer.__init__ args mpu env training config model_type
      layer_type mty true true true rate = Ok self
    /\ forall meta seed B L mask ro
         (st : Idefics2PerceiverParallelTransformer.mutable A),
         0 < B -> Idefics2PerceiverParallelTransformer.inference_params st = None ->
         resampler_mask_ok args meta B L mask ->
         exists st',
           Idefics2PerceiverParallelTransformer.forward ct mpu env self meta seed
             [B; L; vision_hidden_size config] mask ro st
           = (st', Ok [n_latents config; B; text_hidden_size config]).
Proof.
  intros R.
  apply (ResamplerFacts.forward_shape_resampler ct args mpu env training config model_type
           layer_type mty true true rate np R).
Qed.

(** 64 latents of width 256 over vision features of width 128. *)
Example resampler_64_256 (L B : nat) :
  0 < B ->
  exists self st',
    Examples.transformer true = Ok self
    /\ Idefics2PerceiverParallelTransformer.forward Examples.contents Examples.mpu
         Examples.env self Examples.meta 0 [B; L; 128] (DenseMask [B; L]) None
         (Idefics2PerceiverParallelTransformer.initial_state None)
       = (st', Ok [64; B; 256]).
Proof.
  intros HB.
  destruct (resampler_output_length Examples.contents Examples.swiglu_args Examples.mpu
              Examples.env false (Examples.config 2) encoder_or_decoder LayerType.encoder
              AttnMaskType.padding 0%float 8 resampler_accepted_example)
    as (self & Hinit & Hfw).
  destruct (Hfw Examples.meta 0 B L (DenseMask [B; L]) None
              (Idefics2PerceiverParallelTransformer.initial_state None))
    as [st' Hst']; [done | reflexivity | reflexivity |].
  by exists self, st'.
Qed.

(** C1 (the code departs from the claim).  The claim has the top-level
    forward return an [n_latents]-long sequence per batch element.  Built
    without the final normalization (with [post_norm] or [post_process]
    off), the resampler is constructed, runs its layers on every batch of
    [L] context positions, and then returns the tensor it was given, of
    shape (B, L, vision_hidden_size): the refined latents are dropped. *)
Theorem C1_forward_without_final_norm {A : Type} (ct : Contents A) args mpu env training
    config model_type layer_type mty post_norm post_process rate np :
  resampler_accepted args mpu env config model_type layer_type rate np ->
  post_process && post_norm = false ->
  exists self,
    Idefics2PerceiverParallelTransformer.__init__ args mpu env training config model_type
      layer_type mty post_norm true post_process rate = Ok self
    /\ forall meta seed B L mask ro
         (st : Idefics2PerceiverParallelTransformer.mutable A),
         0 < B -> Idefics2PerceiverParallelTransformer.inference_params st = None ->
         resampler_mask_ok args meta B L mask ->
         exists st',
           Idefics2PerceiverParallelTransformer.forward ct mpu env self meta seed
             [B; L; vision_hidden_size config] mask ro st
           = (st', Ok [B; L; vision_hidden_size config]).
Proof.
  intros R Hnorm.
  destruct (ResamplerFacts.forward_shape_resampler ct args mpu env training config
              model_type layer_type mty post_norm post_process rate np R)
    as (self & Hinit & Hfw).
  exists self. split; [exact Hinit|].
  intros meta seed B L mask ro st HB Hst Hmask.
  destruct (Hfw meta seed B L mask ro st HB Hst Hmask) as [st' Hst'].
  exists st'. by rewrite Hnorm in Hst'.
Qed.

Lemma C1_forward_without_final_norm_witness :
  resampler_accepted Examples.swiglu_args Examples.mpu Examples.env (Examples.config 2)
    encoder_or_decoder LayerType.encoder 0%float 8
  /\ exists self st',
       Examples.transformer false = Ok self
       /\ Idefics2PerceiverParallelTransformer.forward Examples.contents Examples.mpu
            Examples.env self Examples.meta 0 [3; 50; 128] (DenseMask [3; 50]) None
            (Idefics2PerceiverParallelTransformer.initial_state None)
          = (st', Ok [3; 50; 128]).
Proof.
  split; [exact resampler_accepted_example|].
  destruct (C1_forward_without_final_norm Examples.contents Examples.swiglu_args
              Examples.mpu Examples.env false (Examples.config 2) encoder_or_decoder
              LayerType.encoder AttnMaskType.padding false true 0%float 8
              resampler_accepted_example eq_refl)
    as (self & Hinit & Hfw).
  destruct (Hfw Examples.meta 0 3 50 (DenseMask [3; 50]) None
              (Idefics2PerceiverParallelTransformer.initial_state None))
    as [st' Hst']; [lia | reflexivity | reflexivity |].
  exists self, st'. split; [exact Hinit | exact Hst'].
Defined.

(** ** Construction, error behaviour and invariants *)

Lemma bind_Ok_inv {A B} (m : result A) (f : A -> result B) y :
  m ≫= f = Ok y -> exists a, m = Ok a /\ f a = Ok y.
Proof. destruct m as [a|e]; [|discriminate]. intros H. by exists a. Qed.

Lemma py_assert_Ok_inv b site u : py_assert b site = Ok u -> b = true.
Proof. by destruct b. Qed.

Lemma is_ok_true {A} (r : result A) : is_ok r = true <-> exists a, r = Ok a.
Proof. destruct r as [a|e]; split; try done; [by exists a | by intros [? ?]]. Qed.

Module ConstructionFacts.
Import Torch TorchFacts MegatronCore MLPFacts AttentionFacts.

Lemma core_init_dropout mpu ln config mty core :
  CoreAttention.__init__ mpu ln config mty = Ok core ->
  dropout_in_range (attention_dropout config).
Proof.
  unfold CoreAttention.__init__. cbv zeta. intros H.
  do 4 apply bind_Ok_inv in H as (? & _ & H).
  apply bind_Ok_inv in H as ([] & Hdrop & _).
  by apply dropout_check_ok.
Qed.

Lemma attention_init_inv args mpu training config ln aty mty self :
  ParallelAttention.__init__ args mpu training config ln aty mty = Ok self ->
  aty = AttnType.cross_attn /\ exists np, constructible args mpu config np.
Proof.
  unfold ParallelAttention.__init__. cbv zeta. intros H.
  apply bind_Ok_inv in H as (? & Hseq & H). apply py_assert_Ok_inv in Hseq.
  apply bind_Ok_inv in H as (g & Hg & H).
  apply bind_Ok_inv in H as (? & Hflash & H).
  apply bind_Ok_inv in H as (? & _ & H).
  apply bind_Ok_inv in H as (? & _ & H).
  apply bind_Ok_inv in H as (? & _ & H).
  apply bind_Ok_inv in H as (np & Hnp & H).
  apply bind_Ok_inv in H as (? & _ & H).
  apply bind_Ok_inv in H as (? & Hgq & H).
  apply bind_Ok_inv in H as (? & Hty & H). apply py_assert_Ok_inv in Hty.
  apply bool_decide_eq_true in Hty. split; [done|].
  apply bind_Ok_inv in H as (? & _ & H).
  apply bind_Ok_inv in H as (? & _ & H).
  apply bind_Ok_inv in H as (core & Hcore & H).
  apply core_init_dropout in Hcore.
  apply divide_Ok in Hnp as (Hws & Hheads & _).
  unfold ParallelAttention.floordiv in Hg.
  destruct (Nat.eqb_spec (num_attention_heads config) 0) as [|Hnz]; [discriminate|].
  exists np. constructor.
  - by destruct (sequence_parallel config).
  - done.
  - destruct np; [cbn in Hheads; lia | lia].
  - lia.
  - intros Hf. rewrite Hf in Hflash.
    by destruct (flash_attn_unpadded_func_available mpu), (rearrange_available mpu).
  - intros Hq. rewrite Hq in Hgq.
    destruct (tensor_model_parallel_world_size mpu =? 0); [discriminate|].
    destruct (Nat.eqb_spec (num_query_groups args `mod` tensor_model_parallel_world_size mpu) 0);
      [done | discriminate].
  - done.
Qed.

End ConstructionFacts.

(** X1. ParallelAttention.__init__ returns a module exactly when the
    attention type is cross attention and the configuration is
    constructible: no sequence parallelism, a positive tensor-parallel
    world size that divides the number of attention heads into a positive
    number of heads per partition, the flash-attention libraries
    importable when flash attention is asked for, with group-query
    attention a number of query groups that is a multiple of the world
    size, and an attention dropout probability that torch.nn.Dropout
    takes, that is, one neither below 0 nor above 1.  On every other
    input it raises. *)
Theorem X1_attention_constructed_iff args mpu training config ln aty mty :
  is_ok (ParallelAttention.__init__ args mpu training config ln aty mty) = true
  <-> aty = AttnType.cross_attn /\ exists np, constructible args mpu config np.
Proof.
  rewrite is_ok_true. split.
  - intros [self H]. exact (ConstructionFacts.attention_init_inv _ _ _ _ _ _ _ _ H).
  - intros [-> [np Hacc]].
    destruct (AttentionFacts.init_constructible args mpu training config ln mty np Hacc)
      as (self & H & _).
    by exists self.
Qed.

(** X2. The errors of ParallelAttention.__init__, in the order its checks
    run: sequence parallelism fails the first assertion; a configuration
    with zero attention heads raises ZeroDivisionError; flash attention
    without its libraries raises ImportError; group-query attention with a
    number of query groups that is no multiple of the world size raises
    NotImplementedError; and a configuration that passes these checks
    with an attention type other than cross attention fails the assertion
    on the type. *)
Theorem X2_attention_construction_errors args mpu training config ln aty mty :
  let run := ParallelAttention.__init__ args mpu training config ln aty mty in
  (sequence_parallel config = true ->
   run = Raise (AssertionError "Sequence parallel not supported"))
  /\ (sequence_parallel config = false -> num_attention_heads config = 0 ->
      run = Raise ZeroDivisionError)
  /\ (sequence_parallel config = false -> num_attention_heads config <> 0 ->
      use_flash_attn args = true ->
      flash_attn_unpadded_func_available mpu && rearrange_available mpu = false ->
      run = Raise ImportError)
  /\ (forall np,
        sequence_parallel config = false ->
        num_attention_heads config = np * tensor_model_parallel_world_size mpu ->
        0 < np -> 0 < tensor_model_parallel_world_size mpu ->
        (use_flash_attn args = true ->
         flash_attn_unpadded_func_available mpu = true /\ rearrange_available mpu = true) ->
        group_query_attention args = true ->
        num_query_groups args `mod` tensor_model_parallel_world_size mpu <> 0 ->
        run = Raise NotImplementedError)
  /\ (forall np,
        sequence_parallel config = false ->
        num_attention_heads config = np * tensor_model_parallel_world_size mpu ->
        0 < np -> 0 < tensor_model_parallel_world_size mpu ->
        (use_flash_attn args = true ->
         flash_attn_unpadded_func_available mpu = true /\ rearrange_available mpu = true) ->
        (group_query_attention args = true ->
         num_query_groups args `mod` tensor_model_parallel_world_size mpu = 0) ->
        aty <> AttnType.cross_attn ->
        run = Raise (AssertionError "attention_type == AttnType.cross_attn")).
Proof.
  cbv zeta. unfold ParallelAttention.__init__. cbv zeta.
  split; [by intros ->|].
  split.
  { intros -> ->. cbn [negb py_assert]. rewrite bind_Ok. reflexivity. }
  split.
  { intros -> Hnz -> Hav. cbn [negb py_assert]. rewrite bind_Ok.
    unfold ParallelAttention.floordiv.
    rewrite (proj2 (Nat.eqb_neq (num_attention_heads config) 0)) by done.
    rewrite bind_Ok.
    by destruct (flash_attn_unpadded_func_available mpu), (rearrange_available mpu). }
  split.
  - intros np -> Hnh Hnp Hws Hflash Hgq Hmod. cbn [negb py_assert]. rewrite bind_Ok.
    rewrite Hnh.
    assert (Hnh0 : np * tensor_model_parallel_world_size mpu <> 0) by nia.
    unfold ParallelAttention.floordiv.
    rewrite (proj2 (Nat.eqb_neq _ _) Hnh0), bind_Ok.
    assert (Hfl : (if use_flash_attn args
                   then if negb (flash_attn_unpadded_func_available mpu) then Raise ImportError
                        else if negb (rearrange_available mpu) then Raise ImportError
                             else Ok ()
                   else Ok ()) = Ok ()).
    { destruct (use_flash_attn args); [|done]. by destruct (Hflash eq_refl) as [-> ->]. }
    rewrite Hfl, bind_Ok.
    rewrite !(MLPFacts.divide_mul (kv_channels config)) by lia.
    rewrite !(MLPFacts.divide_mul np) by lia.
    rewrite !bind_Ok.
    assert (Hle : (if tensor_model_parallel_world_size mpu
                        <=? np * tensor_model_parallel_world_size mpu
                   then Ok np else Ok np) = Ok np) by (by destruct (_ <=? _)).
    rewrite Hle, bind_Ok, Hgq.
    rewrite (proj2 (Nat.eqb_neq (tensor_model_parallel_world_size mpu) 0)) by lia.
    by rewrite (proj2 (Nat.eqb_neq _ 0) Hmod).
  - intros np Hseq Hnh Hnp Hws Hflash Hgroups Hty.
    rewrite Hseq. cbn [negb py_assert]. rewrite bind_Ok.
    rewrite Hnh.
    assert (Hnh0 : np * tensor_model_parallel_world_size mpu <> 0) by nia.
    unfold ParallelAttention.floordiv.
    rewrite (proj2 (Nat.eqb_neq _ _) Hnh0), bind_Ok.
    assert (Hfl : (if use_flash_attn args
                   then if negb (flash_attn_unpadded_func_available mpu) then Raise ImportError
                        else if negb (rearrange_available mpu) then Raise ImportError
                             else Ok ()
                   else Ok ()) = Ok ()).
    { destruct (use_flash_attn args); [|done]. by destruct (Hflash eq_refl) as [-> ->]. }
    rewrite Hfl, bind_Ok.
    rewrite !(MLPFacts.divide_mul (kv_channels config)) by lia.
    rewrite !(MLPFacts.divide_mul np) by lia.
    rewrite !bind_Ok.
    assert (Hle : (if tensor_model_parallel_world_size mpu
                        <=? np * tensor_model_parallel_world_size mpu
                   then Ok np else Ok np) = Ok np) by (by destruct (_ <=? _)).
    rewrite Hle, bind_Ok.
    assert (Hgq : exists g, (if group_query_attention args
                   then if tensor_model_parallel_world_size mpu =? 0
                        then Raise ZeroDivisionError
                        else if negb (num_query_groups args
                                        `mod` tensor_model_parallel_world_size mpu =? 0)
                             then Raise NotImplementedError
                             else MegatronCore.divide (num_query_groups args)
                                    (tensor_model_parallel_world_size mpu)
                   else Ok np) = Ok g).
    { destruct (group_query_attention args); [|by eexists].
      unfold MegatronCore.divide.
      rewrite !(proj2 (Nat.eqb_neq (tensor_model_parallel_world_size mpu) 0)) by lia.
      rewrite (Hgroups eq_refl). by eexists. }
    destruct Hgq as [g ->]. rewrite bind_Ok.
    by rewrite (bool_decide_eq_false_2 (aty = AttnType.cross_attn)).
Qed.

Module MLPConstructionFacts.
Import Torch TorchFacts MegatronCore MLPFacts Idefics2ParallelMLP.

Lemma init_divisible args mpu config :
  0 < tensor_model_parallel_world_size mpu ->
  ffn_hidden_size config `mod` tensor_model_parallel_world_size mpu = 0 ->
  exists self, __init__ args mpu config = Ok self.
Proof.
  intros Hws Hf. unfold __init__. cbv zeta.
  unfold ColumnParallelLinear_init, RowParallelLinear_init.
  apply Nat.Div0.div_exact in Hf.
  set (ws := tensor_model_parallel_world_size mpu) in *.
  assert (Hq : exists q, ffn_hidden_size config = q * ws)
    by (exists (ffn_hidden_size config / ws); lia).
  destruct Hq as [q ->]. clear Hf.
  assert (Hw : (if gated_linear_unit config then q * ws * 2 else q * ws)
               = (if gated_linear_unit config then q * 2 else q) * ws)
    by (destruct (gated_linear_unit config); lia).
  rewrite Hw, !divide_mul by lia. rewrite !bind_Ok.
  destruct (if openai_gelu args then _ else _) as [fusion act].
  rewrite bind_Ok. by eexists.
Qed.

(** Plain gelu with the fused bias+gelu path asked for. *)
Lemma init_fused args mpu config self :
  openai_gelu args = false -> onnx_safe args = false -> swiglu args = false ->
  squared_relu args = false -> bias_gelu_fusion args = true ->
  __init__ args mpu config = Ok self ->
  bias_gelu_fusion_ self = true /\ add_bias self = add_bias_linear config
  /\ exists h, dense_h_to_4h self =
       {| cpl_input_size := input_size config; cpl_output_size_per_partition := h;
          cpl_bias := add_bias_linear config; cpl_skip_bias_add := true |}.
Proof.
  intros Hog Hos Hsw Hsq Hfu. unfold __init__. cbv zeta.
  rewrite Hog, Hos, Hsw, Hsq, Hfu.
  unfold ColumnParallelLinear_init, RowParallelLinear_init.
  destruct (divide (if gated_linear_unit config then _ else _) _) as [w|]; [|discriminate].
  destruct (divide (ffn_hidden_size config) _) as [h|]; [|discriminate].
  rewrite !bind_Ok. intros [= <-]. cbn. split; [done|]. split; [done|]. by exists w.
Qed.

End MLPConstructionFacts.

(** X3. Idefics2ParallelMLP.__init__ returns a module exactly when the
    tensor-parallel world size is positive and divides ffn_hidden_size. *)
Theorem X3_mlp_constructed_iff args mpu config :
  is_ok (Idefics2ParallelMLP.__init__ args mpu config) = true
  <-> 0 < tensor_model_parallel_world_size mpu
      /\ ffn_hidden_size config `mod` tensor_model_parallel_world_size mpu = 0.
Proof.
  split.
  - destruct (Idefics2ParallelMLP.__init__ args mpu config) as [self|e] eqn:H; [|done].
    intros _. apply MLPFacts.init_Ok in H as (Hws & (h & Hh & _) & _).
    split; [lia|]. rewrite Hh. apply Nat.Div0.mod_mul.
  - intros [Hws Hf].
    destruct (MLPConstructionFacts.init_divisible args mpu config Hws Hf) as [self ->]. done.
Qed.

(** X4. With plain gelu (none of openai_gelu, onnx_safe, swiglu and
    squared_relu) and bias_gelu_fusion set, a configuration without
    add_bias_linear still constructs the MLP, but forward then fails the
    assertion [self.add_bias is True] on every input of the right width. *)
Theorem X4_mlp_fused_gelu_needs_bias args mpu config :
  openai_gelu args = false -> onnx_safe args = false -> swiglu args = false ->
  squared_relu args = false -> bias_gelu_fusion args = true ->
  add_bias_linear config = false ->
  0 < tensor_model_parallel_world_size mpu ->
  ffn_hidden_size config `mod` tensor_model_parallel_world_size mpu = 0 ->
  exists self,
    Idefics2ParallelMLP.__init__ args mpu config = Ok self
    /\ forall S B,
         Idefics2ParallelMLP.forward self [S; B; input_size config]
         = Raise (AssertionError "self.add_bias is True").
Proof.
  intros Hog Hos Hsw Hsq Hfu Hbias Hws Hf.
  destruct (MLPConstructionFacts.init_divisible args mpu config Hws Hf) as [self Hinit].
  exists self. split; [done|]. intros S B.
  destruct (MLPConstructionFacts.init_fused args mpu config self Hog Hos Hsw Hsq Hfu Hinit)
    as (Hfused & Hadd & h & Hcol).
  unfold Idefics2ParallelMLP.forward, MegatronCore.ColumnParallelLinear_forward.
  rewrite Hcol, Hfused, Hadd, Hbias. cbn [MegatronCore.cpl_input_size
    MegatronCore.cpl_output_size_per_partition MegatronCore.cpl_bias
    MegatronCore.cpl_skip_bias_add andb].
  rewrite MLPFacts.linear_3d. reflexivity.
Qed.

Module LayerConstructionFacts.
Import Torch TorchFacts MegatronCore MLPFacts AttentionFacts.

Lemma retro_block_ready args mpu :
  retro_args_ready args mpu ->
  (if retro_add_retriever args then
     if negb (get_retro_args_imported mpu) then Raise (NameError "get_retro_args")
     else
       match get_retro_args mpu with
       | Some _ => Ok tt
       | None => Raise (AttributeError "retro_gpt_chunk_length")
       end
   else Ok tt) = Ok tt.
Proof.
  unfold retro_args_ready. intros H.
  destruct (retro_add_retriever args); [|done].
  destruct (H eq_refl) as [-> [ra ->]]. done.
Qed.

Lemma retro_block_inv args mpu u :
  (if retro_add_retriever args then
     if negb (get_retro_args_imported mpu) then Raise (NameError "get_retro_args")
     else
       match get_retro_args mpu with
       | Some _ => Ok tt
       | None => Raise (AttributeError "retro_gpt_chunk_length")
       end
   else Ok tt) = Ok u ->
  retro_args_ready args mpu.
Proof.
  unfold retro_args_ready. intros H Hr. rewrite Hr in H.
  destruct (get_retro_args_imported mpu); [|discriminate].
  destruct (get_retro_args mpu); [|discriminate]. by split.
Qed.

Lemma layer_init_inv args mpu training config ln lty mty rate l :
  ParallelTransformerLayer.__init__ args mpu training config ln lty mty rate = Ok l ->
  lty <> LayerType.retro_decoder_with_retriever
  /\ (exists np, constructible args mpu config np)
  /\ (text_hidden_size config * 4) `mod` tensor_model_parallel_world_size mpu = 0
  /\ retro_args_ready args mpu.
Proof.
  unfold ParallelTransformerLayer.__init__. cbv zeta. intros H.
  apply bind_Ok_inv in H as (sa & Hsa & H).
  apply bind_Ok_inv in H as ([ia pn] & _ & H).
  apply bind_Ok_inv in H as (mlp & Hmlp & H).
  apply bind_Ok_inv in H as (? & Hretro & H).
  apply bind_Ok_inv in H as (? & Hty & _).
  split; [|split; [|split]].
  - intros ->. by rewrite bool_decide_eq_true_2 in Hty.
  - by apply ConstructionFacts.attention_init_inv in Hsa as [_ ?].
  - apply init_Ok in Hmlp as (_ & (h & Hh & _) & _). cbn in Hh.
    rewrite Hh. apply Nat.Div0.mod_mul.
  - by apply retro_block_inv in Hretro.
Qed.

(** The constructor up to its retro block: both attentions and the MLP
    are built, and what is left is the retro block and the retriever. *)
Lemma layer_init_parts args mpu training config ln lty mty rate np :
  constructible args mpu config np ->
  (text_hidden_size config * 4) `mod` tensor_model_parallel_world_size mpu = 0 ->
  exists sa ia mlp,
    ParallelAttention.__init__ args mpu training config ln AttnType.cross_attn mty = Ok sa
    /\ Idefics2ParallelMLP.__init__ args mpu
         (set_mlp_sizes config (text_hidden_size config) (text_hidden_size config * 4)
            (text_hidden_size config) true) = Ok mlp
    /\ ParallelTransformerLayer.__init__ args mpu training config ln lty mty rate
       = (_ ← (if retro_add_retriever args then
                 if negb (get_retro_args_imported mpu)
                 then Raise (NameError "get_retro_args")
                 else
                   match get_retro_args mpu with
                   | Some _ => Ok tt
                   | None => Raise (AttributeError "retro_gpt_chunk_length")
                   end
               else Ok tt);
          _ ← (if bool_decide (lty = LayerType.retro_decoder_with_retriever)
               then Raise (NameError "ParallelTransformer") else Ok tt);
          Ok {| ParallelTransformerLayer.layer_number := ln;
                ParallelTransformerLayer.layer_type := lty;
                ParallelTransformerLayer.apply_residual_connection_post_norm :=
                  apply_residual_connection_post_layernorm config;
                ParallelTransformerLayer.input_latents_norm :=
                  get_norm (set_hidden_size config (text_hidden_size config));
                ParallelTransformerLayer.input_context_norm :=
                  get_norm (set_hidden_size config (text_hidden_size config));
                ParallelTransformerLayer.self_attention := sa;
                ParallelTransformerLayer.hidden_dropout_ := hidden_dropout config;
                ParallelTransformerLayer.bias_dropout_fusion_ := bias_dropout_fusion config;
                ParallelTransformerLayer.drop_path :=
                  if (0 <? rate)%float then Some (DropPath.__init__ rate training) else None;
                ParallelTransformerLayer.post_attention_norm :=
                  get_norm (set_hidden_size config (text_hidden_size config));
                ParallelTransformerLayer.inter_attention :=
                  if bool_decide (lty ∈ [LayerType.decoder; LayerType.retro_decoder;
                                         LayerType.retro_decoder_with_retriever;
                                         LayerType.retro_encoder])
                  then Some ia else None;
                ParallelTransformerLayer.post_inter_attention_norm :=
                  if bool_decide (lty ∈ [LayerType.decoder; LayerType.retro_decoder;
                                         LayerType.retro_decoder_with_retriever;
                                         LayerType.retro_encoder])
                  then Some (get_norm config) else None;
                ParallelTransformerLayer.mlp := mlp;
                ParallelTransformerLayer.training := training |}).
Proof.
  intros Hacc Hmlp.
  destruct (init_constructible args mpu training config ln mty np Hacc) as (sa & Hsa & _).
  destruct (init_constructible args mpu training config ln AttnMaskType.padding np Hacc)
    as (ia & Hia & _).
  destruct (MLPConstructionFacts.init_divisible args mpu
              (set_mlp_sizes config (text_hidden_size config) (text_hidden_size config * 4)
                 (text_hidden_size config) true) (a_ws_pos _ _ _ _ Hacc) Hmlp)
    as (mlp & Hmlpi).
  exists sa, ia, mlp. split; [done|]. split; [done|].
  unfold ParallelTransformerLayer.__init__. cbv zeta.
  rewrite Hsa, bind_Ok, Hia, Hmlpi.
  by destruct (bool_decide (lty ∈ _)).
Qed.

Lemma layer_init_ok args mpu training config ln lty mty rate np :
  constructible args mpu config np ->
  (text_hidden_size config * 4) `mod` tensor_model_parallel_world_size mpu = 0 ->
  retro_args_ready args mpu ->
  exists sa ia mlp,
    ParallelAttention.__init__ args mpu training config ln AttnType.cross_attn mty = Ok sa
    /\ Idefics2ParallelMLP.__init__ args mpu
         (set_mlp_sizes config (text_hidden_size config) (text_hidden_size config * 4)
            (text_hidden_size config) true) = Ok mlp
    /\ ParallelTransformerLayer.__init__ args mpu training config ln lty mty rate
       = (_ ← (if bool_decide (lty = LayerType.retro_decoder_with_retriever)
               then Raise (NameError "ParallelTransformer") else Ok tt);
          Ok {| ParallelTransformerLayer.layer_number := ln;
                ParallelTransformerLayer.layer_type := lty;
                ParallelTransformerLayer.apply_residual_connection_post_norm :=
                  apply_residual_connection_post_layernorm config;
                ParallelTransformerLayer.input_latents_norm :=
                  get_norm (set_hidden_size config (text_hidden_size config));
                ParallelTransformerLayer.input_context_norm :=
                  get_norm (set_hidden_size config (text_hidden_size config));
                ParallelTransformerLayer.self_attention := sa;
                ParallelTransformerLayer.hidden_dropout_ := hidden_dropout config;
                ParallelTransformerLayer.bias_dropout_fusion_ := bias_dropout_fusion config;
                ParallelTransformerLayer.drop_path :=
                  if (0 <? rate)%float then Some (DropPath.__init__ rate training) else None;
                ParallelTransformerLayer.post_attention_norm :=
                  get_norm (set_hidden_size config (text_hidden_size config));
                ParallelTransformerLayer.inter_attention :=
                  if bool_decide (lty ∈ [LayerType.decoder; LayerType.retro_decoder;
                                         LayerType.retro_decoder_with_retriever;
                                         LayerType.retro_encoder])
                  then Some ia else None;
                ParallelTransformerLayer.post_inter_attention_norm :=
                  if bool_decide (lty ∈ [LayerType.decoder; LayerType.retro_decoder;
                                         LayerType.retro_decoder_with_retriever;
                                         LayerType.retro_encoder])
                  then Some (get_norm config) else None;
                ParallelTransformerLayer.mlp := mlp;
                ParallelTransformerLayer.training := training |}).
Proof.
  intros Hacc Hmlp Hretro.
  destruct (layer_init_parts args mpu training config ln lty mty rate np Hacc Hmlp)
    as (sa & ia & mlp & Hsa & Hmlpi & Hinit).
  exists sa, ia, mlp. split; [done|]. split; [done|].
  by rewrite Hinit, (retro_block_ready args mpu Hretro), bind_Ok.
Qed.

End LayerConstructionFacts.

(** X5. ParallelTransformerLayer.__init__ returns a layer exactly when the
    layer type is not retro_decoder_with_retriever, the attention
    configuration is constructible (as for ParallelAttention.__init__,
    the range of the attention dropout probability included), the world
    size divides 4 * text_hidden_size and, with retro_add_retriever, the
    name get_retro_args is bound and the retro arguments are set.  With
    retro_add_retriever and get_retro_args unbound (the module was loaded
    through its second import branch) an otherwise constructible layer of
    any type raises NameError for get_retro_args.  When the retro block
    gets through, the retro_decoder_with_retriever type raises NameError
    for ParallelTransformer, a name the file does not define. *)
Theorem X5_layer_constructed_iff args mpu training config ln lty mty rate :
  (is_ok (ParallelTransformerLayer.__init__ args mpu training config ln lty mty rate) = true
   <-> lty <> LayerType.retro_decoder_with_retriever
       /\ (exists np, constructible args mpu config np)
       /\ (text_hidden_size config * 4) `mod` tensor_model_parallel_world_size mpu = 0
       /\ retro_args_ready args mpu)
  /\ ((exists np, constructible args mpu config np) ->
      (text_hidden_size config * 4) `mod` tensor_model_parallel_world_size mpu = 0 ->
      retro_add_retriever args = true -> get_retro_args_imported mpu = false ->
      ParallelTransformerLayer.__init__ args mpu training config ln lty mty rate
      = Raise (NameError "get_retro_args"))
  /\ ((exists np, constructible args mpu config np) ->
      (text_hidden_size config * 4) `mod` tensor_model_parallel_world_size mpu = 0 ->
      retro_args_ready args mpu ->
      ParallelTransformerLayer.__init__ args mpu training config ln
        LayerType.retro_decoder_with_retriever mty rate
      = Raise (NameError "ParallelTransformer")).
Proof.
  split; [split|split].
  - rewrite is_ok_true. intros [l H].
    exact (LayerConstructionFacts.layer_init_inv _ _ _ _ _ _ _ _ _ H).
  - intros (Hty & [np Hacc] & Hmlp & Hretro).
    destruct (LayerConstructionFacts.layer_init_ok args mpu training config ln lty mty rate
                np Hacc Hmlp Hretro) as (sa & ia & mlp & _ & _ & ->).
    rewrite (bool_decide_eq_false_2 (lty = LayerType.retro_decoder_with_retriever)) by done.
    reflexivity.
  - intros [np Hacc] Hmlp Hretro Himp.
    destruct (LayerConstructionFacts.layer_init_parts args mpu training config ln lty mty
                rate np Hacc Hmlp) as (sa & ia & mlp & _ & _ & ->).
    by rewrite Hretro, Himp.
  - intros [np Hacc] Hmlp Hretro.
    destruct (LayerConstructionFacts.layer_init_ok args mpu training config ln
                LayerType.retro_decoder_with_retriever mty rate np Hacc Hmlp Hretro)
      as (sa & ia & mlp & _ & _ & ->).
    rewrite (bool_decide_eq_true_2 (LayerType.retro_decoder_with_retriever = _)) by done.
    reflexivity.
Qed.

Module DropPathFacts.
Import Torch TorchFacts.

Lemma broadcast_rev_ones xs b a :
  broadcast_rev (xs ++ [b; a]) (replicate (length xs) 1 ++ [b; 1]) = Some (xs ++ [b; a]).
Proof.
  induction xs as [|x xs IH].
  - cbn. by rewrite broadcast_dim_refl, broadcast_dim_1_r.
  - cbn [length replicate app broadcast_rev]. by rewrite broadcast_dim_1_r, IH.
Qed.

Lemma reverse_replicate {X} n (x : X) : reverse (replicate n x) = replicate n x.
Proof.
  induction n as [|n IH]; [done|].
  cbn [replicate]. rewrite reverse_cons, IH.
  clear IH. induction n as [|n IH]; [done|]. cbn. by rewrite IH.
Qed.

Lemma mul_random_tensor a b rest :
  mul (a :: b :: rest) ([1] ++ [b] ++ replicate (length rest) 1) = Ok (a :: b :: rest).
Proof.
  unfold mul, broadcast_shapes. cbn [app].
  rewrite !reverse_cons, reverse_replicate, <- !(assoc_L (++)). cbn [app].
  rewrite <- (length_reverse rest), broadcast_rev_ones.
  by rewrite reverse_app, reverse_involutive.
Qed.

Lemma forward_keeps_shape (self : DropPath.t) (seed : nat) (s : shape) :
  2 <= length s -> DropPath.forward self seed s = Ok s.
Proof.
  intros Hlen. unfold DropPath.forward.
  destruct (_ || _); [done|].
  destruct s as [|a [|b rest]]; [cbn in Hlen; lia | cbn in Hlen; lia |].
  cbn [t_shape shape_TensorOps size lookup list_lookup]. rewrite bind_Ok.
  cbn [t_mul t_div_scalar t_floor t_add_scalar t_rand shape_TensorOps].
  unfold ndim. cbn [length]. replace (S (S (length rest)) - 2) with (length rest) by lia.
  apply mul_random_tensor.
Qed.

End DropPathFacts.

(** X6. DropPath.forward returns a tensor of the shape of its input
    whenever the input has at least two dimensions, whatever the drop
    probability and the mode.  On an input of fewer dimensions an active
    DropPath (non-zero probability, training mode) raises IndexError,
    since it reads shape[1]. *)
Theorem X6_drop_path_shape (self : DropPath.t) (seed : nat) (s : Torch.shape) :
  (2 <= length s -> DropPath.forward self seed s = Ok s)
  /\ (length s < 2 ->
      (DropPath.drop_prob self =? 0)%float = false -> DropPath.training self = true ->
      exists msg, DropPath.forward self seed s = Raise (IndexError msg)).
Proof.
  split; [apply DropPathFacts.forward_keeps_shape|].
  intros Hlen Hp Ht. unfold DropPath.forward. rewrite Hp, Ht. cbn [orb negb].
  destruct s as [|a [|b rest]]; [by eexists | by eexists | cbn in Hlen; lia].
Qed.

Lemma X6_drop_path_shape_witness :
  DropPath.forward (DropPath.__init__ 0.25%float true) 7 [64; 3; 256] = Ok [64; 3; 256]
  /\ exists msg,
       DropPath.forward (DropPath.__init__ 0.25%float true) 7 [64] = Raise (IndexError msg).
Proof.
  split.
  - apply (proj1 (X6_drop_path_shape (DropPath.__init__ 0.25%float true) 7 [64; 3; 256])).
    cbn. lia.
  - apply (proj2 (X6_drop_path_shape (DropPath.__init__ 0.25%float true) 7 [64]));
      [cbn; lia | reflexivity | reflexivity].
Defined.

Module StochasticDepthFacts.
Import Torch TorchFacts MegatronCore MLPFacts AttentionFacts ResamplerFacts.

Section Layer.
Context {A : Type} (ct : Contents A).


End Layer.
End StochasticDepthFacts.

Module InitFacts.
Import Torch TorchFacts MegatronCore.
Import Idefics2PerceiverParallelTransformer.

Lemma result_mapM_inv {X Y} (f : X -> result Y) (l : list X) ys :
  result_mapM f l = Ok ys ->
  length ys = length l /\ Forall2 (fun x y => f x = Ok y) l ys.
Proof.
  revert ys. induction l as [|x l IH]; intros ys.
  - by intros [= <-].
  - cbn [result_mapM]. intros H.
    apply bind_Ok_inv in H as (y & Hy & H).
    apply bind_Ok_inv in H as (ys' & Hys & H). injection H as <-.
    destruct (IH ys' Hys) as [Hlen HF]. split; [cbn; by rewrite Hlen | by constructor].
Qed.

(** What a successful construction went through, and what it set. *)
Lemma init_inv args mpu env training config mt lt mty post_norm' pre post rate self :
  __init__ args mpu env training config mt lt mty post_norm' pre post rate = Ok self ->
  sequence_parallel config = false
  /\ (fp8 args <> None ->
      transformer_impl args = "transformer_engine"%string
      /\ (fp8 args = Some "e4m3"%string \/ fp8 args = Some "hybrid"%string))
  /\ (transformer_impl args = "transformer_engine"%string ->
      transformer_engine_available env = true /\ squared_relu args = false)
  /\ (retro_add_retriever args = true ->
      recompute_granularity config <> Some "full"%string
      /\ transformer_impl args = "local"%string)
  /\ exists rates n offset proj,
       linspace env 0%float rate (num_layers config) = Ok rates
       /\ stage_layers args mpu config lt = Ok (n, offset)
       /\ Idefics2ParallelMLP.__init__ args mpu
            (set_mlp_sizes config (vision_hidden_size config) (intermediate_size config)
               (text_hidden_size config) true) = Ok proj
       /\ (if (n =? 0)%Z
           then num_layers_ self = 1%Z
                /\ layers self = [NoopLayer (NoopTransformerLayer.__init__ 1)]
           else num_layers_ self = n
                /\ exists ls,
                     result_mapM
                       (fun i => build_layer args mpu training config mt lt mty
                                   (compute_retro_layer_numbers args config mt) rates
                                   (i + 1 + offset)%Z) (py_range n) = Ok ls
                     /\ (if bool_decide (mt = retro_encoder_model)
                         then result_mapM (set_retro_encoder_dropout args) ls
                              = Ok (layers self)
                         else layers self = ls))
       /\ Idefics2PerceiverParallelTransformer.args self = args
       /\ pre_process self = pre /\ post_process self = post /\ post_norm self = post_norm'
       /\ input_tensor self = None
       /\ transformer_impl_ self = transformer_impl args
       /\ recompute_granularity_ self = recompute_granularity config
       /\ recompute_method_ self = recompute_method config
       /\ recompute_num_layers_ self = recompute_num_layers config
       /\ modality_projection self = proj
       /\ n_latents_ self = n_latents config
       /\ latents self = [n_latents config; text_hidden_size config]
       /\ final_norm self = (if post && post_norm'
                             then Some (get_norm (set_hidden_size config
                                                    (text_hidden_size config)))
                             else None)
       /\ Idefics2PerceiverParallelTransformer.training self = training.
Proof.
  unfold __init__. cbv zeta. intros H.
  apply bind_Ok_inv in H as (? & Hseq & H). apply py_assert_Ok_inv in Hseq.
  apply bind_Ok_inv in H as ([[v8 v10] v11] & Hte & H).
  apply bind_Ok_inv in H as (? & Hfp8 & H).
  apply bind_Ok_inv in H as (rates & Hlin & H).
  apply bind_Ok_inv in H as (? & Hretro & H).
  change (match virtual_pipeline_model_parallel_size config with
          | Some vpp => _ | None => _ end) with (stage_layers args mpu config lt) in H.
  apply bind_Ok_inv in H as ([n offset] & Hstage & H).
  apply bind_Ok_inv in H as (proj & Hproj & H).
  apply bind_Ok_inv in H as ([n' ls] & Hls & H).
  injection H as <-. cbn.
  split; [by destruct (sequence_parallel config)|].
  split.
  { intros Hf. rewrite (bool_decide_eq_true_2 (fp8 args <> None)) in Hfp8 by done.
    apply bind_Ok_inv in Hfp8 as (? & Himpl & Hfmt). apply py_assert_Ok_inv in Himpl.
    apply bool_decide_eq_true in Himpl. split; [done|].
    destruct (bool_decide (fp8 args = Some "e4m3"%string)) eqn:E1;
      [apply bool_decide_eq_true in E1; by left|].
    destruct (bool_decide (fp8 args = Some "hybrid"%string)) eqn:E2;
      [apply bool_decide_eq_true in E2; by right | discriminate]. }
  split.
  { intros Himpl. rewrite bool_decide_eq_true_2 in Hte by done.
    destruct (transformer_engine_available env); [|discriminate]. split; [done|].
    cbn [negb] in Hte. apply bind_Ok_inv in Hte as (? & Hsq & _).
    apply py_assert_Ok_inv in Hsq. by destruct (squared_relu args). }
  split.
  { intros Hr. rewrite Hr in Hretro.
    apply bind_Ok_inv in Hretro as (? & Hfull & Hloc).
    apply py_assert_Ok_inv in Hfull. apply py_assert_Ok_inv in Hloc.
    apply bool_decide_eq_true in Hloc. split; [|done].
    intros Hfu. by rewrite bool_decide_eq_true_2 in Hfull. }
  exists rates, n, offset, proj. repeat (split; [done|]).
  split; [|by repeat split].
  destruct (n =? 0)%Z.
  - by injection Hls as <- <-.
  - apply bind_Ok_inv in Hls as (ls0 & Hls0 & Hls).
    apply bind_Ok_inv in Hls as (ls1 & Hls1 & Hls). injection Hls as <- <-.
    split; [done|]. exists ls0. split; [done|].
    destruct (bool_decide (mt = retro_encoder_model)); [done | by injection Hls1].
Qed.

End InitFacts.

Module NoopFacts.
Import Torch TorchFacts MegatronCore CacheFacts.
Import Idefics2PerceiverParallelTransformer.

Lemma st_bind_fails {S X Y} (m : stateful S X) (f : X -> stateful S Y) s :
  never_hangs (m s).2 ->
  (forall a s1, m s = (s1, Ok a) -> fails (f a s1).2) -> fails ((m ≫= f) s).2.
Proof.
  intros Hm Hf. unfold mbind, stateful_bind.
  destruct (m s) as [s1 [a|e]] eqn:E; [by apply Hf|].
  exists e. split; [done|]. intros ->. by apply Hm.
Qed.

Lemma st_fails_bind {S X Y} (m : stateful S X) (f : X -> stateful S Y) s :
  fails (m s).2 -> fails ((m ≫= f) s).2.
Proof.
  intros (e & He & Hne). unfold mbind, stateful_bind.
  destruct (m s) as [s1 [a|e']]; [discriminate|]. cbn in He. exists e'. split; [done|]. congruence.
Qed.

Lemma mlp_forward_never_hangs self x : never_hangs (Idefics2ParallelMLP.forward self x).
Proof.
  unfold Idefics2ParallelMLP.forward, ColumnParallelLinear_forward, RowParallelLinear_forward,
    Idefics2ParallelMLP.bias_gelu_impl, Idefics2ParallelMLP.apply_activation,
    Idefics2ParallelMLP.swiglu_apply.
  pose proof linear_returns. pose proof py_assert_returns. pose proof add_returns.
  pose proof mul_returns. pose proof chunk2_last_returns. pose proof (@py_getitem_returns shape).
  never_hangs_auto.
Qed.

Lemma extend_attention_mask_never_hangs m l : never_hangs (extend_attention_mask m l).
Proof.
  unfold extend_attention_mask. pose proof size_returns. pose proof cat_returns.
  never_hangs_auto.
Qed.

Lemma prepare_4d_never_hangs m n : never_hangs (_prepare_4d_attention_mask m n).
Proof. unfold _prepare_4d_attention_mask. never_hangs_auto. Qed.

Section Noop.
Context {A : Type} (ct : Contents A).

Lemma get_layer_never_hangs self i : never_hangs (_get_layer self i).
Proof. unfold _get_layer. pose proof (@py_getitem_returns layer). never_hangs_auto. Qed.

Lemma get_layer_noop self l0 i l :
  layers self = [NoopLayer l0] -> _get_layer self i = Ok l -> l = NoopLayer l0.
Proof.
  intros Hls Hl. unfold _get_layer, py_getitem in Hl. rewrite Hls in Hl. cbn [length] in Hl.
  destruct (_ && _); [|discriminate].
  destruct ([NoopLayer l0] !! _) as [l'|] eqn:Hlk; [|discriminate].
  injection Hl as <-. apply list_elem_of_lookup_2 in Hlk.
  by apply list_elem_of_singleton in Hlk.
Qed.

Lemma custom_forward_noop self meta seed l0 i rest x context mask (st : mutable A) :
  layers self = [NoopLayer l0] ->
  fails (custom_forward ct self meta seed (i :: rest) x context mask st).2.
Proof.
  intros Hls. cbn [custom_forward]. apply st_bind_fails; [apply get_layer_never_hangs|].
  intros l s1 Hl. unfold st_lift in Hl. injection Hl as <- Hl.
  apply (get_layer_noop _ _ _ _ Hls) in Hl as ->.
  apply st_fails_bind. by eexists.
Qed.

Lemma layer_loop_noop self meta seed l0 x context mask ro (st : mutable A) :
  layers self = [NoopLayer l0] -> num_layers_ self = 1%Z ->
  fails (layer_loop ct self meta seed (py_range (num_layers_ self)) x context mask ro st).2.
Proof.
  intros Hls ->. change (py_range 1) with [0%Z]. cbn [layer_loop].
  apply st_bind_fails; [apply get_layer_never_hangs|].
  intros l s1 Hl. unfold st_lift in Hl. injection Hl as <- Hl.
  apply (get_layer_noop _ _ _ _ Hls) in Hl as ->.
  apply st_fails_bind. by eexists.
Qed.

Lemma checkpointed_forward_noop self mpu meta seed l0 x context mask (st : mutable A) :
  layers self = [NoopLayer l0] -> num_layers_ self = 1%Z ->
  (recompute_method_ self = Some "uniform"%string -> (0 < recompute_num_layers_ self)%Z) ->
  fails (_checkpointed_forward ct self mpu meta seed x context mask st).2.
Proof.
  intros Hls Hn Hr. unfold _checkpointed_forward.
  destruct (bool_decide (recompute_method_ self = Some "uniform"%string)) eqn:Hu.
  - apply bool_decide_eq_true in Hu. specialize (Hr Hu).
    rewrite Hn. change (Z.to_nat 1) with 1.
    destruct (Z.leb_spec (recompute_num_layers_ self) 0) as [Hr'|_]; [lia|].
    cbn [uniform_loop]. rewrite Hn. change (0 <? 1)%Z with true. cbv iota.
    apply st_fails_bind.
    assert (Hne : exists i rest, py_range2 0 (0 + recompute_num_layers_ self) = i :: rest).
    { unfold py_range2, py_range.
      destruct (Z.to_nat (0 + recompute_num_layers_ self - 0)) as [|k] eqn:Hk; [lia|].
      cbn. by eexists _, _. }
    destruct Hne as (i & rest & ->). by eapply custom_forward_noop.
  - destruct (bool_decide (recompute_method_ self = Some "block"%string)).
    + rewrite Hn. change (py_range 1) with [0%Z]. cbn [block_loop].
      apply st_fails_bind.
      assert (Hc : fails (custom_forward ct self meta seed (py_range2 0 (0 + 1)) x context
                             mask st).2)
        by (by eapply (custom_forward_noop self meta seed l0 0%Z [])).
      by destruct (0 <? recompute_num_layers_ self)%Z.
    + by eexists.
Qed.

(** With the step of the uniform method below one, the loop over the
    single no-op layer makes no progress. *)
Lemma checkpointed_forward_hangs self mpu meta seed x context mask (st : mutable A) :
  num_layers_ self = 1%Z ->
  recompute_method_ self = Some "uniform"%string -> (recompute_num_layers_ self <= 0)%Z ->
  _checkpointed_forward ct self mpu meta seed x context mask st = (st, Raise Hang).
Proof.
  intros Hn Hu Hr. unfold _checkpointed_forward.
  rewrite bool_decide_eq_true_2 by done.
  destruct (Z.leb_spec (recompute_num_layers_ self) 0) as [_|?]; [|lia].
  cbn [uniform_loop]. by rewrite Hn.
Qed.

Ltac pre_step :=
  apply st_bind_fails;
  [ cbn;
    repeat match goal with
           | |- never_hangs (match ?x with _ => _ end) => destruct x
           | |- never_hangs ((if ?c then _ else _) _).2 => destruct c
           | |- never_hangs ((match ?x with _ => _ end) _).2 => destruct x
           end;
    first [ discriminate
          | apply py_assert_returns | apply mlp_forward_never_hangs | apply size_returns
          | apply extend_attention_mask_never_hangs | apply prepare_4d_never_hangs
          | apply transpose_returns ]
  | ].

(** Forward of a resampler whose only layer is the no-op layer raises,
    unless the uniform recompute loop is entered with a step below one. *)
Lemma forward_noop mpu env self meta seed l0 hidden_states mask ro (st : mutable A) :
  layers self = [NoopLayer l0] -> num_layers_ self = 1%Z ->
  (recompute_granularity_ self = Some "full"%string ->
   recompute_method_ self = Some "uniform"%string -> (0 < recompute_num_layers_ self)%Z) ->
  fails (forward ct mpu env self meta seed hidden_states mask ro st).2.
Proof.
  intros Hls Hn Hr. unfold forward.
  do 3 (pre_step; intros ? ? _).
  pre_step; intros [context ?] ? _.
  do 8 (pre_step; intros ? ? _).
  apply st_fails_bind.
  destruct (bool_decide (recompute_granularity_ self = Some "full"%string)) eqn:Hg.
  - apply bool_decide_eq_true in Hg. by eapply checkpointed_forward_noop; eauto.
  - by eapply layer_loop_noop.
Qed.

End Noop.
End NoopFacts.

Module StageFacts.
Import Idefics2PerceiverParallelTransformer.

Lemma length_py_range n : length (py_range n) = Z.to_nat n.
Proof. unfold py_range. by rewrite length_fmap, length_seq. Qed.

Lemma py_range_lookup n (i : nat) :
  i < Z.to_nat n -> py_range n !! i = Some (Z.of_nat i).
Proof.
  intros Hi. unfold py_range. rewrite list_lookup_fmap, lookup_seq_lt by done. done.
Qed.

Lemma stage_layers_zero args mpu config lt n offset :
  num_layers config = 0%Z -> stage_layers args mpu config lt = Ok (n, offset) -> n = 0%Z.
Proof.
  intros H0. unfold stage_layers. rewrite H0.
  destruct (virtual_pipeline_model_parallel_size config) as [v|].
  - destruct (v =? 0)%Z; [discriminate|].
    intros H. apply bind_Ok_inv in H as (? & _ & H).
    apply bind_Ok_inv in H as (? & _ & H). injection H as <- _. by destruct v.
  - destruct (_ && _); [destruct (bool_decide _)|]; by intros [= <- _].
Qed.

Lemma stage_layers_single args mpu config lt :
  virtual_pipeline_model_parallel_size config = None ->
  pipeline_model_parallel_world_size mpu = 1%Z ->
  pipeline_model_parallel_rank mpu = 0%Z ->
  stage_layers args mpu config lt = Ok (num_layers config, 0%Z).
Proof.
  intros Hv Hw Hr. unfold stage_layers. rewrite Hv, Hw, Hr.
  by rewrite andb_false_r, Z.mul_0_l.
Qed.

Lemma set_retro_encoder_dropout_kind args l l' :
  set_retro_encoder_dropout args l = Ok l' -> exists t', l' = TransformerLayer t'.
Proof.
  destruct l as [n|t0]; [discriminate|]. cbn [set_retro_encoder_dropout].
  intros H. apply bind_Ok_inv in H as (sa & _ & H). injection H as <-. by eexists.
Qed.

End StageFacts.

(** X7. A resampler constructed with num_layers = 0 holds one
    NoopTransformerLayer and records num_layers = 1.  Unless the recompute
    granularity is full, the method uniform and recompute_num_layers below
    one (the while loop then never ends), its forward raises a Python
    exception on every input: the no-op layer does not take the arguments
    the layer loop passes. *)
Theorem X7_zero_layer_resampler {A : Type} (ct : Contents A) args mpu env training config
    mt lt mty post_norm pre post rate self :
  num_layers config = 0%Z ->
  Idefics2PerceiverParallelTransformer.__init__ args mpu env training config mt lt mty
    post_norm pre post rate = Ok self ->
  Idefics2PerceiverParallelTransformer.layers self
    = [Idefics2PerceiverParallelTransformer.NoopLayer (NoopTransformerLayer.__init__ 1)]
  /\ Idefics2PerceiverParallelTransformer.num_layers_ self = 1%Z
  /\ ((recompute_granularity config = Some "full"%string ->
       recompute_method config = Some "uniform"%string ->
       (0 < recompute_num_layers config)%Z) ->
      forall meta seed hidden_states mask ro
        (st : Idefics2PerceiverParallelTransformer.mutable A),
        fails (Idefics2PerceiverParallelTransformer.forward ct mpu env self meta seed
                 hidden_states mask ro st).2).
Proof.
  intros H0 Hinit.
  apply InitFacts.init_inv in Hinit
    as (_ & _ & _ & _ & rates & n & offset & proj & _ & Hstage & _ & Hls & _ & _ & _ & _
        & _ & _ & Hg & Hm & Hk & _).
  apply (StageFacts.stage_layers_zero _ _ _ _ _ _ H0) in Hstage as ->.
  change (0 =? 0)%Z with true in Hls. destruct Hls as [Hn Hls].
  split; [done|]. split; [done|].
  intros Hr meta seed hs mask ro st.
  eapply NoopFacts.forward_noop; [done | done |]. by rewrite Hg, Hm, Hk.
Qed.

Lemma X7_zero_layer_resampler_witness :
  exists self,
    Settings.empty_transformer Examples.swiglu_args Examples.env = Ok self
    /\ Idefics2PerceiverParallelTransformer.num_layers_ self = 1%Z
    /\ fails (Idefics2PerceiverParallelTransformer.forward Examples.contents Examples.mpu
                Examples.env self Examples.meta 0 [3; 50; 128] (DenseMask [3; 50]) None
                (Idefics2PerceiverParallelTransformer.initial_state None)).2.
Proof.
  destruct (Settings.empty_transformer Examples.swiglu_args Examples.env) as [self|e] eqn:E;
    [|vm_compute in E; discriminate].
  exists self. split; [reflexivity|].
  destruct (X7_zero_layer_resampler Examples.contents Examples.swiglu_args Examples.mpu
              Examples.env false (Examples.config 0) encoder_or_decoder LayerType.encoder
              AttnMaskType.padding true true true 0%float self eq_refl E)
    as (_ & Hn & Hfw).
  split; [exact Hn | apply Hfw; discriminate].
Defined.

(** X8. With a transformer_impl other than local, a constructed
    resampler holds no transformer layer at all: build_layer stops at
    [assert False], so construction only succeeds through the zero-layer
    branch.  For a non-negative num_layers and a positive virtual pipeline
    size, forward of such a resampler raises a Python exception on every
    input, unless the recompute granularity is full, the method uniform
    and recompute_num_layers below one: the while loop then never ends. *)
Theorem X8_non_local_implementation {A : Type} (ct : Contents A) args mpu env training config
    mt lt mty post_norm pre post rate self :
  transformer_impl args <> "local"%string ->
  Idefics2PerceiverParallelTransformer.__init__ args mpu env training config mt lt mty
    post_norm pre post rate = Ok self ->
  only_noop (Idefics2PerceiverParallelTransformer.layers self)
  /\ ((0 <= num_layers config)%Z ->
      match virtual_pipeline_model_parallel_size config with
      | Some v => (0 < v)%Z
      | None => True
      end ->
      (recompute_granularity config = Some "full"%string ->
       recompute_method config = Some "uniform"%string ->
       (0 < recompute_num_layers config)%Z) ->
      forall meta seed hidden_states mask ro
        (st : Idefics2PerceiverParallelTransformer.mutable A),
        fails (Idefics2PerceiverParallelTransformer.forward ct mpu env self meta seed
                 hidden_states mask ro st).2).
Proof.
  intros Himpl Hinit.
  apply InitFacts.init_inv in Hinit
    as (_ & _ & _ & _ & rates & n & offset & proj & _ & Hstage & _ & Hls & _ & _ & _ & _
        & _ & _ & Hg & Hm & Hk & _).
  destruct (Z.eqb_spec n 0) as [->|Hn].
  - destruct Hls as [Hnum Hls]. split.
    + intros l Hl. rewrite Hls in Hl. apply list_elem_of_singleton in Hl. by eexists.
    + intros _ _ Hr meta seed hs mask ro st.
      eapply NoopFacts.forward_noop; [done | done |]. by rewrite Hg, Hm, Hk.
  - destruct Hls as (Hnum & ls & Hbuild & Hls).
    apply InitFacts.result_mapM_inv in Hbuild as [Hlen HF].
    assert (Hempty : py_range n = []).
    { destruct (py_range n) as [|i is_]; [done|]. exfalso.
      inversion HF as [|? y ? ? Hb _]; subst. unfold Idefics2PerceiverParallelTransformer.build_layer in Hb.
      by rewrite bool_decide_eq_false_2 in Hb. }
    rewrite Hempty in Hlen. destruct ls; [|done].
    assert (Hnil : Idefics2PerceiverParallelTransformer.layers self = []).
    { destruct (bool_decide (mt = retro_encoder_model)); [by injection Hls | done]. }
    split; [intros l Hl; rewrite Hnil in Hl; by apply elem_of_nil in Hl|].
    intros Hnl Hv _. exfalso.
    assert (0 < n)%Z; [|pose proof (StageFacts.length_py_range n) as Hr;
                        rewrite Hempty in Hr; cbn in Hr; lia].
    revert Hstage. unfold stage_layers.
    destruct (virtual_pipeline_model_parallel_size config) as [v|].
    + destruct (v =? 0)%Z; [discriminate|]. intros H.
      apply bind_Ok_inv in H as (? & _ & H). apply bind_Ok_inv in H as (? & _ & H).
      cbv beta in H. assert (n = num_layers config `div` v)%Z by congruence.
      assert (0 <= num_layers config `div` v)%Z by (apply Z.div_pos; lia). lia.
    + destruct (_ && _); [destruct (bool_decide (lt = LayerType.encoder))|]; intros H;
        assert (n = num_layers config) by congruence; lia.
Qed.

Lemma X8_non_local_implementation_witness :
  exists self,
    Settings.empty_transformer Settings.engine_args Settings.engine_env = Ok self
    /\ only_noop (Idefics2PerceiverParallelTransformer.layers self)
    /\ fails (Idefics2PerceiverParallelTransformer.forward Examples.contents Examples.mpu
                Settings.engine_env self Examples.meta 0 [3; 50; 128] (DenseMask [3; 50])
                None (Idefics2PerceiverParallelTransformer.initial_state None)).2.
Proof.
  destruct (Settings.empty_transformer Settings.engine_args Settings.engine_env)
    as [self|e] eqn:E; [|vm_compute in E; discriminate].
  exists self. split; [reflexivity|].
  destruct (X8_non_local_implementation Examples.contents Settings.engine_args Examples.mpu
              Settings.engine_env false (Examples.config 0) encoder_or_decoder
              LayerType.encoder AttnMaskType.padding true true true 0%float self)
    as (Hnoop & Hfw); [discriminate | exact E |].
  split; [exact Hnoop|]. apply Hfw; [reflexivity | exact I | discriminate].
Defined.

Module BuildFacts.
Import Idefics2PerceiverParallelTransformer.

Lemma attention_init_number args mpu training config ln aty mty sa :
  ParallelAttention.__init__ args mpu training config ln aty mty = Ok sa ->
  ParallelAttention.layer_number sa = Z.max 1 ln.
Proof.
  unfold ParallelAttention.__init__. cbv zeta. intros H.
  repeat (apply bind_Ok_inv in H as (? & _ & H)). by injection H as <-.
Qed.

Lemma layer_init_fields args mpu training config ln lty mty rate t0 :
  ParallelTransformerLayer.__init__ args mpu training config ln lty mty rate = Ok t0 ->
  ParallelTransformerLayer.layer_number t0 = ln
  /\ ParallelTransformerLayer.layer_type t0 = lty
  /\ ParallelAttention.layer_number (ParallelTransformerLayer.self_attention t0) = Z.max 1 ln.
Proof.
  unfold ParallelTransformerLayer.__init__. cbv zeta. intros H.
  apply bind_Ok_inv in H as (sa & Hsa & H).
  apply bind_Ok_inv in H as ([ia pn] & _ & H).
  apply bind_Ok_inv in H as (mlp & _ & H).
  apply bind_Ok_inv in H as (? & _ & H).
  apply bind_Ok_inv in H as (? & _ & H). injection H as <-. cbn.
  split; [done|]. split; [done|]. by eapply attention_init_number.
Qed.

(** What [build_layer] hands back. *)
Lemma build_layer_inv args mpu training config mt lt mty numbers rates ln l :
  build_layer args mpu training config mt lt mty numbers rates ln = Ok l ->
  exists t0, l = TransformerLayer t0
    /\ ParallelTransformerLayer.layer_number t0 = ln
    /\ ParallelTransformerLayer.layer_type t0 <> LayerType.retro_decoder_with_retriever
    /\ ParallelAttention.layer_number (ParallelTransformerLayer.self_attention t0)
       = Z.max 1 ln.
Proof.
  unfold build_layer. destruct (bool_decide _); [|discriminate]. intros H.
  apply bind_Ok_inv in H as (lty & _ & H).
  apply bind_Ok_inv in H as (r & _ & H).
  apply bind_Ok_inv in H as (t0 & Ht & H). injection H as <-.
  exists t0. split; [done|].
  destruct (layer_init_fields _ _ _ _ _ _ _ _ _ Ht) as (Hn & Hty & Hsa).
  apply LayerConstructionFacts.layer_init_inv in Ht as (Hne & _).
  repeat split; try done. by rewrite Hty.
Qed.

Lemma set_retro_encoder_dropout_inv args l l' :
  set_retro_encoder_dropout args l = Ok l' ->
  exists t0 t1, l = TransformerLayer t0 /\ l' = TransformerLayer t1
    /\ ParallelTransformerLayer.layer_number t1 = ParallelTransformerLayer.layer_number t0
    /\ ParallelTransformerLayer.layer_type t1 = ParallelTransformerLayer.layer_type t0
    /\ ParallelAttention.layer_number (ParallelTransformerLayer.self_attention t1)
       = ParallelAttention.layer_number (ParallelTransformerLayer.self_attention t0).
Proof.
  destruct l as [n|t0]; [discriminate|]. cbn [set_retro_encoder_dropout].
  intros H. apply bind_Ok_inv in H as (sa & Hsa & H). injection H as <-.
  exists t0. eexists. split; [done|]. split; [done|]. cbn.
  split; [done|]. split; [done|].
  destruct (ParallelAttention.use_flash_attn_ _); [|by injection Hsa as <-].
  apply bind_Ok_inv in Hsa as (? & _ & Hsa).
  destruct (ParallelAttention.core_attention_flash _); [|discriminate].
  by injection Hsa as <-.
Qed.

(** The layers of a constructed resampler, position by position. *)
Lemma init_layers args mpu env training config mt lt mty post_norm' pre post rate self :
  __init__ args mpu env training config mt lt mty post_norm' pre post rate = Ok self ->
  exists n offset,
    stage_layers args mpu config lt = Ok (n, offset)
    /\ length (layers self) = Z.to_nat (num_layers_ self)
    /\ num_layers_ self = (if (n =? 0)%Z then 1%Z else n)
    /\ forall (i : nat) l, layers self !! i = Some l ->
         if (n =? 0)%Z then l = NoopLayer (NoopTransformerLayer.__init__ 1)
         else exists t0, l = TransformerLayer t0
                /\ ParallelTransformerLayer.layer_number t0 = (Z.of_nat i + 1 + offset)%Z
                /\ ParallelTransformerLayer.layer_type t0
                   <> LayerType.retro_decoder_with_retriever
                /\ ParallelAttention.layer_number (ParallelTransformerLayer.self_attention t0)
                   = Z.max 1 (Z.of_nat i + 1 + offset).
Proof.
  intros Hinit.
  apply InitFacts.init_inv in Hinit
    as (_ & _ & _ & _ & rates & n & offset & proj & _ & Hstage & _ & Hls & _).
  exists n, offset. split; [done|].
  destruct (n =? 0)%Z.
  - destruct Hls as [-> ->]. split; [done|]. split; [done|].
    intros i l Hl. apply list_elem_of_lookup_2 in Hl. by apply list_elem_of_singleton in Hl.
  - destruct Hls as (-> & ls & Hbuild & Hls).
    apply InitFacts.result_mapM_inv in Hbuild as [Hlen HF].
    rewrite StageFacts.length_py_range in Hlen.
    assert (Hpos : forall (i : nat) l, ls !! i = Some l ->
              exists t0, l = TransformerLayer t0
                /\ ParallelTransformerLayer.layer_number t0 = (Z.of_nat i + 1 + offset)%Z
                /\ ParallelTransformerLayer.layer_type t0
                   <> LayerType.retro_decoder_with_retriever
                /\ ParallelAttention.layer_number (ParallelTransformerLayer.self_attention t0)
                   = Z.max 1 (Z.of_nat i + 1 + offset)).
    { intros i l Hl.
      destruct (Forall2_lookup_r _ _ _ _ _ HF Hl) as (x & Hx & Hb).
      assert (i < Z.to_nat n) by (apply lookup_lt_Some in Hl; lia).
      rewrite StageFacts.py_range_lookup in Hx by done. injection Hx as <-.
      by apply build_layer_inv in Hb. }
    destruct (bool_decide (mt = retro_encoder_model)).
    + apply InitFacts.result_mapM_inv in Hls as [Hlen' HF'].
      split; [lia|]. split; [done|]. intros i l Hl.
      destruct (Forall2_lookup_r _ _ _ _ _ HF' Hl) as (l0 & Hl0 & Hd).
      apply set_retro_encoder_dropout_inv in Hd
        as (t0 & t1 & -> & -> & Hn1 & Hty1 & Hsa1).
      destruct (Hpos i _ Hl0) as (t0' & [= <-] & Hn0 & Hty0 & Hsa0).
      exists t1. split; [done|]. by rewrite Hn1, Hty1, Hsa1.
    + subst ls. split; [done|]. split; [done|]. exact Hpos.
Qed.

End BuildFacts.

(** X9. What every constructed resampler satisfies: the layer list has
    exactly num_layers entries, so _get_layer succeeds on every index below
    num_layers; no layer is of the retro_decoder_with_retriever type;
    final_norm exists exactly when post_process and post_norm are both set;
    and input_tensor is None. *)
Theorem X9_construction_invariants args mpu env training config mt lt mty post_norm pre post
    rate self :
  Idefics2PerceiverParallelTransformer.__init__ args mpu env training config mt lt mty
    post_norm pre post rate = Ok self ->
  length (Idefics2PerceiverParallelTransformer.layers self)
    = Z.to_nat (Idefics2PerceiverParallelTransformer.num_layers_ self)
  /\ (forall i, i ∈ py_range (Idefics2PerceiverParallelTransformer.num_layers_ self) ->
        is_ok (Idefics2PerceiverParallelTransformer._get_layer self i) = true)
  /\ (forall t0,
        Idefics2PerceiverParallelTransformer.TransformerLayer t0
          ∈ Idefics2PerceiverParallelTransformer.layers self ->
        ParallelTransformerLayer.layer_type t0 <> LayerType.retro_decoder_with_retriever)
  /\ (is_Some (Idefics2PerceiverParallelTransformer.final_norm self)
      <-> Idefics2PerceiverParallelTransformer.post_process self
          && Idefics2PerceiverParallelTransformer.post_norm self = true)
  /\ Idefics2PerceiverParallelTransformer.input_tensor self = None.
Proof.
  intros Hinit.
  destruct (BuildFacts.init_layers _ _ _ _ _ _ _ _ _ _ _ _ _ Hinit)
    as (n & offset & _ & Hlen & _ & Hpos).
  apply InitFacts.init_inv in Hinit
    as (_ & _ & _ & _ & rates & n' & offset' & proj & _ & _ & _ & _ & _ & Hpre & Hpost & Hpn
        & Hin & _ & _ & _ & _ & _ & _ & _ & Hfn & _).
  split; [done|]. split; [|split; [|split; [|done]]].
  - intros i Hi. apply ResamplerFacts.elem_of_py_range in Hi.
    destruct (ResamplerFacts.py_getitem_lookup
                (Idefics2PerceiverParallelTransformer.layers self) i) as (l & Hl & _);
      [lia|].
    unfold Idefics2PerceiverParallelTransformer._get_layer. by rewrite Hl.
  - intros t0 Ht. apply list_elem_of_lookup_1 in Ht as [i Hi].
    specialize (Hpos i _ Hi). destruct (n =? 0)%Z; [discriminate|].
    by destruct Hpos as (t1 & [= <-] & _ & Hty & _).
  - rewrite Hfn, Hpost, Hpn. destruct (post && post_norm); split; try done;
      by intros [? ?].
Qed.

Lemma X9_construction_invariants_witness :
  exists self,
    Examples.transformer true = Ok self
    /\ length (Idefics2PerceiverParallelTransformer.layers self) = 2
    /\ is_ok (Idefics2PerceiverParallelTransformer._get_layer self 1) = true
    /\ is_Some (Idefics2PerceiverParallelTransformer.final_norm self).
Proof.
  destruct (Examples.transformer true) as [self|e] eqn:E; [|vm_compute in E; discriminate].
  exists self. split; [reflexivity|].
  destruct (X9_construction_invariants Examples.swiglu_args Examples.mpu Examples.env false
              (Examples.config 2) encoder_or_decoder LayerType.encoder AttnMaskType.padding
              true true true 0%float self E) as (Hlen & Hget & _ & Hfn & _).
  assert (Hself := E). vm_compute in Hself. injection Hself as <-.
  split; [exact Hlen|]. split; [apply Hget; change (py_range 2) with [0%Z; 1%Z];
    apply list_elem_of_further, list_elem_of_here|].
  apply Hfn. reflexivity.
Defined.

(** X10. In a constructed resampler the layer at position i has layer
    number i + 1 + offset, offset being the pipeline offset computed in
    __init__, and its attention stores its inference cache under the key
    max(1, i + 1 + offset).  With a non-negative offset the cache keys of
    distinct layers are distinct. *)
Theorem X10_layer_cache_keys args mpu env training config mt lt mty post_norm pre post rate self
    n offset :
  Idefics2PerceiverParallelTransformer.__init__ args mpu env training config mt lt mty
    post_norm pre post rate = Ok self ->
  stage_layers args mpu config lt = Ok (n, offset) ->
  (forall (i : nat) t0,
     Idefics2PerceiverParallelTransformer.layers self !! i
       = Some (Idefics2PerceiverParallelTransformer.TransformerLayer t0) ->
     ParallelTransformerLayer.layer_number t0 = (Z.of_nat i + 1 + offset)%Z
     /\ ParallelAttention.layer_number (ParallelTransformerLayer.self_attention t0)
        = Z.max 1 (Z.of_nat i + 1 + offset))
  /\ ((0 <= offset)%Z ->
      forall (i j : nat) ti tj,
        Idefics2PerceiverParallelTransformer.layers self !! i
          = Some (Idefics2PerceiverParallelTransformer.TransformerLayer ti) ->
        Idefics2PerceiverParallelTransformer.layers self !! j
          = Some (Idefics2PerceiverParallelTransformer.TransformerLayer tj) ->
        i <> j ->
        ParallelAttention.layer_number (ParallelTransformerLayer.self_attention ti)
        <> ParallelAttention.layer_number (ParallelTransformerLayer.self_attention tj)).
Proof.
  intros Hinit Hstage.
  destruct (BuildFacts.init_layers _ _ _ _ _ _ _ _ _ _ _ _ _ Hinit)
    as (n' & offset' & Hstage' & _ & _ & Hpos).
  rewrite Hstage in Hstage'. injection Hstage' as <- <-.
  assert (Hnum : forall (i : nat) t0,
     Idefics2PerceiverParallelTransformer.layers self !! i
       = Some (Idefics2PerceiverParallelTransformer.TransformerLayer t0) ->
     ParallelTransformerLayer.layer_number t0 = (Z.of_nat i + 1 + offset)%Z
     /\ ParallelAttention.layer_number (ParallelTransformerLayer.self_attention t0)
        = Z.max 1 (Z.of_nat i + 1 + offset)).
  { intros i t0 Hi. specialize (Hpos i _ Hi). destruct (n =? 0)%Z; [discriminate|].
    by destruct Hpos as (t1 & [= <-] & Hn & _ & Hsa). }
  split; [exact Hnum|].
  intros Hoff i j ti tj Hi Hj Hne.
  destruct (Hnum i ti Hi) as [_ ->]. destruct (Hnum j tj Hj) as [_ ->]. lia.
Qed.

Lemma X10_layer_cache_keys_witness :
  exists self t0 t1,
    Examples.transformer true = Ok self
    /\ Idefics2PerceiverParallelTransformer.layers self
       = [Idefics2PerceiverParallelTransformer.TransformerLayer t0;
          Idefics2PerceiverParallelTransformer.TransformerLayer t1]
    /\ ParallelAttention.layer_number (ParallelTransformerLayer.self_attention t0) = 1%Z
    /\ ParallelAttention.layer_number (ParallelTransformerLayer.self_attention t1) = 2%Z.
Proof.
  destruct (Examples.transformer true) as [self|e] eqn:E; [|vm_compute in E; discriminate].
  destruct (X10_layer_cache_keys Examples.swiglu_args Examples.mpu Examples.env false
              (Examples.config 2) encoder_or_decoder LayerType.encoder AttnMaskType.padding
              true true true 0%float self 2%Z 0%Z E eq_refl) as [Hnum _].
  assert (Hself := E). vm_compute in Hself. injection Hself as <-.
  eexists _, _, _. split; [reflexivity|]. split; [reflexivity|].
  split.
  - exact (proj2 (Hnum 0 _ eq_refl)).
  - exact (proj2 (Hnum 1 _ eq_refl)).
Defined.

Module RetroFacts.
Import Idefics2PerceiverParallelTransformer.

Lemma retro_decoder_numbers args config :
  compute_retro_layer_numbers args config retro_decoder_model
  = Some (np_arange (if (num_layers config <=? 15)%Z then 6%Z else 9%Z)
            (args_num_layers args + 1) 3).
Proof. reflexivity. Qed.

Lemma retro_encoder_numbers args config :
  compute_retro_layer_numbers args config retro_encoder_model = Some [1%Z].
Proof. reflexivity. Qed.

Lemma no_retro_numbers args config mt :
  mt <> retro_decoder_model -> mt <> retro_encoder_model ->
  compute_retro_layer_numbers args config mt = None.
Proof.
  intros H1 H2. unfold compute_retro_layer_numbers.
  by rewrite !bool_decide_eq_false_2.
Qed.

(** The layer that would own the retriever cannot be built. *)
Lemma build_first_retro_layer args mpu training config lt mty rates :
  retro_add_retriever args = true ->
  let start := if (num_layers config <=? 15)%Z then 6%Z else 9%Z in
  (start <= args_num_layers args)%Z ->
  raises (build_layer args mpu training config retro_decoder_model lt mty
            (compute_retro_layer_numbers args config retro_decoder_model) rates start).
Proof.
  intros Hretro start Hstart. apply raises_not_ok.
  destruct (build_layer _ _ _ _ _ _ _ _ _ _) as [l|e] eqn:Hb; [exfalso|done].
  revert Hb. unfold build_layer. destruct (bool_decide _); [|discriminate].
  rewrite retro_decoder_numbers. fold start.
  rewrite (RetroLayerFacts.get_layer_type_retro_decoder args lt start) by
    first [ done
          | apply RetroLayerFacts.elem_of_np_arange_3; split; [lia | by rewrite Z.sub_diag] ].
  rewrite bool_decide_eq_true_2 by done. rewrite bind_Ok. intros H.
  apply bind_Ok_inv in H as (r & _ & H).
  apply bind_Ok_inv in H as (t0 & Ht & _).
  by apply LayerConstructionFacts.layer_init_inv in Ht as [Hne _].
Qed.

End RetroFacts.

(** X11. A retro decoder model with retro_add_retriever cannot be
    constructed on a single pipeline stage without virtual pipelining:
    when num_layers, in the configuration and in the arguments, reaches the
    first retro layer number (6 for up to 15 layers, 9 above), __init__
    raises. *)
Theorem X11_retro_decoder_unconstructible args mpu env training config lt mty post_norm pre post
    rate :
  retro_add_retriever args = true ->
  virtual_pipeline_model_parallel_size config = None ->
  pipeline_model_parallel_world_size mpu = 1%Z ->
  pipeline_model_parallel_rank mpu = 0%Z ->
  let start := if (num_layers config <=? 15)%Z then 6%Z else 9%Z in
  (start <= num_layers config)%Z -> (start <= args_num_layers args)%Z ->
  raises (Idefics2PerceiverParallelTransformer.__init__ args mpu env training config
            retro_decoder_model lt mty post_norm pre post rate).
Proof.
  intros Hretro Hv Hw Hr start Hn Ha. apply raises_not_ok.
  destruct (Idefics2PerceiverParallelTransformer.__init__ _ _ _ _ _ _ _ _ _ _ _ _)
    as [self|e] eqn:Hinit; [exfalso|done].
  apply InitFacts.init_inv in Hinit
    as (_ & _ & _ & _ & rates & n & offset & proj & _ & Hstage & _ & Hls & _).
  rewrite (StageFacts.stage_layers_single _ _ _ _ Hv Hw Hr) in Hstage.
  injection Hstage as <- <-.
  assert (Hpos : (0 < start)%Z) by (subst start; destruct (_ <=? _)%Z; lia).
  destruct (Z.eqb_spec (num_layers config) 0) as [|_]; [lia|].
  destruct Hls as (_ & ls & Hbuild & _).
  apply InitFacts.result_mapM_inv in Hbuild as [_ HF].
  destruct (Forall2_lookup_l _ _ _ (Z.to_nat (start - 1)) (start - 1)%Z HF)
    as (l & _ & Hb).
  { rewrite StageFacts.py_range_lookup by lia. f_equal. lia. }
  replace (start - 1 + 1 + 0)%Z with start in Hb by lia.
  destruct (RetroFacts.build_first_retro_layer args mpu training config lt mty rates
              Hretro Ha) as [e He].
  fold start in He. rewrite Hb in He. discriminate.
Qed.

Lemma X11_retro_decoder_unconstructible_witness :
  raises (Idefics2PerceiverParallelTransformer.__init__
            (Examples.args false true false false true 6) Examples.mpu Examples.env false
            (Examples.config 6) retro_decoder_model LayerType.encoder AttnMaskType.padding
            true true true 0%float).
Proof.
  apply (X11_retro_decoder_unconstructible (Examples.args false true false false true 6)
           Examples.mpu Examples.env false (Examples.config 6));
    first [reflexivity | cbn; lia].
Defined.

(** X12. _get_layer_type on the retro layer numbers __init__ computes:
    without retro_add_retriever every layer has the default type; in a
    retro encoder layer 1 is a retro_encoder layer and all others have the
    default type; with retro_add_retriever and a model type that is neither
    retro model, the lookup in the layer numbers, which are None, raises
    TypeError; and the Exception for an unsupported model type is never
    raised. *)
Theorem X12_layer_types_as_constructed args config mt dflt ln :
  let numbers := Idefics2PerceiverParallelTransformer.compute_retro_layer_numbers
                   args config mt in
  (retro_add_retriever args = false -> _get_layer_type args mt dflt numbers ln = Ok dflt)
  /\ (retro_add_retriever args = true -> mt = retro_encoder_model ->
      _get_layer_type args mt dflt numbers ln
      = Ok (if bool_decide (ln = 1%Z) then LayerType.retro_encoder else dflt))
  /\ (retro_add_retriever args = true ->
      mt <> retro_decoder_model -> mt <> retro_encoder_model ->
      exists msg, _get_layer_type args mt dflt numbers ln = Raise (TypeError msg))
  /\ (forall msg, _get_layer_type args mt dflt numbers ln <> Raise (Exception msg)).
Proof.
  cbv zeta. split; [|split; [|split]].
  - intros Hr. unfold _get_layer_type. by rewrite Hr.
  - intros Hr ->. rewrite RetroFacts.retro_encoder_numbers.
    unfold _get_layer_type. rewrite Hr, bind_Ok.
    destruct (decide (ln = 1%Z)) as [->|Hne].
    + by rewrite !bool_decide_eq_true_2 by (done || apply list_elem_of_here).
    + rewrite (bool_decide_eq_false_2 (ln ∈ [1%Z]))
        by (by rewrite list_elem_of_singleton).
      by rewrite (bool_decide_eq_false_2 (ln = 1%Z)).
  - intros Hr H1 H2. rewrite RetroFacts.no_retro_numbers by done.
    unfold _get_layer_type. rewrite Hr. by eexists.
  - intros msg. unfold _get_layer_type.
    destruct (retro_add_retriever args); [|done].
    destruct mt.
    + rewrite RetroFacts.no_retro_numbers by done. done.
    + rewrite RetroFacts.no_retro_numbers by done. done.
    + rewrite RetroFacts.retro_encoder_numbers, bind_Ok.
      by destruct (bool_decide (ln ∈ [1%Z])).
    + rewrite RetroFacts.retro_decoder_numbers, bind_Ok.
      destruct (bool_decide (ln ∈ _)); [|done].
      rewrite bool_decide_eq_true_2 by done.
      unfold py_getitem. cbv zeta. destruct (_ && _); [|done].
      by destruct (_ !! _).
Qed.

Lemma X12_layer_types_as_constructed_witness :
  _get_layer_type Examples.swiglu_args encoder_or_decoder LayerType.encoder
    (Idefics2PerceiverParallelTransformer.compute_retro_layer_numbers Examples.swiglu_args
       (Examples.config 2) encoder_or_decoder) 1 = Ok LayerType.encoder
  /\ exists msg,
       _get_layer_type (Examples.args false true false false true 2) encoder_or_decoder
         LayerType.encoder
         (Idefics2PerceiverParallelTransformer.compute_retro_layer_numbers
            (Examples.args false true false false true 2) (Examples.config 2)
            encoder_or_decoder) 1
       = Raise (TypeError msg).
Proof.
  split.
  - apply (proj1 (X12_layer_types_as_constructed Examples.swiglu_args (Examples.config 2)
                    encoder_or_decoder LayerType.encoder 1)). reflexivity.
  - apply (proj1 (proj2 (proj2 (X12_layer_types_as_constructed
                    (Examples.args false true false false true 2) (Examples.config 2)
                    encoder_or_decoder LayerType.encoder 1)))); done.
Defined.

Lemma X2_attention_construction_errors_witness :
  ParallelAttention.__init__ Examples.swiglu_args Examples.mpu false (Examples.config 2) 1
    AttnType.self_attn AttnMaskType.padding
  = Raise (AssertionError "attention_type == AttnType.cross_attn").
Proof.
  apply (proj2 (proj2 (proj2 (proj2 (X2_attention_construction_errors Examples.swiglu_args
           Examples.mpu false (Examples.config 2) 1 AttnType.self_attn
           AttnMaskType.padding)))) 8);
    first [reflexivity | cbn; lia | discriminate].
Defined.

Lemma X4_mlp_fused_gelu_needs_bias_witness :
  exists self,
    Idefics2ParallelMLP.__init__ Settings.fused_gelu_args Examples.mpu (Examples.config 2)
    = Ok self
    /\ Idefics2ParallelMLP.forward self [50; 3; 128]
       = Raise (AssertionError "self.add_bias is True").
Proof.
  destruct (X4_mlp_fused_gelu_needs_bias Settings.fused_gelu_args Examples.mpu
              (Examples.config 2)) as (self & Hinit & Hfw);
    try reflexivity; [cbn; lia|].
  exists self. split; [exact Hinit | exact (Hfw 50 3)].
Defined.

Lemma X5_layer_constructed_iff_witness :
  ParallelTransformerLayer.__init__ Examples.swiglu_args Examples.mpu false
    (Examples.config 2) 1 LayerType.retro_decoder_with_retriever AttnMaskType.padding
    0%float
  = Raise (NameError "ParallelTransformer")
  /\ ParallelTransformerLayer.__init__ (Examples.args false true false false true 2)
       Examples.mpu false (Examples.config 2) 1 LayerType.encoder AttnMaskType.padding
       0%float
     = Raise (NameError "get_retro_args")
  /\ is_ok (ParallelTransformerLayer.__init__ Examples.swiglu_args Examples.mpu false
              (Examples.config 2) 1 LayerType.encoder AttnMaskType.padding 0%float)
     = true.
Proof.
  split; [|split].
  - apply (proj2 (proj2 (X5_layer_constructed_iff Examples.swiglu_args Examples.mpu false
                    (Examples.config 2) 1 LayerType.encoder AttnMaskType.padding 0%float)));
      [exists 8; by apply constructible_example | reflexivity | discriminate].
  - apply (proj1 (proj2 (X5_layer_constructed_iff (Examples.args false true false false true 2)
                    Examples.mpu false (Examples.config 2) 1 LayerType.encoder
                    AttnMaskType.padding 0%float)));
      [exists 8; by apply constructible_example | reflexivity | reflexivity | reflexivity].
  - apply (proj1 (X5_layer_constructed_iff Examples.swiglu_args Examples.mpu false
                    (Examples.config 2) 1 LayerType.encoder AttnMaskType.padding 0%float)).
    split; [discriminate|]. split; [exists 8; by apply constructible_example|].
    split; [reflexivity | discriminate].
Defined.




Module CounterFacts.
Import Torch TorchFacts MegatronCore CacheFacts LayerFacts.
Import Idefics2PerceiverParallelTransformer.

Section Counters.
Context {A : Type} (ct : Contents A).

Lemma st_lift_inv {S X} (r : result X) (s s' : S) r' :
  st_lift r s = (s', r') -> s' = s /\ r' = r.
Proof. unfold st_lift. by intros [= <- <-]. Qed.

Lemma st_bind_inv {S X Y} (m : stateful S X) (f : X -> stateful S Y) s s' r :
  (m ≫= f) s = (s', r) ->
  (exists e, m s = (s', Raise e) /\ r = Raise e)
  \/ exists a s1, m s = (s1, Ok a) /\ f a s1 = (s', r).
Proof.
  unfold mbind, stateful_bind. destruct (m s) as [s1 [a|e]].
  - intros H. right. by exists a, s1.
  - intros [= <- <-]. left. by exists e.
Qed.

Lemma call_layer_kwargs_counters self meta seed l x context mask ro (st st' : mutable A) r :
  call_layer_kwargs ct self meta seed l x context mask ro st = (st', r) ->
  counters st' = counters st.
Proof.
  unfold call_layer_kwargs. destruct l as [n|t0].
  - intros H. by apply st_lift_inv in H as [-> _].
  - destruct (bool_decide _); [intros H; by apply st_lift_inv in H as [-> _]|].
    intros H. apply st_bind_inv in H as [(e & H & _)|(a & s1 & H & H')].
    + by apply st_lift_inv in H as [-> _].
    + apply st_lift_inv in H as [-> _]. unfold with_inference_params in H'.
      destruct (ParallelTransformerLayer.forward _ _ _ _ _ _ _ _ _) as [ip r'].
      by injection H' as <- _.
Qed.

Lemma layer_loop_counters self meta seed indices x context mask ro (st st' : mutable A) r :
  layer_loop ct self meta seed indices x context mask ro st = (st', r) ->
  counters st' = counters st.
Proof.
  revert x st. induction indices as [|i indices IH]; intros x st.
  - by intros [= <- _].
  - cbn [layer_loop]. intros H.
    apply st_bind_inv in H as [(e & H & _)|(l & s1 & H & H')].
    + by apply st_lift_inv in H as [-> _].
    + apply st_lift_inv in H as [-> _].
      apply st_bind_inv in H' as [(e & H & _)|(y & s2 & H & H')].
      * by eapply call_layer_kwargs_counters.
      * apply call_layer_kwargs_counters in H. apply IH in H'. congruence.
Qed.

Lemma call_layer_checkpointed_state self meta seed l x context mask (st st' : mutable A) r :
  call_layer_checkpointed ct self meta seed l x context mask st = (st', r) -> st' = st.
Proof.
  unfold call_layer_checkpointed. destruct l as [n|t0].
  - intros H. by apply st_lift_inv in H as [-> _].
  - destruct (bool_decide _); [intros H; by apply st_lift_inv in H as [-> _]|].
    intros H. apply st_bind_inv in H as [(e & H & _)|(a & s1 & H & H')].
    + by apply st_lift_inv in H as [-> _].
    + apply st_lift_inv in H as [-> _]. unfold without_inference_params in H'.
      by injection H' as <- _.
Qed.

Lemma custom_forward_state self meta seed indices x context mask (st st' : mutable A) r :
  custom_forward ct self meta seed indices x context mask st = (st', r) -> st' = st.
Proof.
  revert x st. induction indices as [|i indices IH]; intros x st.
  - by intros [= <- _].
  - cbn [custom_forward]. intros H.
    apply st_bind_inv in H as [(e & H & _)|(l & s1 & H & H')].
    + by apply st_lift_inv in H as [-> _].
    + apply st_lift_inv in H as [-> _].
      apply st_bind_inv in H' as [(e & H & _)|(y & s2 & H & H')].
      * by eapply call_layer_checkpointed_state.
      * apply call_layer_checkpointed_state in H as ->. by apply IH in H'.
Qed.

Lemma uniform_loop_state self mpu meta seed rounds l x context mask (st st' : mutable A) r :
  uniform_loop ct self mpu meta seed rounds l x context mask st = (st', r) -> st' = st.
Proof.
  revert l x st. induction rounds as [|rounds IH]; intros l x st.
  - cbn [uniform_loop]. destruct (_ <? _)%Z; [intros H; by apply st_lift_inv in H as [-> _]|].
    by intros [= <- _].
  - cbn [uniform_loop]. destruct (_ <? _)%Z; [|by intros [= <- _]].
    intros H. apply st_bind_inv in H as [(e & H & _)|(y & s1 & H & H')].
    + by eapply custom_forward_state.
    + apply custom_forward_state in H as ->.
      apply st_bind_inv in H' as [(e & H & _)|(u & s2 & H & H')].
      * destruct (bool_decide _); [discriminate|].
        destruct (_ =? _); [|discriminate].
        apply st_bind_inv in H as [(e' & H & _)|(u & s2 & H & H')].
        -- by apply st_lift_inv in H as [-> _].
        -- discriminate.
      * assert (s2 = st) as ->.
        { destruct (bool_decide _); [by injection H as <-|].
          destruct (_ =? _); [|by injection H as <-].
          apply st_bind_inv in H as [(e' & H & ?)|(u' & s3 & H & H'')]; [discriminate|].
          apply st_lift_inv in H as [-> _]. by injection H'' as <-. }
        by apply IH in H'.
Qed.

Lemma block_loop_state self meta seed ls x context mask (st st' : mutable A) r :
  block_loop ct self meta seed ls x context mask st = (st', r) -> st' = st.
Proof.
  revert x st. induction ls as [|l ls IH]; intros x st.
  - by intros [= <- _].
  - cbn [block_loop]. intros H.
    apply st_bind_inv in H as [(e & H & _)|(y & s1 & H & H')].
    + destruct (_ <? _)%Z; by eapply custom_forward_state.
    + assert (s1 = st) as -> by (destruct (_ <? _)%Z; by eapply custom_forward_state).
      by apply IH in H'.
Qed.

(** The full-recompute path leaves the whole state alone. *)
Lemma checkpointed_forward_state self mpu meta seed x context mask (st st' : mutable A) r :
  _checkpointed_forward ct self mpu meta seed x context mask st = (st', r) -> st' = st.
Proof.
  unfold _checkpointed_forward.
  destruct (bool_decide _); [apply uniform_loop_state|].
  destruct (bool_decide _); [apply block_loop_state|].
  intros H. by apply st_lift_inv in H as [-> _].
Qed.

End Counters.
End CounterFacts.

Module ForwardFacts.
Import Torch TorchFacts MegatronCore CacheFacts LayerFacts CounterFacts.
Import Idefics2PerceiverParallelTransformer.

Section Forward.
Context {A : Type} (ct : Contents A).

Lemma forward_counters mpu env self meta seed hidden_states mask ro (st st' : mutable A) out :
  forward ct mpu env self meta seed hidden_states mask ro st = (st', Ok out) ->
  counters st'
  = (get_num_microbatches env,
     ((if bool_decide (num_microbatches_in_previous_step st <> get_num_microbatches env)
       then 0 else microbatch_count st)
      + (if is_grad_enabled env && training self then 1 else 0))%Z).
Proof.
  unfold forward. intros H.
  apply st_bind_Ok_inv in H as (g0 & s0 & Hg0 & H).
  unfold st_get in Hg0. injection Hg0 as <- <-.
  apply st_bind_Ok_inv in H as (? & s1 & H1 & H).
  assert (s1 = st) as ->.
  { destruct (bool_decide _); [by apply st_lift_inv in H1 as [-> _] | by injection H1]. }
  apply st_bind_Ok_inv in H as (hs & s1 & H2 & H).
  assert (s1 = st) as ->.
  { destruct (negb _); [|by injection H2].
    destruct (input_tensor self); [by injection H2 | by apply st_lift_inv in H2 as [-> _]]. }
  apply st_bind_Ok_inv in H as ([context ?] & s1 & Hl & H).
  apply st_lift_inv in Hl as [-> _].
  apply st_bind_Ok_inv in H as (g1 & s1 & Hg1 & H).
  unfold st_get in Hg1. injection Hg1 as <- <-.
  apply st_bind_Ok_inv in H as (? & st1 & Hput & H).
  unfold st_put in Hput. injection Hput as Hst1.
  apply st_bind_Ok_inv in H as (? & s2 & H3 & H).
  assert (s2 = st1) as ->.
  { destruct (_ =? _)%Z; [by apply st_lift_inv in H3 as [-> _] | by injection H3]. }
  apply st_bind_Ok_inv in H as (? & s2 & Hl & H). apply st_lift_inv in Hl as [-> _].
  apply st_bind_Ok_inv in H as (? & s2 & Hl & H). apply st_lift_inv in Hl as [-> _].
  apply st_bind_Ok_inv in H as (? & s2 & H4 & H).
  assert (s2 = st1) as ->.
  { destruct (negb _); [by apply st_lift_inv in H4 as [-> _] | by injection H4]. }
  apply st_bind_Ok_inv in H as (? & s2 & Hl & H). apply st_lift_inv in Hl as [-> _].
  apply st_bind_Ok_inv in H as (? & s2 & Hl & H). apply st_lift_inv in Hl as [-> _].
  apply st_bind_Ok_inv in H as (cc & s2 & H5 & H).
  assert (Hc : counters s2 = counters st1).
  { destruct (bool_decide (recompute_granularity_ self = Some "full"%string)).
    - by apply checkpointed_forward_state in H5 as ->.
    - by eapply layer_loop_counters. }
  apply st_bind_Ok_inv in H as (g2 & s3 & Hg2 & H).
  unfold st_get in Hg2. injection Hg2 as <- <-.
  apply st_bind_Ok_inv in H as (? & s3 & H6 & H).
  apply st_bind_Ok_inv in H as (? & s4 & H7 & H).
  assert (s4 = s3) as ->.
  { destruct (_ && _) in H7; [|by injection H7].
    destruct (final_norm self); [|by apply st_lift_inv in H7 as [-> _]].
    apply st_bind_Ok_inv in H7 as (? & s5 & Hl & H7). apply st_lift_inv in Hl as [-> _].
    by apply st_lift_inv in H7 as [-> _]. }
  injection H as <- _.
  unfold counters in *. injection Hc as Hc1 Hc2. subst st1. cbn in Hc1, Hc2.
  destruct (is_grad_enabled env && training self).
  - unfold st_put in H6. injection H6 as <-. cbn. rewrite Hc1, Hc2. done.
  - injection H6 as <-. rewrite Hc1, Hc2. f_equal. lia.
Qed.

Lemma forward_inference_with_recompute mpu env self meta seed hidden_states mask ro
    (st : mutable A) :
  inference_params st <> None -> recompute_granularity_ self <> None ->
  forward ct mpu env self meta seed hidden_states mask ro st
  = (st, Raise (AssertionError "inference does not work with activation checkpointing")).
Proof.
  intros Hip Hrec. unfold forward.
  rewrite (st_bind_eq _ _ st st st) by done.
  rewrite (bool_decide_eq_true_2 (inference_params st <> None)) by done.
  rewrite (bool_decide_eq_false_2 (recompute_granularity_ self = None)) by done.
  reflexivity.
Qed.

Lemma forward_missing_input_tensor mpu env self meta seed hidden_states mask ro
    (st : mutable A) :
  pre_process self = false -> input_tensor self = None ->
  inference_params st = None \/ recompute_granularity_ self = None ->
  forward ct mpu env self meta seed hidden_states mask ro st
  = (st, Raise (AttributeError "NoneType has no attribute requires_grad")).
Proof.
  intros Hpre Hin Hok. unfold forward.
  rewrite (st_bind_eq _ _ st st st) by done.
  rewrite (st_bind_eq _ _ st st tt).
  - by rewrite Hpre, Hin.
  - destruct (bool_decide (inference_params st <> None)) eqn:E; [|done].
    apply bool_decide_eq_true in E. destruct Hok as [Hn| ->]; [done|].
    by rewrite bool_decide_eq_true_2.
Qed.

Lemma forward_ignores_argument mpu env self meta seed hs hs' mask ro (st : mutable A) :
  pre_process self = false ->
  forward ct mpu env self meta seed hs mask ro st
  = forward ct mpu env self meta seed hs' mask ro st.
Proof. intros Hpre. unfold forward. by rewrite Hpre. Qed.

End Forward.
End ForwardFacts.

(** X14. After a forward that returns, num_microbatches_in_previous_step
    is the current number of microbatches, and microbatch_count is its old
    value, reset to 0 first if the number of microbatches changed,
    increased by one exactly when gradients are enabled and the module is
    in training mode. *)
Theorem X14_microbatch_counter_law {A : Type} (ct : Contents A) mpu env self meta seed
    hidden_states mask ro (st st' : Idefics2PerceiverParallelTransformer.mutable A) out :
  Idefics2PerceiverParallelTransformer.forward ct mpu env self meta seed hidden_states mask
    ro st = (st', Ok out) ->
  counters st'
  = (get_num_microbatches env,
     ((if bool_decide (Idefics2PerceiverParallelTransformer.num_microbatches_in_previous_step st
                       <> get_num_microbatches env)
       then 0 else Idefics2PerceiverParallelTransformer.microbatch_count st)
      + (if is_grad_enabled env && Idefics2PerceiverParallelTransformer.training self
         then 1 else 0))%Z).
Proof. apply ForwardFacts.forward_counters. Qed.

Lemma X14_microbatch_counter_law_witness :
  exists self st' st'',
    Settings.training_transformer = Ok self
    /\ Idefics2PerceiverParallelTransformer.forward Examples.contents Examples.mpu
         Examples.env self Examples.meta 0 [3; 50; 128] (DenseMask [3; 50]) None
         (Idefics2PerceiverParallelTransformer.initial_state None) = (st', Ok [64; 3; 256])
    /\ counters st' = (1%Z, 1%Z)
    /\ Idefics2PerceiverParallelTransformer.forward Examples.contents Examples.mpu
         Examples.env self Examples.meta 0 [3; 50; 128] (DenseMask [3; 50]) None st'
       = (st'', Ok [64; 3; 256])
    /\ counters st'' = (1%Z, 2%Z).
Proof.
  destruct (ResamplerFacts.forward_shape_resampler Examples.contents Examples.swiglu_args
              Examples.mpu Examples.env true (Examples.config 2) encoder_or_decoder
              LayerType.encoder AttnMaskType.padding true true 0%float 8
              resampler_accepted_example) as (self & Hinit & Hfw).
  destruct (Hfw Examples.meta 0 3 50 (DenseMask [3; 50]) None
              (Idefics2PerceiverParallelTransformer.initial_state None))
    as [st' Hst']; [lia | reflexivity | reflexivity |].
  pose proof (X14_microbatch_counter_law _ _ _ _ _ _ _ _ _ _ _ _ Hst') as Hc.
  assert (Hself := Hinit). vm_compute in Hself. injection Hself as <-.
  assert (Hnone : Idefics2PerceiverParallelTransformer.inference_params st' = None).
  { vm_compute in Hst'. by injection Hst' as <-. }
  destruct (Hfw Examples.meta 0 3 50 (DenseMask [3; 50]) None st')
    as [st'' Hst'']; [lia | exact Hnone | reflexivity |].
  pose proof (X14_microbatch_counter_law _ _ _ _ _ _ _ _ _ _ _ _ Hst'') as Hc'.
  eexists _, st', st''. split; [reflexivity|].
  split; [exact Hst'|]. split; [exact Hc|]. split; [exact Hst''|].
  rewrite Hc'. unfold counters in Hc. injection Hc as -> ->. reflexivity.
Defined.

(** X15. What forward decides before it computes: with inference
    parameters and any recompute granularity it fails its first assertion
    and leaves the state alone; once that assertion passes, a stage
    without pre_process whose input_tensor was never set raises
    AttributeError; and without pre_process the hidden_states argument is
    ignored, so that two calls that differ only in it give the same
    result. *)
Theorem X15_forward_entry_checks {A : Type} (ct : Contents A) mpu env self meta seed
    hidden_states mask ro (st : Idefics2PerceiverParallelTransformer.mutable A) :
  let run := Idefics2PerceiverParallelTransformer.forward ct mpu env self meta seed
               hidden_states mask ro st in
  (Idefics2PerceiverParallelTransformer.inference_params st <> None ->
   Idefics2PerceiverParallelTransformer.recompute_granularity_ self <> None ->
   run = (st, Raise (AssertionError "inference does not work with activation checkpointing")))
  /\ (Idefics2PerceiverParallelTransformer.pre_process self = false ->
      Idefics2PerceiverParallelTransformer.input_tensor self = None ->
      Idefics2PerceiverParallelTransformer.inference_params st = None
      \/ Idefics2PerceiverParallelTransformer.recompute_granularity_ self = None ->
      exists name, run = (st, Raise (AttributeError name)))
  /\ (Idefics2PerceiverParallelTransformer.pre_process self = false ->
      forall other,
        run = Idefics2PerceiverParallelTransformer.forward ct mpu env self meta seed
                other mask ro st).
Proof.
  cbv zeta. split; [|split].
  - apply ForwardFacts.forward_inference_with_recompute.
  - intros Hpre Hin Hok. eexists. by apply ForwardFacts.forward_missing_input_tensor.
  - intros Hpre other. by apply ForwardFacts.forward_ignores_argument.
Qed.

Lemma X15_forward_entry_checks_witness :
  exists self,
    Settings.later_stage = Ok self
    /\ exists name,
         Idefics2PerceiverParallelTransformer.forward Examples.contents Examples.mpu
           Examples.env self Examples.meta 0 [3; 50; 128] (DenseMask [3; 50]) None
           (Idefics2PerceiverParallelTransformer.initial_state None)
         = (Idefics2PerceiverParallelTransformer.initial_state None,
            Raise (AttributeError name)).
Proof.
  destruct Settings.later_stage as [self|e] eqn:E; [|vm_compute in E; discriminate].
  exists self. split; [reflexivity|].
  assert (Hself := E). vm_compute in Hself. injection Hself as <-.
  apply (proj1 (proj2 (X15_forward_entry_checks Examples.contents Examples.mpu Examples.env _
                         Examples.meta 0 [3; 50; 128] (DenseMask [3; 50]) None
                         (Idefics2PerceiverParallelTransformer.initial_state None))));
    [reflexivity | reflexivity | by left].
Defined.

Module RecomputeFacts.
Import Torch TorchFacts MegatronCore CacheFacts LayerFacts ResamplerFacts StageFacts.
Import Idefics2PerceiverParallelTransformer.

Section Recompute.
Context {A : Type} (ct : Contents A).
Context (self : t) (args : Args) (config : Config) (meta : TensorMeta) (seed : nat).
Context (n L b : nat) (m : attn_mask).
Hypothesis Himpl : transformer_impl_ self <> "transformer_engine"%string.
Hypothesis Hgood : Forall (good_layer ct args config) (layers self).
Hypothesis Hn : 0 < n.
Hypothesis Hb : 0 < b.
Hypothesis Hm : layer_mask_ok args meta b n (L + n) (Some m).






Context (mpu : Mpu).
Hypothesis Hlen : length (layers self) = Z.to_nat (num_layers_ self).






End Recompute.
End RecomputeFacts.

Module GoodLayerFacts.
Import Idefics2PerceiverParallelTransformer.

Section Good.
Context {A : Type} (ct : Contents A).


End Good.
End GoodLayerFacts.




Module FlashCallFacts.
Import Torch TorchFacts FlashSelfAttention FlashFacts.




End FlashCallFacts.



Module GroupedQueryFacts.
Import Torch TorchFacts MegatronCore AttentionFacts CacheFacts.
Import ParallelAttention.

Section Cache.
Context {A : Type} (ct : Contents A).

Lemma expand_heads_mismatch sk b np ng hn :
  np <> ng -> np <> 1 ->
  exists site, expand_as [sk; b; np; hn] [sk; b; ng; hn] = Raise (RuntimeError site).
Proof.
  intros Hne H1. unfold expand_as, broadcast_shapes.
  change (reverse [sk; b; np; hn]) with [hn; np; b; sk].
  change (reverse [sk; b; ng; hn]) with [hn; ng; b; sk].
  cbn [broadcast_rev]. rewrite !broadcast_dim_refl. cbn [mbind option_bind].
  unfold broadcast_dim at 1.
  destruct (Nat.eqb_spec np ng); [done|]. destruct (Nat.eqb_spec np 1); [done|].
  destruct (Nat.eqb_spec ng 1) as [->|]; [|by eexists].
  cbn [mbind option_bind]. change (reverse [hn; np; b; sk]) with [sk; b; np; hn].
  rewrite bind_Ok, shape_eqb_neq; [by eexists|]. congruence.
Qed.

Lemma adjust_heads_mismatch self ip km vm key value S0 B0 sk b np ng hn st :
  c_shape km = [S0; B0; ng; hn] -> c_shape key = [sk; b; np; hn] ->
  batch_size_offset ip + b <= B0 -> sequence_len_offset ip + sk <= S0 ->
  np <> ng -> np <> 1 ->
  exists site,
    adjust_key_value ct self ip (Some (km, vm)) key value st
    = (st, Raise (RuntimeError site)).
Proof.
  intros Hkm Hkey Hb Hs Hne H1. unfold adjust_key_value.
  unfold mbind, stateful_bind, st_lift, py_local. rewrite Hkm, Hkey.
  cbn [size lookup list_lookup].
  rewrite (proj2 (Nat.leb_le _ _) Hb), (proj2 (Nat.leb_le _ _) Hs). cbn [py_assert].
  unfold setitem. rewrite Hkm, Hkey. unfold slice_len.
  rewrite !Nat.min_l by lia.
  replace (sequence_len_offset ip + sk - sequence_len_offset ip) with sk by lia.
  replace (batch_size_offset ip + b - batch_size_offset ip) with b by lia.
  destruct (expand_heads_mismatch sk b np ng hn Hne H1) as [site ->].
  by exists site.
Qed.

Lemma forward_heads_mismatch args mpu config self np meta sq L b m ip :
  constructed args mpu config self np ->
  key_value_memory_dict ip !! layer_number self = None ->
  batch_size_offset ip + b <= max_batch_size ip ->
  sequence_len_offset ip + (L + sq) <= max_sequence_length ip ->
  np <> num_query_groups_per_partition self -> np <> 1 ->
  exists site,
    forward ct self meta [sq; b; text_hidden_size config] [L; b; text_hidden_size config]
      m (Some ip)
    = (Some (preallocated ct self ip), Raise (RuntimeError site)).
Proof.
  intros C Hfresh Hb Hs Hne H1. unfold forward.
  rewrite (st_bind_eq st_get _ (Some ip) (Some ip) (Some ip)) by done.
  rewrite (st_bind_eq _ _ _ _ _ (preallocate_Some ct self ip)).
  unfold st_lift at 1.
  rewrite (st_bind_eq _ _ _ (Some (preallocated ct self ip)) _
             (f_equal (pair _) (project_qkv_shape _ _ _ _ _ sq L b C))).
  cbv beta iota.
  destruct (cache_entry ct self ip) as [km vm] eqn:Hentry.
  assert (Hkm : c_shape km = [max_sequence_length ip; max_batch_size ip;
                              num_query_groups_per_partition self; kv_channels config]).
  { unfold cache_entry in Hentry. rewrite Hfresh in Hentry. injection Hentry as <- _.
    cbn. by rewrite (c_hn_q _ _ _ _ _ C). }
  destruct (adjust_heads_mismatch self ip km vm
              {| c_shape := [L + sq; b; np; kv_channels config];
                 c_data := key_blocks ct (layer_number self) |}
              {| c_shape := [L + sq; b; np; kv_channels config];
                 c_data := value_blocks ct (layer_number self) |}
              _ _ (L + sq) b np _ _
              (Some (preallocated ct self ip)) Hkm eq_refl Hb Hs Hne H1) as [site Hadj].
  exists site.
  erewrite st_bind_raise; [reflexivity|].
  erewrite st_bind_raise; [reflexivity|]. exact Hadj.
Qed.

End Cache.
End GroupedQueryFacts.

(** X18. With group-query attention whose number of groups per partition
    differs from the number of heads per partition (and more than one
    head), the first inference call of a constructed attention raises
    RuntimeError, although the request fits the cache: the cache is
    allocated with the number of groups, the keys are expanded to the
    number of heads.  The allocated cache stays registered in the
    inference parameters. *)
Theorem X18_grouped_query_cache_mismatch {A : Type} (ct : Contents A) args mpu training config
    ln mty np meta sq L b m (ip : InferenceParams A) :
  accepted args mpu config np ->
  group_query_attention args = true ->
  num_query_groups args / tensor_model_parallel_world_size mpu <> np -> np <> 1 ->
  key_value_memory_dict ip !! Z.max 1 ln = None ->
  batch_size_offset ip + b <= max_batch_size ip ->
  sequence_len_offset ip + (L + sq) <= max_sequence_length ip ->
  exists self site,
    ParallelAttention.__init__ args mpu training config ln AttnType.cross_attn mty = Ok self
    /\ ParallelAttention.forward ct self meta
         [sq; b; text_hidden_size config] [L; b; text_hidden_size config] m (Some ip)
       = (Some (preallocated ct self ip), Raise (RuntimeError site))
    /\ is_Some (key_value_memory_dict (preallocated ct self ip) !! Z.max 1 ln).
Proof.
  intros Hacc Hgq Hne H1 Hfresh Hb Hs.
  destruct (AttentionFacts.init_accepted args mpu training config ln mty np Hacc)
    as (self & Hinit & C).
  pose proof (BuildFacts.attention_init_number _ _ _ _ _ _ _ _ Hinit) as Hnum.
  assert (Hng : np <> ParallelAttention.num_query_groups_per_partition self).
  { rewrite (c_groups _ _ _ _ _ C), Hgq. congruence. }
  rewrite <- Hnum in Hfresh.
  destruct (GroupedQueryFacts.forward_heads_mismatch ct args mpu config self np meta sq L b
              m ip C Hfresh Hb Hs Hng H1) as [site Hrun].
  exists self, site. split; [done|]. split; [done|].
  rewrite <- Hnum, CacheFacts.preallocated_lookup. by eexists.
Qed.

Lemma X18_grouped_query_cache_mismatch_witness :
  exists self site ip',
    Examples.attention Examples.gqa_args = Ok self
    /\ ParallelAttention.forward Examples.contents self Examples.meta
         [64; 2; 256] [50; 2; 256] (Some (DenseMask [2; 1; 64; 114]))
         (Some (Examples.inference_params 4 0 0))
       = (Some ip', Raise (RuntimeError site)).
Proof.
  destruct (X18_grouped_query_cache_mismatch Examples.contents Examples.gqa_args Examples.mpu
              false (Examples.config 2) 1 AttnMaskType.padding 8 Examples.meta 64 50 2
              (Some (DenseMask [2; 1; 64; 114])) (Examples.inference_params 4 0 0))
    as (self & site & Hinit & Hrun & _);
    [constructor;
       [constructor; first [reflexivity | cbn; lia | discriminate | by split] | cbn; lia]
    | reflexivity | cbn; lia | lia | reflexivity | cbn; lia | cbn; lia |].
  exists self, site, (preallocated Examples.contents self (Examples.inference_params 4 0 0)).
  split; [exact Hinit | exact Hrun].
Defined.

Module RenameFacts.
Import Idefics2PerceiverParallelTransformer StateDictFacts.
Section Facts.
Context {V : Type}.
Implicit Types (d acc items : dict V) (k : string) (v : V).

Lemma dict_getitem_setitem acc k v k' :
  dict_getitem (dict_setitem acc k v) k'
  = if bool_decide (k = k') then Ok v else dict_getitem acc k'.
Proof.
  induction acc as [|[k0 v0] acc IH].
  - cbn. by destruct (bool_decide (k = k')).
  - cbn [dict_setitem]. destruct (decide (k0 = k)) as [->|Hne].
    + rewrite bool_decide_eq_true_2 by done. cbn [dict_getitem].
      by destruct (bool_decide (k = k')).
    + rewrite bool_decide_eq_false_2 by done. cbn [dict_getitem]. rewrite IH.
      destruct (decide (k0 = k')) as [->|Hne'].
      * rewrite bool_decide_eq_true_2 by done.
        by rewrite (bool_decide_eq_false_2 (k = k')) by congruence.
      * by rewrite (bool_decide_eq_false_2 (k0 = k')).
Qed.

Lemma length_dict_setitem acc k v :
  length (dict_setitem acc k v) <= S (length acc).
Proof.
  induction acc as [|[k0 v0] acc IH]; [done|].
  cbn [dict_setitem]. destruct (bool_decide _); cbn; lia.
Qed.

Lemma rename_loop_lookup args d items acc :
  (forall k v, (k, v) ∈ items -> dict_getitem d k = Ok v) ->
  exists acc',
    rename_loop args d (dict_keys items) acc = Ok acc'
    /\ length acc' <= length acc + length items
    /\ forall k', dict_getitem acc' k'
         = match renamed_source args items k' with
           | Some v => Ok v
           | None => dict_getitem acc k'
           end.
Proof.
  revert acc. induction items as [|[k v] items IH]; intros acc Hget.
  - exists acc. split; [done|]. split; [cbn; lia | done].
  - destruct (IH (dict_setitem acc (renamed args k) v)) as (acc' & Hrun & Hlen & Hlk).
    { intros k0 v0 H0. apply Hget. apply elem_of_cons. by right. }
    exists acc'. split; [|split].
    + unfold dict_keys. rewrite fmap_cons. cbn [fst rename_loop].
      rewrite (Hget k v) by (apply elem_of_cons; by left).
      unfold renamed in Hrun.
      destruct (negb (bool_decide (transformer_impl args = "transformer_engine"%string)));
        rewrite !bind_Ok; exact Hrun.
    + pose proof (length_dict_setitem acc (renamed args k) v). cbn [length]. lia.
    + intros k'. rewrite Hlk, dict_getitem_setitem.
      unfold renamed_source. rewrite filter_cons. cbn [fst].
      destruct (decide (renamed args k = k')) as [Heq|Hne].
      * rewrite bool_decide_eq_true_2 by done.
        destruct (filter _ items) as [|x xs] eqn:Hf; [done|].
        rewrite last_cons_cons. destruct (last (x :: xs)) eqn:Hl; [done|].
        by apply last_None in Hl.
      * by rewrite bool_decide_eq_false_2.
Qed.

End Facts.
End RenameFacts.

(** X19. load_state_dict, key by key: on a state dict without duplicate
    keys it succeeds; the dict handed to the parent class holds, under
    each key, the value of the last entry in iteration order whose key is
    renamed to it, and raises KeyError for every other key; it never has
    more entries than the original; and with the transformer_engine
    implementation it is the original dict. *)
Theorem X19_load_state_dict_lookup {V : Type} (args : Args)
    (state_dict : Idefics2PerceiverParallelTransformer.dict V) (strict : bool) :
  NoDup (Idefics2PerceiverParallelTransformer.dict_keys state_dict) ->
  exists call,
    Idefics2PerceiverParallelTransformer.load_state_dict args state_dict strict = Ok call
    /\ length (Idefics2PerceiverParallelTransformer.loaded_state_dict call)
       <= length state_dict
    /\ (forall key',
          Idefics2PerceiverParallelTransformer.dict_getitem
            (Idefics2PerceiverParallelTransformer.loaded_state_dict call) key'
          = match renamed_source args state_dict key' with
            | Some v => Ok v
            | None => Raise (KeyError key')
            end)
    /\ (transformer_impl args = "transformer_engine"%string ->
        Idefics2PerceiverParallelTransformer.loaded_state_dict call = state_dict).
Proof.
  intros Hnd.
  destruct (RenameFacts.rename_loop_lookup args state_dict state_dict [])
    as (acc' & Hrun & Hlen & Hlk).
  { intros k v Hin. by apply StateDictFacts.dict_getitem_elem. }
  unfold Idefics2PerceiverParallelTransformer.load_state_dict. rewrite Hrun, bind_Ok.
  assert (Hengine : transformer_impl args = "transformer_engine"%string -> acc' = state_dict).
  { intros Himpl.
    assert (Hid : renamed args = id).
    { unfold renamed. rewrite bool_decide_eq_true_2 by done. reflexivity. }
    pose proof (StateDictFacts.rename_loop_items args state_dict state_dict []) as Hitems.
    rewrite Hid in Hitems. rewrite Hitems in Hrun.
    - injection Hrun as <-. cbn [app]. clear.
      induction state_dict as [|[k v] d IH]; [done|]. rewrite fmap_cons. by f_equal.
    - intros k v Hin. by apply StateDictFacts.dict_getitem_elem.
    - by rewrite list_fmap_id.
    - intros k _ Hin. by apply elem_of_nil in Hin. }
  destruct (use_mistral_rotary_position_embeddings args); eexists;
    (split; [reflexivity|]); cbn; (split; [cbn in Hlen; lia|]); (split; [exact Hlk | exact Hengine]).
Qed.

Lemma X19_load_state_dict_lookup_witness :
  exists call,
    Idefics2PerceiverParallelTransformer.load_state_dict Examples.swiglu_args
      [("a.layernorm"%string, 1); ("a.norm"%string, 2); ("b"%string, 3)] true = Ok call
    /\ Idefics2PerceiverParallelTransformer.loaded_state_dict call
       = [("a.norm"%string, 2); ("b"%string, 3)]
    /\ Idefics2PerceiverParallelTransformer.dict_getitem
         (Idefics2PerceiverParallelTransformer.loaded_state_dict call) "a.norm" = Ok 2
    /\ Idefics2PerceiverParallelTransformer.dict_getitem
         (Idefics2PerceiverParallelTransformer.loaded_state_dict call) "a.layernorm"
       = Raise (KeyError "a.layernorm").
Proof.
  destruct (X19_load_state_dict_lookup Examples.swiglu_args
              [("a.layernorm"%string, 1); ("a.norm"%string, 2); ("b"%string, 3)] true)
    as (call & Hrun & _ & Hlk & _).
  { apply (bool_decide_unpack _). by vm_compute. }
  exists call. split; [exact Hrun|].
  split; [vm_compute in Hrun; by injection Hrun as <-|].
  split; [exact (Hlk "a.norm"%string) | exact (Hlk "a.layernorm"%string)].
Defined.
